(** * Learning Management System API: access control, pagination, grading

    A shallow embedding of the route handlers of [routes.py] and of the
    authentication helpers of [auth.py].  The document store is a record of
    collections, each a list of documents in insertion order; a handler is a
    function from the store to an outcome and the store it leaves behind. *)

From Stdlib Require Import ZArith List String Ascii Bool Lia Uint63 PrimFloat.
From Stdlib Require Import DecimalString.
Import ListNotations.
Open Scope string_scope.
Open Scope Z_scope.

(** ** Exceptions and outcomes *)

(** What a handler can raise: FastAPI's [HTTPException], and the exceptions of
    the libraries the handlers call without catching them. *)
Inductive Exc : Type :=
| HTTPException (status_code : Z) (detail : string)
| InvalidId (oid : string)
| PydanticValidationError (field : string)
| UnknownHashError
| PasswordValueError
| ValueError
| OverflowError
| ZeroDivisionError.

Inductive Res (A : Type) : Type :=
| Ok (a : A)
| Raise (e : Exc).
Arguments Ok {A} a.
Arguments Raise {A} e.

Definition status_of (e : Exc) : Z :=
  match e with
  | HTTPException c _ => c
  | _ => 500
  end.

(** ** bson.ObjectId

    [ObjectId(s)] takes a string of 24 characters and hands it to
    [bytes.fromhex]: pairs of hexadecimal digits, with ASCII whitespace skipped
    before each pair.  Any other string raises [InvalidId].  A string of 24
    hexadecimal digits gives the usual twelve bytes; one with whitespace in it
    gives fewer.  Two ids are equal when their bytes are, so the case of the
    digits does not matter.  An id is kept as the list of its hexadecimal
    digits, two for each byte. *)
Module Bson.

Definition hex_value (c : ascii) : option N :=
  let n := N_of_ascii c in
  if ((48 <=? n) && (n <=? 57))%N then Some (n - 48)%N
  else if ((97 <=? n) && (n <=? 102))%N then Some (n - 87)%N
  else if ((65 <=? n) && (n <=? 70))%N then Some (n - 55)%N
  else None.

Fixpoint hex_digits (s : string) : option (list N) :=
  match s with
  | EmptyString => Some []
  | String c s' =>
      match hex_value c, hex_digits s' with
      | Some d, Some ds => Some (d :: ds)
      | _, _ => None
      end
  end.

(** The characters [bytes.fromhex] skips: tab, line feed, vertical tab, form
    feed, carriage return and space. *)
Definition is_space (c : ascii) : bool :=
  let n := N_of_ascii c in
  (((9 <=? n) && (n <=? 13)) || (n =? 32))%N.

Fixpoint fromhex (s : string) : option (list N) :=
  match s with
  | EmptyString => Some []
  | String c s' =>
      if is_space c then fromhex s'
      else
        match hex_value c with
        | None => None
        | Some top =>
            match s' with
            | EmptyString => None
            | String c' s'' =>
                match hex_value c' with
                | None => None
                | Some bot =>
                    match fromhex s'' with
                    | Some ds => Some (top :: bot :: ds)
                    | None => None
                    end
                end
            end
        end
  end.

Record ObjectId : Type := mkObjectId { digits : list N }.

Definition ObjectId_new (s : string) : Res ObjectId :=
  if (String.length s =? 24)%nat then
    match fromhex s with
    | Some ds => Ok (mkObjectId ds)
    | None => Raise (InvalidId s)
    end
  else Raise (InvalidId s).

Definition is_valid (s : string) : bool :=
  match ObjectId_new s with Ok _ => true | Raise _ => false end.

Fixpoint digits_eqb (a b : list N) : bool :=
  match a, b with
  | [], [] => true
  | x :: a', y :: b' => (x =? y)%N && digits_eqb a' b'
  | _, _ => false
  end.

Definition eqb (a b : ObjectId) : bool := digits_eqb (digits a) (digits b).

Definition hex_char (d : N) : ascii :=
  if (d <? 10)%N then ascii_of_N (d + 48) else ascii_of_N (d + 87).

Fixpoint hex_string (ds : list N) : string :=
  match ds with
  | [] => EmptyString
  | d :: ds' => String (hex_char d) (hex_string ds')
  end.

(** [str(oid)]: the lowercase hexadecimal digits of the bytes, 24 of them for
    an id of twelve bytes. *)
Definition str (o : ObjectId) : string := hex_string (digits o).

End Bson.

Abbreviation ObjectId := Bson.ObjectId.

(** A key of a stored document: absent, present with [None], or present with
    a value. *)
Inductive Field (A : Type) : Type :=
| Missing
| PyNone
| Val (a : A).
Arguments Missing {A}.
Arguments PyNone {A}.
Arguments Val {A} a.

(** ** Documents and collections ([database.py], [models.py]) *)

Record UserDoc : Type := mkUserDoc {
  user_oid : ObjectId;
  user_username : string;
  user_hashed_password : string;
  user_is_admin : option bool
}.

Record CourseDoc : Type := mkCourseDoc {
  course_oid : ObjectId;
  course_title : string;
  course_description : string;
  course_instructor : string;
  course_price : float;
  course_created_by : Field ObjectId
}.

Record EnrollmentDoc : Type := mkEnrollmentDoc {
  enr_oid : ObjectId;
  enr_user_id : ObjectId;
  enr_course_id : ObjectId
}.

Record LessonDoc : Type := mkLessonDoc {
  lesson_oid : ObjectId;
  lesson_title : string;
  lesson_video_url : string;
  lesson_resource_links : option string;
  lesson_course_id : ObjectId
}.

Record QuizDoc : Type := mkQuizDoc {
  quiz_oid : ObjectId;
  quiz_title : string;
  quiz_course_id : ObjectId
}.

Record QuestionDoc : Type := mkQuestionDoc {
  question_oid : ObjectId;
  question_text : string;
  question_options : list string;
  question_correct_answer : Z;
  question_quiz_id : ObjectId
}.

Record LessonCompletionDoc : Type := mkLessonCompletionDoc {
  lc_oid : ObjectId;
  lc_user_id : ObjectId;
  lc_lesson_id : ObjectId;
  lc_timestamp : Z
}.

Record QuizAttemptDoc : Type := mkQuizAttemptDoc {
  qa_oid : ObjectId;
  qa_user_id : ObjectId;
  qa_quiz_id : ObjectId;
  qa_answers : list Z;
  qa_score : Z;
  qa_timestamp : Z
}.

Record Store : Type := mkStore {
  users_collection : list UserDoc;
  courses_collection : list CourseDoc;
  enrollments_collection : list EnrollmentDoc;
  lessons_collection : list LessonDoc;
  quizzes_collection : list QuizDoc;
  questions_collection : list QuestionDoc;
  lesson_completions_collection : list LessonCompletionDoc;
  quiz_attempts_collection : list QuizAttemptDoc
}.

Definition empty_store : Store := mkStore [] [] [] [] [] [] [] [].

(** ** The collection interface of the driver *)
Section Collection.
Context {D : Type}.

Definition find (query : D -> bool) (c : list D) : list D := filter query c.

Definition find_one (query : D -> bool) (c : list D) : option D :=
  List.find query c.

Definition count_documents (query : D -> bool) (c : list D) : Z :=
  Z.of_nat (List.length (filter query c)).

(** [insert_one] appends: the natural order of a collection is the order of
    insertion. *)
Definition insert_one (d : D) (c : list D) : list D := c ++ [d].

(** [cursor.skip(n)] and [cursor.limit(n)]; a handler only calls them with
    [n >= 0]. *)
Definition skip (n : Z) (c : list D) : list D := skipn (Z.to_nat n) c.

Definition limit (n : Z) (c : list D) : list D := firstn (Z.to_nat n) c.

End Collection.

(** Python's [a // b] on integers. *)
Definition floordiv (a b : Z) : Res Z :=
  if b =? 0 then Raise ZeroDivisionError else Ok (a / b).

(** ** Pagination ([routes.py], [paginate_collection]) *)

Record Page (D : Type) : Type := mkPage {
  items : list D;
  total : Z;
  page : Z;
  size : Z;
  pages : Z;
  has_next : bool;
  has_prev : bool
}.
Arguments mkPage {D}.
Arguments items {D}.
Arguments total {D}.
Arguments page {D}.
Arguments size {D}.
Arguments pages {D}.
Arguments has_next {D}.
Arguments has_prev {D}.

(** The items are the stored documents; the handler's rewriting of each
    [_id] into its string form is left to [Bson.str]. *)
Definition paginate_collection {D : Type} (collection : list D)
    (query : D -> bool) (page size : Z) : Res (Page D) :=
  let skip_ := (page - 1) * size in
  let total := count_documents query collection in
  let items := limit size (skip skip_ (find query collection)) in
  match floordiv (total + size - 1) size with
  | Raise e => Raise e
  | Ok pages =>
      let has_next := page <? pages in
      let has_prev := page >? 1 in
      Ok (mkPage items total page size pages has_next has_prev)
  end.

(** ** Handlers: store passing with exceptions *)

Definition Handler (A : Type) : Type := Store -> Res A * Store.

Definition ret {A : Type} (a : A) : Handler A := fun s => (Ok a, s).

Definition raise {A : Type} (e : Exc) : Handler A := fun s => (Raise e, s).

Definition bind {A B : Type} (m : Handler A) (k : A -> Handler B) : Handler B :=
  fun s =>
    match m s with
    | (Ok a, s') => k a s'
    | (Raise e, s') => (Raise e, s')
    end.

Definition lift {A : Type} (r : Res A) : Handler A := fun s => (r, s).

Definition gets {A : Type} (f : Store -> A) : Handler A := fun s => (Ok (f s), s).

Definition modify (f : Store -> Store) : Handler unit := fun s => (Ok tt, f s).

Declare Scope handler_scope.
Delimit Scope handler_scope with handler.
Notation "x <- m ;; k" := (bind m (fun x => k))
  (at level 61, m at next level, right associativity) : handler_scope.
Notation "m ;;; k" := (bind m (fun _ => k))
  (at level 61, right associativity) : handler_scope.
Open Scope handler_scope.

Definition insert_user (d : UserDoc) (s : Store) : Store :=
  mkStore (insert_one d (users_collection s)) (courses_collection s)
    (enrollments_collection s) (lessons_collection s) (quizzes_collection s)
    (questions_collection s) (lesson_completions_collection s)
    (quiz_attempts_collection s).

Definition insert_enrollment (d : EnrollmentDoc) (s : Store) : Store :=
  mkStore (users_collection s) (courses_collection s)
    (insert_one d (enrollments_collection s)) (lessons_collection s)
    (quizzes_collection s) (questions_collection s)
    (lesson_completions_collection s) (quiz_attempts_collection s).

Definition insert_lesson_completion (d : LessonCompletionDoc) (s : Store) : Store :=
  mkStore (users_collection s) (courses_collection s)
    (enrollments_collection s) (lessons_collection s) (quizzes_collection s)
    (questions_collection s) (insert_one d (lesson_completions_collection s))
    (quiz_attempts_collection s).

Definition insert_quiz_attempt (d : QuizAttemptDoc) (s : Store) : Store :=
  mkStore (users_collection s) (courses_collection s)
    (enrollments_collection s) (lessons_collection s) (quizzes_collection s)
    (questions_collection s) (lesson_completions_collection s)
    (insert_one d (quiz_attempts_collection s)).

(** The driver encodes a Python integer in at most eight bytes and raises
    [OverflowError], before anything is stored, for one that does not fit. *)
Definition int64_ok (z : Z) : bool := (- 2 ^ 63 <=? z) && (z <? 2 ^ 63).

(** [collection.insert_one(d)] for a document that carries integers. *)
Definition insert_checked {D : Type} (encodable : D -> bool)
    (insert : D -> Store -> Store) (d : D) : Handler unit :=
  if encodable d then modify (insert d) else raise OverflowError.

Definition quiz_attempt_encodable (d : QuizAttemptDoc) : bool :=
  forallb int64_ok (qa_answers d) && int64_ok (qa_score d).

Definition question_encodable (d : QuestionDoc) : bool :=
  int64_ok (question_correct_answer d).

(** ** Models and schemas ([models.py], [schemas.py]) *)

(** [models.User]; [id] holds the stored [_id] converted to a string. *)
Record User : Type := mkUser {
  id : string;
  username : string;
  hashed_password : string;
  is_admin : bool
}.

Record Question : Type := mkQuestion {
  q_id : string;
  text : string;
  options : list string;
  correct_answer : Z;
  q_quiz_id : string
}.

(** [admin: Optional[bool] = False]: the body may carry [true], [false] or
    [null]. *)
Record UserCreate : Type := mkUserCreate {
  uc_username : string;
  uc_password : string;
  uc_admin : option bool
}.

Record UserOut : Type := mkUserOut {
  uo_id : string;
  uo_username : string;
  uo_is_admin : bool
}.

Record EnrollmentOut : Type := mkEnrollmentOut {
  eo_id : string;
  eo_user_id : string;
  eo_course_id : string
}.

Record LessonCompletionOut : Type := mkLessonCompletionOut {
  lco_id : string;
  lco_user_id : string;
  lco_lesson_id : string;
  lco_timestamp : Z
}.

Record QuizAttemptCreate : Type := mkQuizAttemptCreate {
  answers : list Z
}.

Record QuizAttemptOut : Type := mkQuizAttemptOut {
  qao_id : string;
  qao_user_id : string;
  qao_quiz_id : string;
  qao_answers : list Z;
  score : Z;
  qao_timestamp : Z
}.

Record CourseProgressOut : Type := mkCourseProgressOut {
  lessons_completed : Z;
  total_lessons : Z;
  quizzes_attempted : Z;
  total_quizzes : Z;
  percent_completed : float
}.

(** ** Authentication ([auth.py]) *)

(** The claims python-jose hands back: [sub] may be absent, a string, or a
    value of another type; [exp] is a POSIX time when present. *)
Inductive SubClaim : Type :=
| SubAbsent
| SubString (s : string)
| SubOther.

Record Claims : Type := mkClaims {
  claim_sub : SubClaim;
  claim_exp : option Z
}.

(** The exceptions of [jose]; the last two are subclasses of the first. *)
Inductive JWTError : Type :=
| JWTError_
| ExpiredSignatureError
| JWTClaimsError.

(** passlib identifies a bcrypt hash by its prefix. *)
Definition bcrypt_ident_values : list string :=
  ["$2$"; "$2a$"; "$2x$"; "$2y$"; "$2b$"].

Definition bcrypt_identify (hash : string) : bool :=
  existsb (fun ident => String.prefix ident hash) bcrypt_ident_values.

Definition credentials_exception : Exc :=
  HTTPException 401 "Could not validate credentials".

(** ** passlib's [CryptContext] with the one scheme bcrypt

    A bcrypt hash is an identifier, a cost of two digits, 22 characters of
    salt and 31 of digest, as in [$2b$12$] followed by 53 characters.  Every
    failure below is a [ValueError] in Python; [UnknownHashError] and
    [PasswordValueError] are passlib's subclasses of it. *)
Module Passlib.

Definition MAX_PASSWORD_SIZE : nat := 4096.

Definition bcrypt64_charmap : string :=
  "./ABCDEFGHIJKLMNOPQRSTUVWXYZabcdefghijklmnopqrstuvwxyz0123456789".

Fixpoint str_mem (c : ascii) (s : string) : bool :=
  match s with
  | EmptyString => false
  | String c' s' => Ascii.eqb c c' || str_mem c s'
  end.

Fixpoint str_forall (p : ascii -> bool) (s : string) : bool :=
  match s with
  | EmptyString => true
  | String c s' => p c && str_forall p s'
  end.

Definition contains_nul (s : string) : bool := str_mem Ascii.zero s.

Fixpoint take (n : nat) (s : string) : string :=
  match n, s with
  | S n', String c s' => String c (take n' s')
  | _, _ => EmptyString
  end.

Fixpoint drop (n : nat) (s : string) : string :=
  match n, s with
  | S n', String _ s' => drop n' s'
  | _, _ => s
  end.

(** [_parse_ident]: the first identifier the hash starts with, and the rest. *)
Fixpoint parse_ident (idents : list string) (hash : string)
    : option (string * string) :=
  match idents with
  | [] => None
  | ident :: rest =>
      if String.prefix ident hash then Some (ident, drop (String.length ident) hash)
      else parse_ident rest hash
  end.

Fixpoint split_at_dollar (s : string) : option (string * string) :=
  match s with
  | EmptyString => None
  | String c s' =>
      if Ascii.eqb c "$" then Some (EmptyString, s')
      else match split_at_dollar s' with
           | Some (a, b) => Some (String c a, b)
           | None => None
           end
  end.

(** [rounds_str, data = tail.split("$")]: exactly two parts. *)
Definition split_two (tail : string) : option (string * string) :=
  match split_at_dollar tail with
  | Some (a, b) => if str_mem "$" b then None else Some (a, b)
  | None => None
  end.

Definition digit_value (c : ascii) : option Z :=
  let n := Z.of_N (N_of_ascii c) in
  if (48 <=? n) && (n <=? 57) then Some (n - 48) else None.

(** The cost field: the two digits of a number from 4 to 31. *)
Definition parse_cost (rounds_str : string) : option Z :=
  match rounds_str with
  | String a (String b EmptyString) =>
      match digit_value a, digit_value b with
      | Some x, Some y =>
          let rounds := 10 * x + y in
          if (4 <=? rounds) && (rounds <=? 31) then Some rounds else None
      | _, _ => None
      end
  | _ => None
  end.

Record BcryptHash : Type := mkBcryptHash {
  bh_ident : string;
  bh_rounds : Z;
  bh_salt : string;
  bh_checksum : option string
}.

Definition in_charmap (s : string) : bool :=
  str_forall (fun c => str_mem c bcrypt64_charmap) s.

(** [cm.index(c)] for a character of the alphabet. *)
Fixpoint index_of (c : ascii) (s : string) : nat :=
  match s with
  | EmptyString => 0
  | String c' s' => if Ascii.eqb c c' then 0 else S (index_of c s')
  end.

Definition char_at (i : nat) (s : string) : ascii :=
  match String.get i s with
  | Some c => c
  | None => Ascii.zero
  end.

(** The last character replaced by the one whose value has the padding
    [bits] cleared, when one of them is set. *)
Fixpoint repair_last (bits : N) (source : string) : string :=
  match source with
  | EmptyString => EmptyString
  | String last EmptyString =>
      let i := N.of_nat (index_of last bcrypt64_charmap) in
      if (N.land i bits =? 0)%N then source
      else String (char_at (N.to_nat (N.ldiff i bits)) bcrypt64_charmap) EmptyString
  | String c rest => String c (repair_last bits rest)
  end.

(** [bcrypt64.check_repair_unused] (a big-endian engine): a string of length
    2 modulo 4 has four unused low bits in its last character, one of length
    3 modulo 4 has two. *)
Definition check_repair_unused (source : string) : string :=
  match (String.length source mod 4)%nat with
  | 2%nat => repair_last 15 source
  | 3%nat => repair_last 3 source
  | _ => source
  end.

(** [bcrypt.from_string] with the checks of the handler's constructor: the
    salt and the digest are checked, then their unused bits are cleared. *)
Definition from_string (idents : list string) (hash : string) : Res BcryptHash :=
  match parse_ident idents hash with
  | None => Raise ValueError
  | Some (ident, tail) =>
      if String.eqb ident "$2x$" then Raise ValueError
      else
        match split_two tail with
        | None => Raise ValueError
        | Some (rounds_str, data) =>
            match parse_cost rounds_str with
            | None => Raise ValueError
            | Some rounds =>
                let salt := take 22 data in
                let chk := drop 22 data in
                if negb ((String.length salt =? 22)%nat && in_charmap salt) then
                  Raise ValueError
                else if (String.length chk =? 0)%nat then
                  Ok (mkBcryptHash ident rounds (check_repair_unused salt) None)
                else if negb ((String.length chk =? 31)%nat && in_charmap chk) then
                  Raise ValueError
                else Ok (mkBcryptHash ident rounds (check_repair_unused salt)
                           (Some (check_repair_unused chk)))
            end
        end
  end.

(** [validate_secret], and the refusal of a NUL byte by the bcrypt handler. *)
Definition secret_too_long (secret : string) : bool :=
  (MAX_PASSWORD_SIZE <? String.length secret)%nat.

End Passlib.

Section Auth.

(** The bcrypt backend behind [pwd_context.hash]: the hash string made for a
    password, with a salt of the backend's choosing. *)
Variable pwd_hash : string -> Res string.

(** The bcrypt backend behind [pwd_context.verify]: the digest of a password
    under an identifier, a cost and a salt. *)
Variable bcrypt_digest : string -> Z -> string -> string -> Res string.

(** Signature verification of [jose.jws]: the claims of a token signed with
    the key, [None] for any other string. *)
Variable jws_verify : string -> string -> option Claims.
Variable SECRET_KEY : string.

(** [pwd_context.hash]: a password that is too long or holds a NUL byte is
    refused before any hash is made. *)
Definition get_password_hash (password : string) : Res string :=
  if Passlib.secret_too_long password then Raise PasswordValueError
  else if Passlib.contains_nul password then Raise PasswordValueError
  else pwd_hash password.

(** [CryptContext.verify] with the single scheme bcrypt: a hash no scheme
    identifies raises [UnknownHashError]; an identified hash is parsed, and
    the digest of the password is compared with the one it carries. *)
Definition pwd_context_verify (secret hash : string) : Res bool :=
  if negb (bcrypt_identify hash) then Raise UnknownHashError
  else if Passlib.secret_too_long secret then Raise PasswordValueError
  else
    match Passlib.from_string bcrypt_ident_values hash with
    | Raise e => Raise e
    | Ok h =>
        match Passlib.bh_checksum h with
        | None => Raise ValueError
        | Some chk =>
            if Passlib.contains_nul secret then Raise PasswordValueError
            else
              match bcrypt_digest (Passlib.bh_ident h) (Passlib.bh_rounds h)
                      (Passlib.bh_salt h) secret with
              | Raise e => Raise e
              | Ok digest => Ok (String.eqb digest chk)
              end
        end
    end.

Definition verify_password (plain_password hashed_password : string) : Res bool :=
  pwd_context_verify plain_password hashed_password.

(** [jwt.decode]: the signature, then the registered claims [exp] and [sub]. *)
Definition jwt_decode (token key : string) (now : Z) : JWTError + Claims :=
  match jws_verify token key with
  | None => inl JWTError_
  | Some claims =>
      match claim_exp claims with
      | Some exp =>
          if exp <? now then inl ExpiredSignatureError
          else match claim_sub claims with
               | SubOther => inl JWTClaimsError
               | _ => inr claims
               end
      | None =>
          match claim_sub claims with
          | SubOther => inl JWTClaimsError
          | _ => inr claims
          end
      end
  end.

Definition get_user_by_username (username : string) : Handler (option User) :=
  user_data <- gets (fun s =>
    find_one (fun u => String.eqb (user_username u) username) (users_collection s)) ;;
  match user_data with
  | Some d =>
      match user_is_admin d with
      | Some a =>
          ret (Some (mkUser (Bson.str (user_oid d)) (user_username d)
                       (user_hashed_password d) a))
      | None => raise (PydanticValidationError "is_admin")
      end
  | None => ret None
  end.

(** [None] stands for the [False] the Python function returns. *)
Definition authenticate_user (username password : string) : Handler (option User) :=
  user <- get_user_by_username username ;;
  match user with
  | None => ret None
  | Some u =>
      ok <- lift (verify_password password (hashed_password u)) ;;
      if negb ok then ret None else ret (Some u)
  end.

Definition get_current_user (credentials : string) (now : Z) : Handler User :=
  match jwt_decode credentials SECRET_KEY now with
  | inl _ => raise credentials_exception
  | inr payload =>
      match claim_sub payload with
      | SubString username =>
          user <- get_user_by_username username ;;
          match user with
          | None => raise credentials_exception
          | Some u => ret u
          end
      | _ => raise credentials_exception
      end
  end.

Definition get_current_admin_user (current_user : User) : Handler User :=
  if negb (is_admin current_user) then
    raise (HTTPException 403 "Admin privileges required")
  else ret current_user.

(** ** Signup ([routes.py]) *)

(** Python's [a or b] with [a] a boolean and [b] an optional boolean. *)
Definition py_or (a : bool) (b : option bool) : option bool :=
  if a then Some true else b.

Definition signup (user : UserCreate) (inserted_id : ObjectId) : Handler UserOut :=
  existing_user <- gets (fun s =>
    find_one (fun u => String.eqb (user_username u) (uc_username user))
      (users_collection s)) ;;
  match existing_user with
  | Some _ => raise (HTTPException 400 "Username already registered")
  | None =>
      hashed_password <- lift (get_password_hash (uc_password user)) ;;
      user_count <- gets (fun s =>
        count_documents (fun _ => true) (users_collection s)) ;;
      let is_first_user := user_count =? 0 in
      let is_admin := py_or is_first_user (uc_admin user) in
      modify (insert_user
        (mkUserDoc inserted_id (uc_username user) hashed_password is_admin)) ;;;
      match is_admin with
      | Some a => ret (mkUserOut (Bson.str inserted_id) (uc_username user) a)
      | None => raise (PydanticValidationError "is_admin")
      end
  end.

End Auth.

(** ** Course ownership ([routes.py], [get_course_creator_user]) *)

Definition by_id {D : Type} (oid_of : D -> ObjectId) (oid : ObjectId) (d : D) : bool :=
  Bson.eqb (oid_of d) oid.

Definition legacy_course_detail : string :=
  "This course was created before ownership tracking was implemented. Only admins can modify it.".

Definition not_creator_detail : string :=
  "Only the course creator can modify this course".

Definition get_course_creator_user (course_id : string) (current_user : User)
    : Handler User :=
  cid <- lift (Bson.ObjectId_new course_id) ;;
  course <- gets (fun s => find_one (by_id course_oid cid) (courses_collection s)) ;;
  match course with
  | None => raise (HTTPException 404 "Course not found")
  | Some course =>
      match course_created_by course with
      | Missing | PyNone => raise (HTTPException 403 legacy_course_detail)
      | Val created_by =>
          uid <- lift (Bson.ObjectId_new (id current_user)) ;;
          if negb (Bson.eqb created_by uid) then
            raise (HTTPException 403 not_creator_detail)
          else ret current_user
      end
  end.

(** ** Enrollment and lesson completion *)

Definition enroll_course (course_id : string) (current_user : User)
    (inserted_id : ObjectId) : Handler EnrollmentOut :=
  cid <- lift (Bson.ObjectId_new course_id) ;;
  course <- gets (fun s => find_one (by_id course_oid cid) (courses_collection s)) ;;
  match course with
  | None => raise (HTTPException 404 "Course not found")
  | Some _ =>
      uid <- lift (Bson.ObjectId_new (id current_user)) ;;
      existing_enrollment <- gets (fun s =>
        find_one (fun e => Bson.eqb (enr_user_id e) uid && Bson.eqb (enr_course_id e) cid)
          (enrollments_collection s)) ;;
      match existing_enrollment with
      | Some _ => raise (HTTPException 400 "Already enrolled in this course")
      | None =>
          modify (insert_enrollment (mkEnrollmentDoc inserted_id uid cid)) ;;;
          ret (mkEnrollmentOut (Bson.str inserted_id) (Bson.str uid) (Bson.str cid))
      end
  end.

Definition complete_lesson (lesson_id : string) (current_user : User)
    (utcnow : Z) (inserted_id : ObjectId) : Handler LessonCompletionOut :=
  lid <- lift (Bson.ObjectId_new lesson_id) ;;
  lesson <- gets (fun s => find_one (by_id lesson_oid lid) (lessons_collection s)) ;;
  match lesson with
  | None => raise (HTTPException 404 "Lesson not found")
  | Some _ =>
      uid <- lift (Bson.ObjectId_new (id current_user)) ;;
      existing_completion <- gets (fun s =>
        find_one (fun c => Bson.eqb (lc_user_id c) uid && Bson.eqb (lc_lesson_id c) lid)
          (lesson_completions_collection s)) ;;
      match existing_completion with
      | Some _ => raise (HTTPException 400 "Lesson already marked as completed")
      | None =>
          modify (insert_lesson_completion
                    (mkLessonCompletionDoc inserted_id uid lid utcnow)) ;;;
          ret (mkLessonCompletionOut (Bson.str inserted_id) (Bson.str uid)
                 (Bson.str lid) utcnow)
      end
  end.

(** ** Quiz attempts *)

Definition to_Question (d : QuestionDoc) : Question :=
  mkQuestion (Bson.str (question_oid d)) (question_text d) (question_options d)
    (question_correct_answer d) (Bson.str (question_quiz_id d)).

(** [enumerate(questions)] *)
Definition enumerate {A : Type} (l : list A) : list (nat * A) :=
  combine (seq 0 (List.length l)) l.

(** The scoring loop: [score] is threaded through the iterations. *)
Fixpoint score_loop (answers : list Z) (qs : list (nat * Question)) (score : Z) : Z :=
  match qs with
  | [] => score
  | (i, q) :: rest =>
      let hit :=
        (i <? List.length answers)%nat &&
        match nth_error answers i with
        | Some a => a =? correct_answer q
        | None => false
        end in
      score_loop answers rest (if hit then score + 1 else score)
  end.

Definition answers_mismatch_detail : string :=
  "Number of answers does not match number of questions".

Definition attempt_quiz (quiz_id : string) (attempt : QuizAttemptCreate)
    (current_user : User) (utcnow : Z) (inserted_id : ObjectId)
    : Handler QuizAttemptOut :=
  qid <- lift (Bson.ObjectId_new quiz_id) ;;
  quiz <- gets (fun s => find_one (by_id quiz_oid qid) (quizzes_collection s)) ;;
  match quiz with
  | None => raise (HTTPException 404 "Quiz not found")
  | Some _ =>
      questions <- gets (fun s =>
        map to_Question (find (by_id question_quiz_id qid) (questions_collection s))) ;;
      if negb (List.length (answers attempt) =? List.length questions)%nat then
        raise (HTTPException 400 answers_mismatch_detail)
      else
        let score := score_loop (answers attempt) (enumerate questions) 0 in
        uid <- lift (Bson.ObjectId_new (id current_user)) ;;
        insert_checked quiz_attempt_encodable insert_quiz_attempt
          (mkQuizAttemptDoc inserted_id uid qid (answers attempt) score utcnow) ;;;
        ret (mkQuizAttemptOut (Bson.str inserted_id) (Bson.str uid) (Bson.str qid)
               (answers attempt) score utcnow)
  end.

(** ** Course progress *)

(** Python's [int / int] and [float * int] on the counts of a collection,
    which are far below [2^53] and so convert to a float exactly. *)
Definition float_of_int (n : Z) : float := PrimFloat.of_uint63 (Uint63.of_Z n).

Definition truediv (a b : Z) : Res float :=
  if b =? 0 then Raise ZeroDivisionError
  else Ok (PrimFloat.div (float_of_int a) (float_of_int b)).

(** The membership test of a [$in] query. *)
Definition oid_in (oid : ObjectId) (ids : list ObjectId) : bool :=
  existsb (Bson.eqb oid) ids.

Definition get_course_progress (course_id : string) (current_user : User)
    : Handler CourseProgressOut :=
  cid <- lift (Bson.ObjectId_new course_id) ;;
  total_lessons <- gets (fun s =>
    count_documents (by_id lesson_course_id cid) (lessons_collection s)) ;;
  lesson_ids <- gets (fun s =>
    map lesson_oid (find (by_id lesson_course_id cid) (lessons_collection s))) ;;
  uid <- lift (Bson.ObjectId_new (id current_user)) ;;
  lessons_completed <- gets (fun s =>
    count_documents
      (fun c => Bson.eqb (lc_user_id c) uid && oid_in (lc_lesson_id c) lesson_ids)
      (lesson_completions_collection s)) ;;
  total_quizzes <- gets (fun s =>
    count_documents (by_id quiz_course_id cid) (quizzes_collection s)) ;;
  quiz_ids <- gets (fun s =>
    map quiz_oid (find (by_id quiz_course_id cid) (quizzes_collection s))) ;;
  quizzes_attempted <- gets (fun s =>
    count_documents
      (fun a => Bson.eqb (qa_user_id a) uid && oid_in (qa_quiz_id a) quiz_ids)
      (quiz_attempts_collection s)) ;;
  percent_completed <-
    (if total_lessons >? 0 then
       ratio <- lift (truediv lessons_completed total_lessons) ;;
       ret (PrimFloat.mul ratio (float_of_int 100))
     else ret PrimFloat.zero) ;;
  ret (mkCourseProgressOut lessons_completed total_lessons quizzes_attempted
         total_quizzes percent_completed).

(** ** What the specification asks of the progress summary *)

(** The number of distinct quizzes of the course the user has attempted: a
    quiz counts when at least one attempt record of the user names it. *)
Definition distinct_quizzes_attempted (s : Store) (cid uid : ObjectId) : Z :=
  count_documents
    (fun q =>
       existsb (fun a => Bson.eqb (qa_user_id a) uid && Bson.eqb (qa_quiz_id a) (quiz_oid q))
         (quiz_attempts_collection s))
    (find (by_id quiz_course_id cid) (quizzes_collection s)).

(** The number of positions at which the submitted answer is the correct
    one. *)
Definition hit_at (submitted correct : list Z) (i : nat) : bool :=
  match nth_error submitted i, nth_error correct i with
  | Some a, Some c => a =? c
  | _, _ => false
  end.

Definition matching_positions (submitted correct : list Z) : Z :=
  Z.of_nat (List.length
    (filter (hit_at submitted correct) (seq 0 (List.length correct)))).

(** ** The uniqueness checks of enrollment and completion, named *)

Definition enrolled (s : Store) (uid cid : ObjectId) : option EnrollmentDoc :=
  find_one (fun e => Bson.eqb (enr_user_id e) uid && Bson.eqb (enr_course_id e) cid)
    (enrollments_collection s).

Definition completed (s : Store) (uid lid : ObjectId) : option LessonCompletionDoc :=
  find_one (fun c => Bson.eqb (lc_user_id c) uid && Bson.eqb (lc_lesson_id c) lid)
    (lesson_completions_collection s).



(** ** Sample data for the concrete instances below *)
Module Sample.

Definition alice_id : string := "64b7f0c2a1d3e4f5a6b7c8d1".
Definition bob_id : string := "64b7f0c2a1d3e4f5a6b7c8d2".
Definition course_id : string := "64b7f0c2a1d3e4f5a6b7c8e1".
Definition lesson_id : string := "64b7f0c2a1d3e4f5a6b7c8f1".
Definition quiz_id : string := "64b7f0c2a1d3e4f5a6b7c8a1".
Definition fresh_id : string := "64b7f0c2a1d3e4f5a6b7c8b1".
Definition fresh_id2 : string := "64b7f0c2a1d3e4f5a6b7c8b2".

Definition oid (s : string) : ObjectId :=
  match Bson.hex_digits s with
  | Some ds => Bson.mkObjectId ds
  | None => Bson.mkObjectId []
  end.

(** Two bcrypt hash strings: the one the stand-in backend below makes for the
    password [pass-word], and the one it makes for any other password. *)
Definition hash1 : string :=
  "$2b$12$abcdefghijklmnopqrstuuABCDEFGHIJKLMNOPQRSTUVWXYZ0123C".

Definition hash2 : string :=
  "$2b$12$abcdefghijklmnopqrstuuZYXWVUTSRQPONMLKJIHGFEDCBA9876C".

Definition alice : User := mkUser alice_id "alice" hash1 true.
Definition bob : User := mkUser bob_id "bob" hash2 true.

Definition course_of_alice : CourseDoc :=
  mkCourseDoc (oid course_id) "Logic" "An introduction" "Alice" PrimFloat.zero
    (Val (oid alice_id)).

Definition legacy_course : CourseDoc :=
  mkCourseDoc (oid course_id) "Logic" "An introduction" "Alice" PrimFloat.zero
    Missing.

Definition lesson1 : LessonDoc :=
  mkLessonDoc (oid lesson_id) "Lesson 1" "video" None (oid course_id).

Definition quiz1 : QuizDoc := mkQuizDoc (oid quiz_id) "Quiz 1" (oid course_id).

Definition question (n : string) (correct : Z) : QuestionDoc :=
  mkQuestionDoc (oid n) "?" ["a"; "b"; "c"] correct (oid quiz_id).

Definition school : Store :=
  mkStore
    [mkUserDoc (oid alice_id) "alice" hash1 (Some true);
     mkUserDoc (oid bob_id) "bob" hash2 (Some true)]
    [course_of_alice] [] [lesson1] [quiz1]
    [question "64b7f0c2a1d3e4f5a6b7c801" 2; question "64b7f0c2a1d3e4f5a6b7c802" 0]
    [] [].

Definition attempt_of_bob (n : string) (given : list Z) (got : Z) : QuizAttemptDoc :=
  mkQuizAttemptDoc (oid n) (oid bob_id) (oid quiz_id) given got 1700000000.

(** [school] after bob has attempted the one quiz of the course twice. *)
Definition school_after_two_attempts : Store :=
  insert_quiz_attempt (attempt_of_bob fresh_id2 [2; 0] 2)
    (insert_quiz_attempt (attempt_of_bob fresh_id [2; 1] 1) school).

(** [school] with the course turned into a record that predates ownership
    tracking. *)
Definition legacy_school : Store :=
  mkStore (users_collection school) [legacy_course] [] [lesson1] [quiz1]
    (questions_collection school) [] [].

(** [school] after bob has completed the one lesson of the course. *)
Definition school_after_completion : Store :=
  insert_lesson_completion
    (mkLessonCompletionDoc (oid fresh_id) (oid bob_id) (oid lesson_id) 1700000000)
    school.

(** A stand-in for the bcrypt backend: one salt, and a digest that tells the
    password [pass-word] from every other. *)
Definition bcrypt_digest (ident : string) (rounds : Z) (salt secret : string)
    : Res string :=
  Ok (if String.eqb secret "pass-word" then "ABCDEFGHIJKLMNOPQRSTUVWXYZ0123C"
      else "ZYXWVUTSRQPONMLKJIHGFEDCBA9876C").

Definition pwd_hash (password : string) : Res string :=
  Ok (if String.eqb password "pass-word" then hash1 else hash2).

(** A signature check that knows three tokens. *)
Definition jws_verify (token key : string) : option Claims :=
  if negb (String.eqb key "k") then None
  else if String.eqb token "t-alice" then Some (mkClaims (SubString "alice") (Some 2000))
  else if String.eqb token "t-carol" then Some (mkClaims (SubString "carol") (Some 2000))
  else if String.eqb token "t-nosub" then Some (mkClaims SubAbsent (Some 2000))
  else None.

End Sample.

(** ** The remaining schemas ([schemas.py]) *)

Record Token : Type := mkToken {
  access_token : string;
  token_type : string
}.

Record LoginRequest : Type := mkLoginRequest {
  lr_username : string;
  lr_password : string
}.

Record CourseCreate : Type := mkCourseCreate {
  cc_title : string;
  cc_description : string;
  cc_instructor : string;
  cc_price : float
}.

Record CourseOut : Type := mkCourseOut {
  co_id : string;
  co_title : string;
  co_description : string;
  co_instructor : string;
  co_price : float;
  co_created_by : option string
}.

(** [resource_links: str = None]: a body without the key yields [None]. *)
Record LessonCreate : Type := mkLessonCreate {
  lcr_title : string;
  lcr_video_url : string;
  lcr_resource_links : option string
}.

Record LessonOut : Type := mkLessonOut {
  lo_id : string;
  lo_title : string;
  lo_video_url : string;
  lo_resource_links : string;
  lo_course_id : string
}.

Record QuizCreate : Type := mkQuizCreate {
  qc_title : string
}.

Record QuizOut : Type := mkQuizOut {
  qo_id : string;
  qo_title : string;
  qo_course_id : string
}.

Record QuestionCreate : Type := mkQuestionCreate {
  qnc_text : string;
  qnc_options : list string;
  qnc_correct_answer : Z
}.

Record QuestionOut : Type := mkQuestionOut {
  qno_id : string;
  qno_text : string;
  qno_options : list string;
  qno_correct_answer : Z;
  qno_quiz_id : string
}.

(** Building a [LessonOut]: the field [resource_links] is declared [str], so
    a [None] passed for it is refused by the validation. *)
Definition LessonOut_new (oid title video_url : string)
    (resource_links : option string) (course_id : string) : Res LessonOut :=
  match resource_links with
  | Some r => Ok (mkLessonOut oid title video_url r course_id)
  | None => Raise (PydanticValidationError "resource_links")
  end.

Definition insert_course (d : CourseDoc) (s : Store) : Store :=
  mkStore (users_collection s) (insert_one d (courses_collection s))
    (enrollments_collection s) (lessons_collection s) (quizzes_collection s)
    (questions_collection s) (lesson_completions_collection s)
    (quiz_attempts_collection s).

Definition insert_lesson (d : LessonDoc) (s : Store) : Store :=
  mkStore (users_collection s) (courses_collection s)
    (enrollments_collection s) (insert_one d (lessons_collection s))
    (quizzes_collection s) (questions_collection s)
    (lesson_completions_collection s) (quiz_attempts_collection s).

Definition insert_quiz (d : QuizDoc) (s : Store) : Store :=
  mkStore (users_collection s) (courses_collection s)
    (enrollments_collection s) (lessons_collection s)
    (insert_one d (quizzes_collection s)) (questions_collection s)
    (lesson_completions_collection s) (quiz_attempts_collection s).

Definition insert_question (d : QuestionDoc) (s : Store) : Store :=
  mkStore (users_collection s) (courses_collection s)
    (enrollments_collection s) (lessons_collection s) (quizzes_collection s)
    (insert_one d (questions_collection s)) (lesson_completions_collection s)
    (quiz_attempts_collection s).

(** ** Token issue and login ([auth.py], [routes.py]) *)

Section Login.

Variable bcrypt_digest : string -> Z -> string -> string -> Res string.

(** [jwt.encode]: the token that carries the claims under the key. *)
Variable jws_sign : Claims -> string -> string.
Variable SECRET_KEY : string.

(** The configured lifetime of a login token, in minutes. *)
Variable ACCESS_TOKEN_EXPIRE_MINUTES : Z.

(** Times are POSIX seconds and a [timedelta] is a number of seconds; a
    [timedelta] of zero is falsy, like an absent one. *)
Definition timedelta_minutes (minutes : Z) : Z := 60 * minutes.

Definition create_access_token (data : SubClaim) (expires_delta : option Z)
    (utcnow : Z) : string :=
  let expire :=
    match expires_delta with
    | Some d => if d =? 0 then utcnow + timedelta_minutes 15 else utcnow + d
    | None => utcnow + timedelta_minutes 15
    end in
  jws_sign (mkClaims data (Some expire)) SECRET_KEY.

Definition bad_credentials : Exc :=
  HTTPException 400 "Incorrect username or password".

Definition login (login_data : LoginRequest) (utcnow : Z) : Handler Token :=
  user <- authenticate_user bcrypt_digest (lr_username login_data)
            (lr_password login_data) ;;
  match user with
  | None => raise bad_credentials
  | Some user =>
      let access_token_expires := timedelta_minutes ACCESS_TOKEN_EXPIRE_MINUTES in
      let access_token :=
        create_access_token (SubString (username user))
          (Some access_token_expires) utcnow in
      ret (mkToken access_token "bearer")
  end.

End Login.

(** ** Creating courses, lessons, quizzes and questions ([routes.py]) *)

Definition create_course (course : CourseCreate) (current_user : User)
    (inserted_id : ObjectId) : Handler CourseOut :=
  created_by <- lift (Bson.ObjectId_new (id current_user)) ;;
  modify (insert_course
            (mkCourseDoc inserted_id (cc_title course) (cc_description course)
               (cc_instructor course) (cc_price course) (Val created_by))) ;;;
  ret (mkCourseOut (Bson.str inserted_id) (cc_title course) (cc_description course)
         (cc_instructor course) (cc_price course) (Some (Bson.str created_by))).

Definition create_lesson (course_id : string) (lesson : LessonCreate)
    (current_user : User) (inserted_id : ObjectId) : Handler LessonOut :=
  get_course_creator_user course_id current_user ;;;
  cid <- lift (Bson.ObjectId_new course_id) ;;
  modify (insert_lesson
            (mkLessonDoc inserted_id (lcr_title lesson) (lcr_video_url lesson)
               (lcr_resource_links lesson) cid)) ;;;
  lift (LessonOut_new (Bson.str inserted_id) (lcr_title lesson)
          (lcr_video_url lesson) (lcr_resource_links lesson) (Bson.str cid)).

Definition create_quiz (course_id : string) (quiz : QuizCreate)
    (current_user : User) (inserted_id : ObjectId) : Handler QuizOut :=
  get_course_creator_user course_id current_user ;;;
  cid <- lift (Bson.ObjectId_new course_id) ;;
  modify (insert_quiz (mkQuizDoc inserted_id (qc_title quiz) cid)) ;;;
  ret (mkQuizOut (Bson.str inserted_id) (qc_title quiz) (Bson.str cid)).

Definition create_question (quiz_id : string) (question : QuestionCreate)
    (current_user : User) (inserted_id : ObjectId) : Handler QuestionOut :=
  qid <- lift (Bson.ObjectId_new quiz_id) ;;
  quiz <- gets (fun s => find_one (by_id quiz_oid qid) (quizzes_collection s)) ;;
  match quiz with
  | None => raise (HTTPException 404 "Quiz not found")
  | Some quiz =>
      get_course_creator_user (Bson.str (quiz_course_id quiz)) current_user ;;;
      qid' <- lift (Bson.ObjectId_new quiz_id) ;;
      insert_checked question_encodable insert_question
        (mkQuestionDoc inserted_id (qnc_text question) (qnc_options question)
           (qnc_correct_answer question) qid') ;;;
      ret (mkQuestionOut (Bson.str inserted_id) (qnc_text question)
             (qnc_options question) (qnc_correct_answer question) (Bson.str qid'))
  end.

(** ** Reading one record, and the handlers that catch every exception *)

Definition get_lesson (lesson_id : string) : Handler LessonOut :=
  lid <- lift (Bson.ObjectId_new lesson_id) ;;
  lesson <- gets (fun s => find_one (by_id lesson_oid lid) (lessons_collection s)) ;;
  match lesson with
  | None => raise (HTTPException 404 "Lesson not found")
  | Some l =>
      lift (LessonOut_new (Bson.str (lesson_oid l)) (lesson_title l)
              (lesson_video_url l) (lesson_resource_links l)
              (Bson.str (lesson_course_id l)))
  end.

(** [str(e)]: Starlette prints an [HTTPException] as its status and detail,
    bson's [InvalidId] names the offending string. *)
Definition str_of_exc (e : Exc) : string :=
  match e with
  | HTTPException c d => NilZero.string_of_int (Z.to_int c) ++ ": " ++ d
  | InvalidId oid =>
      "'" ++ oid ++
      "' is not a valid ObjectId, it must be a 12-byte input or a 24-character hex string"
  | PydanticValidationError f => "1 validation error" ++ String "010"%char f
  | UnknownHashError => "hash could not be identified"
  | PasswordValueError => "secret contains NULL byte or is too long"
  | ValueError => "invalid bcrypt hash"
  | OverflowError => "MongoDB can only handle up to 8-byte ints"
  | ZeroDivisionError => "integer division or modulo by zero"
  end.

(** [needle in haystack] *)
Definition str_contains (needle haystack : string) : bool :=
  match String.index 0 needle haystack with
  | Some _ => true
  | None => false
  end.

(** [try: ... except Exception as e: ...] *)
Definition try_except {A : Type} (body : Handler A) (handler : Exc -> Handler A)
    : Handler A :=
  fun s =>
    match body s with
    | (Ok a, s') => (Ok a, s')
    | (Raise e, s') => handler e s'
    end.

(** The [except] clause shared by [get_course] and the listings. *)
Definition id_format_handler {A : Type} (oid detail : string) (e : Exc) : Handler A :=
  if str_contains "invalid ObjectId" (str_of_exc e) || negb (Bson.is_valid oid) then
    raise (HTTPException 400 detail)
  else raise (HTTPException 500 "Internal server error").

Definition created_by_str (f : Field ObjectId) : option string :=
  match f with
  | Missing => None
  | PyNone => Some "None"
  | Val o => Some (Bson.str o)
  end.

Definition get_course (course_id : string) : Handler CourseOut :=
  try_except
    (cid <- lift (Bson.ObjectId_new course_id) ;;
     course <- gets (fun s => find_one (by_id course_oid cid) (courses_collection s)) ;;
     match course with
     | None => raise (HTTPException 404 "Course not found")
     | Some c =>
         ret (mkCourseOut (Bson.str (course_oid c)) (course_title c)
                (course_description c) (course_instructor c) (course_price c)
                (created_by_str (course_created_by c)))
     end)
    (id_format_handler course_id "Invalid course ID format").

(** [for x in xs: ys.append(f(x))] with an [f] that may raise. *)
Fixpoint map_res {A B : Type} (f : A -> Res B) (l : list A) : Res (list B) :=
  match l with
  | [] => Ok []
  | x :: rest =>
      match f x with
      | Raise e => Raise e
      | Ok y =>
          match map_res f rest with
          | Raise e => Raise e
          | Ok ys => Ok (y :: ys)
          end
      end
  end.

Definition with_items {A B : Type} (p : Page A) (new_items : list B) : Page B :=
  mkPage new_items (total p) (page p) (size p) (pages p) (has_next p) (has_prev p).

Definition to_LessonOut (l : LessonDoc) : Res LessonOut :=
  LessonOut_new (Bson.str (lesson_oid l)) (lesson_title l) (lesson_video_url l)
    (lesson_resource_links l) (Bson.str (lesson_course_id l)).

Definition list_lessons (course_id : string) (page size : Z)
    : Handler (Page LessonOut) :=
  try_except
    (cid <- lift (Bson.ObjectId_new course_id) ;;
     result <- (fun s => (paginate_collection (lessons_collection s)
                            (by_id lesson_course_id cid) page size, s)) ;;
     lessons <- lift (map_res to_LessonOut (items result)) ;;
     ret (with_items result lessons))
    (id_format_handler course_id "Invalid course ID format").

Definition to_QuizAttemptOut (a : QuizAttemptDoc) : QuizAttemptOut :=
  mkQuizAttemptOut (Bson.str (qa_oid a)) (Bson.str (qa_user_id a))
    (Bson.str (qa_quiz_id a)) (qa_answers a) (qa_score a) (qa_timestamp a).

Definition list_quiz_attempts (quiz_id : string) (current_user : User)
    (page size : Z) : Handler (Page QuizAttemptOut) :=
  try_except
    (qid <- lift (Bson.ObjectId_new quiz_id) ;;
     uid <- lift (Bson.ObjectId_new (id current_user)) ;;
     result <- (fun s => (paginate_collection (quiz_attempts_collection s)
                            (fun a => Bson.eqb (qa_quiz_id a) qid &&
                                      Bson.eqb (qa_user_id a) uid)
                            page size, s)) ;;
     ret (with_items result (map to_QuizAttemptOut (items result))))
    (id_format_handler quiz_id "Invalid quiz ID format").

(** The items a client gets for one page of a listing. *)
Definition items_of_page {D : Type} (collection : list D) (query : D -> bool)
    (size page : Z) : list D :=
  match paginate_collection collection query page size with
  | Ok p => items p
  | Raise _ => []
  end.

(** An id as the driver makes them: twelve bytes, that is 24 digits below
    16. *)
Definition oid_well_formed (o : ObjectId) : bool :=
  (List.length (Bson.digits o) =? 24)%nat &&
  forallb (fun d => (d <? 16)%N) (Bson.digits o).

(** The user with id [uid] is recorded as the creator of the course with id
    [cid]. *)
Definition is_creator (s : Store) (cid uid : ObjectId) : bool :=
  match find_one (by_id course_oid cid) (courses_collection s) with
  | Some c =>
      match course_created_by c with
      | Val created_by => Bson.eqb created_by uid
      | _ => false
      end
  | None => false
  end.

(** ** The router: every request that can change the store *)

(** What the server draws from its surroundings while it serves a request:
    the clock and the id the driver gives an inserted document. *)
Record Env : Type := mkEnv {
  env_utcnow : Z;
  env_inserted_id : ObjectId
}.

Inductive Request : Type :=
| PostSignup (user : UserCreate)
| PostCreateCourse (token : string) (course : CourseCreate)
| PostEnroll (token course_id : string)
| PostLesson (token course_id : string) (lesson : LessonCreate)
| PostQuiz (token course_id : string) (quiz : QuizCreate)
| PostQuestion (token quiz_id : string) (question : QuestionCreate)
| PostCompleteLesson (token lesson_id : string)
| PostAttempt (token quiz_id : string) (attempt : QuizAttemptCreate).

Section App.

Variable pwd_hash : string -> Res string.
Variable jws_verify : string -> string -> option Claims.
Variable SECRET_KEY : string.

(** [Depends(get_current_user)] and [Depends(get_current_admin_user)] *)
Definition authenticated (token : string) (now : Z) : Handler User :=
  get_current_user jws_verify SECRET_KEY token now.

Definition authenticated_admin (token : string) (now : Z) : Handler User :=
  current_user <- authenticated token now ;;
  get_current_admin_user current_user.

(** The store a request leaves behind. *)
Definition serve (req : Request) (env : Env) (s : Store) : Store :=
  let now := env_utcnow env in
  let oid := env_inserted_id env in
  match req with
  | PostSignup user => snd (signup pwd_hash user oid s)
  | PostCreateCourse token course =>
      snd ((u <- authenticated_admin token now ;; create_course course u oid) s)
  | PostEnroll token course_id =>
      snd ((u <- authenticated token now ;; enroll_course course_id u oid) s)
  | PostLesson token course_id lesson =>
      snd ((u <- authenticated_admin token now ;;
            create_lesson course_id lesson u oid) s)
  | PostQuiz token course_id quiz =>
      snd ((u <- authenticated_admin token now ;;
            create_quiz course_id quiz u oid) s)
  | PostQuestion token quiz_id question =>
      snd ((u <- authenticated_admin token now ;;
            create_question quiz_id question u oid) s)
  | PostCompleteLesson token lesson_id =>
      snd ((u <- authenticated token now ;;
            complete_lesson lesson_id u now oid) s)
  | PostAttempt token quiz_id attempt =>
      snd ((u <- authenticated token now ;;
            attempt_quiz quiz_id attempt u now oid) s)
  end.

(** The store after a sequence of requests, served one after the other. *)
Fixpoint run (reqs : list (Request * Env)) (s : Store) : Store :=
  match reqs with
  | [] => s
  | (req, env) :: rest => run rest (serve req env s)
  end.

End App.

(** ** What one request can do to the store *)

Inductive effect (s : Store) : Store -> Prop :=
| eff_none : effect s s
| eff_user (d : UserDoc) :
    find_one (fun u => String.eqb (user_username u) (user_username d))
      (users_collection s) = None ->
    effect s (insert_user d s)
| eff_course (d : CourseDoc) (o : ObjectId) :
    course_created_by d = Val o ->
    effect s (insert_course d s)
| eff_enrollment (d : EnrollmentDoc) (c : CourseDoc) :
    enrolled s (enr_user_id d) (enr_course_id d) = None ->
    find_one (by_id course_oid (enr_course_id d)) (courses_collection s) = Some c ->
    effect s (insert_enrollment d s)
| eff_lesson (d : LessonDoc) (c : CourseDoc) :
    find_one (by_id course_oid (lesson_course_id d)) (courses_collection s) = Some c ->
    effect s (insert_lesson d s)
| eff_quiz (d : QuizDoc) (c : CourseDoc) :
    find_one (by_id course_oid (quiz_course_id d)) (courses_collection s) = Some c ->
    effect s (insert_quiz d s)
| eff_question (d : QuestionDoc) (q : QuizDoc) :
    find_one (by_id quiz_oid (question_quiz_id d)) (quizzes_collection s) = Some q ->
    effect s (insert_question d s)
| eff_completion (d : LessonCompletionDoc) (l : LessonDoc) :
    completed s (lc_user_id d) (lc_lesson_id d) = None ->
    find_one (by_id lesson_oid (lc_lesson_id d)) (lessons_collection s) = Some l ->
    effect s (insert_lesson_completion d s)
| eff_attempt (d : QuizAttemptDoc) (q : QuizDoc) :
    find_one (by_id quiz_oid (qa_quiz_id d)) (quizzes_collection s) = Some q ->
    0 <= qa_score d <= Z.of_nat (List.length (qa_answers d)) ->
    effect s (insert_quiz_attempt d s).

(** ** Invariants of the store *)

Definition enrollment_key (e : EnrollmentDoc) : ObjectId * ObjectId :=
  (enr_user_id e, enr_course_id e).

Definition completion_key (c : LessonCompletionDoc) : ObjectId * ObjectId :=
  (lc_user_id c, lc_lesson_id c).

Definition names_course (s : Store) (cid : ObjectId) : Prop :=
  exists c, In c (courses_collection s) /\ course_oid c = cid.

Definition names_quiz (s : Store) (qid : ObjectId) : Prop :=
  exists q, In q (quizzes_collection s) /\ quiz_oid q = qid.

Definition names_lesson (s : Store) (lid : ObjectId) : Prop :=
  exists l, In l (lessons_collection s) /\ lesson_oid l = lid.

Record store_ok (s : Store) : Prop := mk_store_ok {
  usernames_unique : NoDup (map user_username (users_collection s));
  enrollments_unique : NoDup (map enrollment_key (enrollments_collection s));
  completions_unique : NoDup (map completion_key (lesson_completions_collection s));
  courses_owned :
    Forall (fun c => exists o, course_created_by c = Val o) (courses_collection s);
  enrollments_refer :
    Forall (fun e => names_course s (enr_course_id e)) (enrollments_collection s);
  lessons_refer :
    Forall (fun l => names_course s (lesson_course_id l)) (lessons_collection s);
  quizzes_refer :
    Forall (fun q => names_course s (quiz_course_id q)) (quizzes_collection s);
  questions_refer :
    Forall (fun q => names_quiz s (question_quiz_id q)) (questions_collection s);
  completions_refer :
    Forall (fun c => names_lesson s (lc_lesson_id c)) (lesson_completions_collection s);
  attempts_refer :
    Forall (fun a => names_quiz s (qa_quiz_id a)) (quiz_attempts_collection s);
  attempts_scored :
    Forall (fun a => 0 <= qa_score a <= Z.of_nat (List.length (qa_answers a)))
      (quiz_attempts_collection s)
}.

(** The bearer token a request carries, and whether its route depends on
    [get_current_admin_user]. *)
Definition request_token (req : Request) : option string :=
  match req with
  | PostSignup _ => None
  | PostCreateCourse token _ => Some token
  | PostEnroll token _ => Some token
  | PostLesson token _ _ => Some token
  | PostQuiz token _ _ => Some token
  | PostQuestion token _ _ => Some token
  | PostCompleteLesson token _ => Some token
  | PostAttempt token _ _ => Some token
  end.

Definition admin_only (req : Request) : bool :=
  match req with
  | PostCreateCourse _ _ | PostLesson _ _ _ | PostQuiz _ _ _ | PostQuestion _ _ _ => true
  | _ => false
  end.

(** The number of documents in the whole store. *)
Definition store_size (s : Store) : nat :=
  (List.length (users_collection s) + List.length (courses_collection s) +
   List.length (enrollments_collection s) + List.length (lessons_collection s) +
   List.length (quizzes_collection s) + List.length (questions_collection s) +
   List.length (lesson_completions_collection s) +
   List.length (quiz_attempts_collection s))%nat.

(** Every collection of [s] is the beginning of the same collection of [s']. *)
Definition extends (s s' : Store) : Prop :=
  (exists l, users_collection s' = users_collection s ++ l)%list /\
  (exists l, courses_collection s' = courses_collection s ++ l)%list /\
  (exists l, enrollments_collection s' = enrollments_collection s ++ l)%list /\
  (exists l, lessons_collection s' = lessons_collection s ++ l)%list /\
  (exists l, quizzes_collection s' = quizzes_collection s ++ l)%list /\
  (exists l, questions_collection s' = questions_collection s ++ l)%list /\
  (exists l, lesson_completions_collection s' =
             lesson_completions_collection s ++ l)%list /\
  (exists l, quiz_attempts_collection s' = quiz_attempts_collection s ++ l)%list.

(** ** The shape of a bcrypt hash, spelled out *)

(** [hash] is an identifier other than [$2x$], a cost, a dollar sign, 22
    characters of salt and 31 of digest, all of the bcrypt alphabet. *)
Definition bcrypt_shape (hash ident cost salt chk : string) : Prop :=
  hash = ident ++ cost ++ String "$" (salt ++ chk) /\
  In ident ["$2$"; "$2a$"; "$2y$"; "$2b$"] /\
  Passlib.parse_cost cost <> None /\
  String.length salt = 22%nat /\ Passlib.in_charmap salt = true /\
  String.length chk = 31%nat /\ Passlib.in_charmap chk = true.

(** A password passlib lets through: at most 4096 characters, no NUL byte. *)
Definition secret_ok (secret : string) : bool :=
  negb (Passlib.secret_too_long secret) && negb (Passlib.contains_nul secret).

(** ** A small signing scheme for the concrete instances

    The token spells the claims out, the expiry in binary; the check reads
    them back.  It stands in for [jose] where a round trip is needed. *)
Module ToyJws.

Fixpoint enc_pos (p : positive) : string :=
  match p with
  | xI p' => String "1" (enc_pos p')
  | xO p' => String "0" (enc_pos p')
  | xH => String ";" EmptyString
  end.

Fixpoint dec_pos (s : string) : option (positive * string) :=
  match s with
  | EmptyString => None
  | String c s' =>
      if Ascii.eqb c ";" then Some (xH, s')
      else if Ascii.eqb c "1" then
        match dec_pos s' with Some (p, r) => Some (xI p, r) | None => None end
      else if Ascii.eqb c "0" then
        match dec_pos s' with Some (p, r) => Some (xO p, r) | None => None end
      else None
  end.

Definition enc_Z (z : Z) : string :=
  match z with
  | Z0 => String "z" EmptyString
  | Zpos p => String "+" (enc_pos p)
  | Zneg p => String "-" (enc_pos p)
  end.

Definition dec_Z (s : string) : option (Z * string) :=
  match s with
  | EmptyString => None
  | String c s' =>
      if Ascii.eqb c "z" then Some (Z0, s')
      else if Ascii.eqb c "+" then
        match dec_pos s' with Some (p, r) => Some (Zpos p, r) | None => None end
      else if Ascii.eqb c "-" then
        match dec_pos s' with Some (p, r) => Some (Zneg p, r) | None => None end
      else None
  end.

Definition enc_sub (c : SubClaim) : string :=
  match c with
  | SubAbsent => String "A" EmptyString
  | SubOther => String "O" EmptyString
  | SubString name => String "S" name
  end.

Definition dec_sub (s : string) : option SubClaim :=
  match s with
  | EmptyString => None
  | String c s' =>
      if Ascii.eqb c "S" then Some (SubString s')
      else if Ascii.eqb c "A" then
        match s' with EmptyString => Some SubAbsent | _ => None end
      else if Ascii.eqb c "O" then
        match s' with EmptyString => Some SubOther | _ => None end
      else None
  end.

Definition jws_sign (claims : Claims) (key : string) : string :=
  match claim_exp claims with
  | None => String "N" (enc_sub (claim_sub claims))
  | Some exp => String "E" (enc_Z exp ++ enc_sub (claim_sub claims))
  end.

Definition jws_verify (token key : string) : option Claims :=
  match token with
  | EmptyString => None
  | String c rest =>
      if Ascii.eqb c "N" then
        match dec_sub rest with
        | Some sub => Some (mkClaims sub None)
        | None => None
        end
      else if Ascii.eqb c "E" then
        match dec_Z rest with
        | Some (exp, rest') =>
            match dec_sub rest' with
            | Some sub => Some (mkClaims sub (Some exp))
            | None => None
            end
        | None => None
        end
      else None
  end.

End ToyJws.

(** ** More sample data *)
Module SampleMore.

Definition carol_signup : UserCreate := mkUserCreate "carol" "pass-word" (Some false).

Definition erin_signup : UserCreate := mkUserCreate "erin" "pass-word" None.

Definition algebra : CourseCreate :=
  mkCourseCreate "Algebra" "Groups and rings" "Bob" PrimFloat.one.

Definition algebra_id : string := "64b7f0c2a1d3e4f5a6b7c8e2".

Definition lesson_with_links : LessonCreate :=
  mkLessonCreate "Lesson 2" "video-2" (Some "notes").

Definition lesson_without_links : LessonCreate :=
  mkLessonCreate "Lesson 3" "video-3" None.

Definition question3 : QuestionCreate := mkQuestionCreate "?" ["a"; "b"] 1.

(** A first session: alice signs up on the empty store, creates a course with
    one lesson and completes it, then asks to complete it again. *)
Definition session : list (Request * Env) :=
  [(PostSignup (mkUserCreate "alice" "pass-word" None),
    mkEnv 1000 (Sample.oid Sample.alice_id));
   (PostCreateCourse "t-alice" algebra, mkEnv 1001 (Sample.oid Sample.course_id));
   (PostLesson "t-alice" Sample.course_id lesson_with_links,
    mkEnv 1002 (Sample.oid Sample.lesson_id));
   (PostCompleteLesson "t-alice" Sample.lesson_id,
    mkEnv 1003 (Sample.oid Sample.fresh_id));
   (PostCompleteLesson "t-alice" Sample.lesson_id,
    mkEnv 1004 (Sample.oid Sample.fresh_id2))].

(** [Sample.school] with carol, who is no admin, signed up. *)
Definition school_with_carol : Store :=
  insert_user
    (mkUserDoc (Sample.oid Sample.fresh_id2) "carol" Sample.hash1 (Some false))
    Sample.school.

End SampleMore.

(** ** Pagination: properties *)

Lemma floordiv_ceiling (t s : Z) :
  0 < s -> (((t + s - 1) / s) - 1) * s < t <= ((t + s - 1) / s) * s.
Proof.
  intros Hs.
  pose proof (Z.div_mod (t + s - 1) s ltac:(lia)) as Hdm.
  pose proof (Z.mod_pos_bound (t + s - 1) s Hs) as Hb.
  nia.
Qed.

Lemma count_documents_nonneg {D : Type} (q : D -> bool) (c : list D) :
  0 <= count_documents q c.
Proof. unfold count_documents. lia. Qed.

(** C3 (as stated): with no matching document the result reports no previous
    page.  On page 2 of an empty listing [has_prev] is [true]. *)
Lemma paginate_empty_has_prev_counterexample :
  exists p : Page nat,
    paginate_collection [] (fun _ => true) 2 10 = Ok p /\
    total p = 0 /\ pages p = 0 /\ has_prev p = true.
Proof.
  eexists. split; [reflexivity|]. cbn. repeat split.
Qed.

(** C3 (amended): for [page >= 1] and [size] in [1,100], [paginate_collection]
    returns without a division error; [pages] is the ceiling of [total / size],
    [has_next = (page < pages)], [has_prev = (page > 1)], the items are the
    [size] matching documents after the first [(page - 1) * size]; and when
    [total = 0], [pages = 0], [has_next] is false and [has_prev] is false
    exactly on page 1. *)
Theorem paginate_collection_spec {D : Type} (collection : list D)
    (query : D -> bool) (page_ size_ : Z) :
  1 <= page_ -> 1 <= size_ <= 100 ->
  exists p,
    paginate_collection collection query page_ size_ = Ok p /\
    total p = count_documents query collection /\
    page p = page_ /\ size p = size_ /\
    (pages p - 1) * size_ < total p <= pages p * size_ /\
    has_next p = (page_ <? pages p) /\
    has_prev p = (page_ >? 1) /\
    items p = firstn (Z.to_nat size_)
                (skipn (Z.to_nat ((page_ - 1) * size_)) (filter query collection)) /\
    (total p = 0 ->
       pages p = 0 /\ has_next p = false /\ (has_prev p = false <-> page_ = 1)).
Proof.
  intros Hp Hs.
  unfold paginate_collection, floordiv.
  destruct (size_ =? 0) eqn:E; [apply Z.eqb_eq in E; lia|].
  eexists. split; [reflexivity|]. cbn.
  split; [reflexivity|]. split; [reflexivity|]. split; [reflexivity|].
  split; [apply floordiv_ceiling; lia|].
  split; [reflexivity|]. split; [reflexivity|]. split; [reflexivity|].
  intros H0. rewrite H0.
  replace (0 + size_ - 1) with (size_ - 1) by lia.
  rewrite Z.div_small by lia.
  split; [reflexivity|]. split; [apply Z.ltb_ge; lia|].
  rewrite Z.gtb_ltb, Z.ltb_ge. lia.
Qed.

Lemma paginate_collection_spec_witness :
  exists p,
    paginate_collection [1; 2; 3; 4; 5] (fun n => 2 <=? n) 2 3 = Ok p /\
    pages p = 2 /\ items p = [5] /\ has_next p = false /\ has_prev p = true.
Proof.
  destruct (paginate_collection_spec [1; 2; 3; 4; 5] (fun n => 2 <=? n) 2 3)
    as [p (Hr & Ht & _ & _ & Hc & Hn & Hv & Hi & _)]; [lia | lia |].
  exists p. split; [exact Hr|].
  assert (pages p = 2) as Hpg.
  { rewrite Ht in Hc. change (count_documents (fun n => 2 <=? n) [1; 2; 3; 4; 5]) with 4 in Hc. lia. }
  rewrite Hn, Hv, Hi, Hpg. repeat split.
Defined.

(** ** Object ids and handlers: basic facts *)

Lemma digits_eqb_eq (a b : list N) : Bson.digits_eqb a b = true <-> a = b.
Proof.
  revert b. induction a as [|x a IH]; intros [|y b]; simpl; split;
    try congruence; intros H.
  - apply andb_true_iff in H. destruct H as [Hx Hr].
    apply N.eqb_eq in Hx. apply IH in Hr. congruence.
  - inversion H; subst. rewrite N.eqb_refl. simpl. apply IH. reflexivity.
Qed.

Lemma oid_eqb_eq (a b : ObjectId) : Bson.eqb a b = true <-> a = b.
Proof.
  unfold Bson.eqb. rewrite digits_eqb_eq.
  destruct a as [da], b as [db]; simpl. split; congruence.
Qed.

Lemma oid_eqb_refl (a : ObjectId) : Bson.eqb a a = true.
Proof. apply oid_eqb_eq. reflexivity. Qed.

Lemma oid_eqb_neq (a b : ObjectId) : Bson.eqb a b = false <-> a <> b.
Proof.
  rewrite <- oid_eqb_eq. destruct (Bson.eqb a b); split; congruence.
Qed.

Lemma find_one_app {D : Type} (q : D -> bool) (c : list D) (d : D) :
  find_one q (insert_one d c) =
  match find_one q c with
  | Some x => Some x
  | None => if q d then Some d else None
  end.
Proof.
  unfold find_one, insert_one.
  induction c as [|x c IH]; simpl.
  - reflexivity.
  - destruct (q x); [reflexivity | exact IH].
Qed.

Ltac run_handler :=
  unfold bind, lift, gets, modify, ret, raise; simpl.

(** ** Course ownership *)

(** C4 (the code at the failing input): the claim asks for NotFound (404)
    on a syntactically invalid course id.  On the id [abc] the creator check
    lets bson's [InvalidId] escape, which FastAPI answers with 500, while the
    sibling handlers [get_course] and [list_lessons] catch the same exception
    and answer 400; the store is left as it was. *)
Theorem get_course_creator_user_leaks_invalid_id :
  get_course_creator_user "abc" Sample.alice Sample.school
    = (Raise (InvalidId "abc"), Sample.school) /\
  status_of (InvalidId "abc") = 500 /\
  get_course "abc" Sample.school
    = (Raise (HTTPException 400 "Invalid course ID format"), Sample.school) /\
  list_lessons "abc" 1 10 Sample.school
    = (Raise (HTTPException 400 "Invalid course ID format"), Sample.school).
Proof.
  split; [reflexivity|]. split; [reflexivity|]. split; reflexivity.
Qed.

(** X23: for a course id and a caller id that bson's [ObjectId] accepts, the
    creator check fails with 404 when no course record exists, with 403 and
    the legacy message when the creator reference is absent or null, with 403
    and another message when the reference is not the caller's id, and
    succeeds exactly when the caller is the creator; it never changes the
    store. *)
Theorem get_course_creator_user_spec (s : Store) (course_id : string)
    (cid : ObjectId) (u : User) (uid : ObjectId) :
  Bson.ObjectId_new course_id = Ok cid ->
  Bson.ObjectId_new (id u) = Ok uid ->
  let r := get_course_creator_user course_id u s in
  snd r = s /\
  (find_one (by_id course_oid cid) (courses_collection s) = None ->
     fst r = Raise (HTTPException 404 "Course not found")) /\
  (forall c, find_one (by_id course_oid cid) (courses_collection s) = Some c ->
     (course_created_by c = Missing \/ course_created_by c = PyNone ->
        fst r = Raise (HTTPException 403 legacy_course_detail)) /\
     (forall cb, course_created_by c = Val cb -> cb <> uid ->
        fst r = Raise (HTTPException 403 not_creator_detail)) /\
     (course_created_by c = Val uid -> fst r = Ok u)) /\
  (forall u', fst r = Ok u' ->
     u' = u /\
     exists c, find_one (by_id course_oid cid) (courses_collection s) = Some c /\
               course_created_by c = Val uid) /\
  legacy_course_detail <> not_creator_detail.
Proof.
  intros Hc Hu r. subst r.
  assert (Hmsg : legacy_course_detail <> not_creator_detail) by discriminate.
  unfold get_course_creator_user. run_handler. rewrite Hc.
  destruct (find_one (by_id course_oid cid) (courses_collection s)) as [c|] eqn:Hf.
  - assert (Hcase :
        (course_created_by c = Missing \/ course_created_by c = PyNone) \/
        (exists cb, course_created_by c = Val cb))
      by (destruct (course_created_by c); eauto).
    destruct Hcase as [Hleg | [cb Hcb]].
    + destruct Hleg as [Hl | Hl]; rewrite Hl; simpl;
        (refine (conj eq_refl (conj _ (conj _ (conj _ Hmsg))));
         [ discriminate
         | intros c' Hc'; injection Hc' as <-; rewrite Hl;
           refine (conj _ (conj _ _));
           [ reflexivity | discriminate | discriminate ]
         | discriminate ]).
    + rewrite Hcb. simpl. rewrite Hu. simpl.
      destruct (Bson.eqb cb uid) eqn:E; simpl.
      * apply oid_eqb_eq in E. subst cb.
        refine (conj eq_refl (conj _ (conj _ (conj _ Hmsg)))).
        -- discriminate.
        -- intros c' Hc'; injection Hc' as <-. rewrite Hcb.
           refine (conj _ (conj _ _)).
           ++ intros [H|H]; discriminate.
           ++ intros cb Hv Hn. injection Hv as <-. congruence.
           ++ reflexivity.
        -- intros u' Hu'. injection Hu' as <-. split; [reflexivity|].
           exists c. split; [reflexivity | exact Hcb].
      * apply oid_eqb_neq in E.
        refine (conj eq_refl (conj _ (conj _ (conj _ Hmsg)))).
        -- discriminate.
        -- intros c' Hc'; injection Hc' as <-. rewrite Hcb.
           refine (conj _ (conj _ _)).
           ++ intros [H|H]; discriminate.
           ++ reflexivity.
           ++ intros H. injection H as H. congruence.
        -- discriminate.
  - simpl. refine (conj eq_refl (conj _ (conj _ (conj _ Hmsg)))).
    + reflexivity.
    + discriminate.
    + discriminate.
Qed.

Lemma get_course_creator_user_spec_witness :
  fst (get_course_creator_user Sample.course_id Sample.alice Sample.school)
    = Ok Sample.alice /\
  fst (get_course_creator_user Sample.course_id Sample.bob Sample.school)
    = Raise (HTTPException 403 not_creator_detail) /\
  fst (get_course_creator_user Sample.course_id Sample.alice Sample.legacy_school)
    = Raise (HTTPException 403 legacy_course_detail) /\
  fst (get_course_creator_user Sample.course_id Sample.alice empty_store)
    = Raise (HTTPException 404 "Course not found").
Proof.
  split; [|split; [|split]].
  - destruct (get_course_creator_user_spec Sample.school Sample.course_id
                (Sample.oid Sample.course_id) Sample.alice
                (Sample.oid Sample.alice_id) eq_refl eq_refl)
      as (_ & _ & H & _).
    destruct (H Sample.course_of_alice eq_refl) as (_ & _ & Hok).
    apply Hok. reflexivity.
  - destruct (get_course_creator_user_spec Sample.school Sample.course_id
                (Sample.oid Sample.course_id) Sample.bob
                (Sample.oid Sample.bob_id) eq_refl eq_refl)
      as (_ & _ & H & _).
    destruct (H Sample.course_of_alice eq_refl) as (_ & Hno & _).
    apply (Hno (Sample.oid Sample.alice_id)); [reflexivity | discriminate].
  - destruct (get_course_creator_user_spec Sample.legacy_school Sample.course_id
                (Sample.oid Sample.course_id) Sample.alice
                (Sample.oid Sample.alice_id) eq_refl eq_refl)
      as (_ & _ & H & _).
    destruct (H Sample.legacy_course eq_refl) as (Hleg & _).
    apply Hleg. left. reflexivity.
  - destruct (get_course_creator_user_spec empty_store Sample.course_id
                (Sample.oid Sample.course_id) Sample.alice
                (Sample.oid Sample.alice_id) eq_refl eq_refl)
      as (_ & H & _).
    apply H. reflexivity.
Defined.

(** ** Grading *)

Lemma score_loop_from (submitted : list Z) :
  forall (qs pre : list Question) (acc : Z),
    score_loop submitted (combine (seq (List.length pre) (List.length qs)) qs) acc =
    acc + Z.of_nat (List.length
            (filter (hit_at submitted (map correct_answer (pre ++ qs)%list))
                    (seq (List.length pre) (List.length qs)))).
Proof.
  induction qs as [|q rest IH]; intros pre acc.
  - simpl. lia.
  - cbn [List.length seq combine score_loop filter].
    specialize (IH (pre ++ [q])%list).
    rewrite length_app in IH. cbn [List.length] in IH.
    rewrite Nat.add_1_r in IH. rewrite <- app_assoc in IH. cbn [app] in IH.
    rewrite IH.
    assert (Hnth : nth_error (map correct_answer (pre ++ q :: rest)%list) (List.length pre)
                   = Some (correct_answer q)).
    { rewrite map_app, nth_error_app2 by (rewrite length_map; lia).
      rewrite length_map, Nat.sub_diag. reflexivity. }
    unfold hit_at at 2. rewrite Hnth.
    destruct (nth_error submitted (List.length pre)) as [a|] eqn:Ha.
    + assert (Hlt : (List.length pre <? List.length submitted)%nat = true).
      { apply Nat.ltb_lt. apply nth_error_Some. congruence. }
      rewrite Hlt. cbn [andb].
      destruct (a =? correct_answer q); cbn [List.length]; lia.
    + rewrite andb_false_r. lia.
Qed.

Lemma score_loop_enumerate (submitted : list Z) (qs : list Question) :
  score_loop submitted (enumerate qs) 0 =
  matching_positions submitted (map correct_answer qs).
Proof.
  unfold enumerate, matching_positions.
  pose proof (score_loop_from submitted qs [] 0) as H.
  cbn [List.length app] in H. rewrite H.
  rewrite length_map. reflexivity.
Qed.

Lemma matching_positions_bounds (submitted correct : list Z) :
  0 <= matching_positions submitted correct <= Z.of_nat (List.length correct).
Proof.
  unfold matching_positions.
  pose proof (filter_length_le (hit_at submitted correct)
                (seq 0 (List.length correct))) as H.
  rewrite length_seq in H. lia.
Qed.

(** C1: when the quiz exists, an attempt whose number of answers differs from
    the number of the quiz's questions fails with 400 and leaves the store as
    it was; otherwise the score the handler computes is the number of
    positions at which the submitted answer equals the correct answer of the
    question at that position in insertion order, a function of the questions
    and the answers alone, between 0 and the number of questions.  When the
    answers fit the driver's eight-byte integers that score is returned and
    recorded in one appended attempt; when one does not, the driver raises
    [OverflowError] and nothing is recorded. *)
Theorem attempt_quiz_score (s : Store) (quiz_id : string) (qid : ObjectId)
    (attempt : QuizAttemptCreate) (u : User) (uid : ObjectId)
    (utcnow : Z) (inserted_id : ObjectId) (quiz : QuizDoc) :
  Bson.ObjectId_new quiz_id = Ok qid ->
  Bson.ObjectId_new (id u) = Ok uid ->
  find_one (by_id quiz_oid qid) (quizzes_collection s) = Some quiz ->
  let questions := find (by_id question_quiz_id qid) (questions_collection s) in
  let r := attempt_quiz quiz_id attempt u utcnow inserted_id s in
  let sc := matching_positions (answers attempt)
              (map question_correct_answer questions) in
  let doc := mkQuizAttemptDoc inserted_id uid qid (answers attempt) sc utcnow in
  (List.length (answers attempt) <> List.length questions ->
     r = (Raise (HTTPException 400 answers_mismatch_detail), s)) /\
  (List.length (answers attempt) = List.length questions ->
     0 <= sc <= Z.of_nat (List.length questions) /\
     (quiz_attempt_encodable doc = true ->
        exists out,
          fst r = Ok out /\
          score out = sc /\
          quiz_attempts_collection (snd r) =
            (quiz_attempts_collection s ++ [doc])%list /\
          snd r = insert_quiz_attempt doc s) /\
     (quiz_attempt_encodable doc = false -> r = (Raise OverflowError, s))).
Proof.
  intros Hq Hu Hf questions r sc doc. subst r.
  unfold attempt_quiz. run_handler. rewrite Hq, Hf. simpl.
  fold questions. rewrite length_map.
  assert (Hscore :
    score_loop (answers attempt) (enumerate (map to_Question questions)) 0 = sc).
  { subst sc. rewrite score_loop_enumerate, map_map. reflexivity. }
  destruct (List.length (answers attempt) =? List.length questions)%nat eqn:E; simpl.
  - apply Nat.eqb_eq in E. split; [intros Hne; contradiction|].
    intros _. rewrite Hu. simpl. rewrite Hscore. fold doc.
    split.
    { pose proof (matching_positions_bounds (answers attempt)
                    (map question_correct_answer questions)) as Hb.
      rewrite length_map in Hb. exact Hb. }
    unfold insert_checked, modify, raise.
    destruct (quiz_attempt_encodable doc) eqn:Henc; simpl.
    + split; [|discriminate]. intros _.
      eexists. split; [reflexivity|]. repeat split.
    + split; [discriminate|]. intros _. reflexivity.
  - apply Nat.eqb_neq in E. split; [intros _; reflexivity|].
    intros He. contradiction.
Qed.

Lemma attempt_quiz_score_witness :
  exists out,
    fst (attempt_quiz Sample.quiz_id (mkQuizAttemptCreate [2; 1]) Sample.bob 1700000000
           (Sample.oid Sample.fresh_id) Sample.school) = Ok out /\
    score out = 1 /\
    attempt_quiz Sample.quiz_id (mkQuizAttemptCreate [2]) Sample.bob 1700000000
      (Sample.oid Sample.fresh_id) Sample.school
      = (Raise (HTTPException 400 answers_mismatch_detail), Sample.school) /\
    attempt_quiz Sample.quiz_id (mkQuizAttemptCreate [2; 2 ^ 63]) Sample.bob 1700000000
      (Sample.oid Sample.fresh_id) Sample.school
      = (Raise OverflowError, Sample.school).
Proof.
  destruct (attempt_quiz_score Sample.school Sample.quiz_id (Sample.oid Sample.quiz_id)
              (mkQuizAttemptCreate [2; 1]) Sample.bob (Sample.oid Sample.bob_id)
              1700000000 (Sample.oid Sample.fresh_id) Sample.quiz1
              eq_refl eq_refl eq_refl) as [_ Hok].
  destruct (Hok eq_refl) as (_ & Henc & _).
  destruct (Henc eq_refl) as (out & Hr & Hs & _).
  exists out. split; [exact Hr|]. split; [exact Hs|].
  split.
  - destruct (attempt_quiz_score Sample.school Sample.quiz_id (Sample.oid Sample.quiz_id)
                (mkQuizAttemptCreate [2]) Sample.bob (Sample.oid Sample.bob_id)
                1700000000 (Sample.oid Sample.fresh_id) Sample.quiz1
                eq_refl eq_refl eq_refl) as [Hbad _].
    apply Hbad. discriminate.
  - destruct (attempt_quiz_score Sample.school Sample.quiz_id (Sample.oid Sample.quiz_id)
                (mkQuizAttemptCreate [2; 2 ^ 63]) Sample.bob (Sample.oid Sample.bob_id)
                1700000000 (Sample.oid Sample.fresh_id) Sample.quiz1
                eq_refl eq_refl eq_refl) as [_ Hbig].
    destruct (Hbig eq_refl) as (_ & _ & Hover). apply Hover. reflexivity.
Defined.

(** ** Progress *)

(** C2 (the code at the failing input): after two attempts by the same user
    on the one quiz of a course, [get_course_progress] reports two attempted
    quizzes out of one, where one distinct quiz has been attempted. *)
Theorem get_course_progress_counts_attempt_records :
  exists p,
    get_course_progress Sample.course_id Sample.bob Sample.school_after_two_attempts
      = (Ok p, Sample.school_after_two_attempts) /\
    quizzes_attempted p = 2 /\
    total_quizzes p = 1 /\
    distinct_quizzes_attempted Sample.school_after_two_attempts
      (Sample.oid Sample.course_id) (Sample.oid Sample.bob_id) = 1.
Proof.
  eexists. split; [vm_compute; reflexivity|].
  repeat split.
Qed.

(** The summary of a run, with the percentage as the handler computes it from
    the two lesson counts. *)
Lemma get_course_progress_run (s : Store) (course_id : string) (cid : ObjectId)
    (u : User) (uid : ObjectId) :
  Bson.ObjectId_new course_id = Ok cid ->
  Bson.ObjectId_new (id u) = Ok uid ->
  let tl := count_documents (by_id lesson_course_id cid) (lessons_collection s) in
  let lc := count_documents
              (fun c => Bson.eqb (lc_user_id c) uid &&
                        oid_in (lc_lesson_id c)
                          (map lesson_oid
                             (find (by_id lesson_course_id cid) (lessons_collection s))))
              (lesson_completions_collection s) in
  exists p,
    get_course_progress course_id u s = (Ok p, s) /\
    total_lessons p = tl /\
    lessons_completed p = lc /\
    percent_completed p =
      (if tl =? 0 then 0%float
       else PrimFloat.mul (PrimFloat.div (float_of_int lc) (float_of_int tl)) 100%float).
Proof.
  intros Hc Hu tl lc.
  unfold get_course_progress. run_handler. rewrite Hc. simpl. rewrite Hu. simpl.
  fold tl. fold lc.
  pose proof (count_documents_nonneg (by_id lesson_course_id cid) (lessons_collection s)) as Hnn.
  fold tl in Hnn.
  destruct (tl =? 0) eqn:E.
  - apply Z.eqb_eq in E.
    assert (Hg : (tl >? 0) = false) by (rewrite Z.gtb_ltb; apply Z.ltb_ge; lia).
    rewrite Hg. simpl. eexists. split; [reflexivity|]. simpl. repeat split.
  - apply Z.eqb_neq in E.
    assert (Hg : (tl >? 0) = true) by (rewrite Z.gtb_ltb; apply Z.ltb_lt; lia).
    rewrite Hg. unfold truediv.
    destruct (tl =? 0) eqn:E'; [apply Z.eqb_eq in E'; contradiction|].
    simpl. eexists. split; [reflexivity|]. simpl. repeat split.
Qed.

(** C6: for every user and course, the summary counts the lessons of the
    course and the completion records of the user for those lessons, and
    carries the percentage 0.0 when the course has no lesson, and otherwise
    the float [lessons_completed / total_lessons * 100]; no division fault
    occurs; and the percentage is the same whatever the quizzes and the quiz
    attempts in the store. *)
Theorem get_course_progress_percent (s : Store) (course_id : string)
    (cid : ObjectId) (u : User) (uid : ObjectId) :
  Bson.ObjectId_new course_id = Ok cid ->
  Bson.ObjectId_new (id u) = Ok uid ->
  exists p,
    get_course_progress course_id u s = (Ok p, s) /\
    total_lessons p =
      count_documents (by_id lesson_course_id cid) (lessons_collection s) /\
    lessons_completed p =
      count_documents
        (fun c => Bson.eqb (lc_user_id c) uid &&
                  oid_in (lc_lesson_id c)
                    (map lesson_oid
                       (find (by_id lesson_course_id cid) (lessons_collection s))))
        (lesson_completions_collection s) /\
    (total_lessons p = 0 -> percent_completed p = 0%float) /\
    (total_lessons p <> 0 ->
       percent_completed p =
         PrimFloat.mul
           (PrimFloat.div (float_of_int (lessons_completed p))
              (float_of_int (total_lessons p)))
           100%float) /\
    (forall quizzes attempts,
       let s' := mkStore (users_collection s) (courses_collection s)
                   (enrollments_collection s) (lessons_collection s) quizzes
                   (questions_collection s) (lesson_completions_collection s)
                   attempts in
       exists p', get_course_progress course_id u s' = (Ok p', s') /\
                  percent_completed p' = percent_completed p).
Proof.
  intros Hc Hu.
  destruct (get_course_progress_run s course_id cid u uid Hc Hu)
    as (p & Hr & Ht & Hl & Hp).
  exists p. split; [exact Hr|]. split; [exact Ht|]. split; [exact Hl|].
  rewrite Ht, Hl, Hp.
  split; [intros H0; rewrite H0; reflexivity|].
  split.
  - intros Hn. apply Z.eqb_neq in Hn. rewrite Hn. reflexivity.
  - intros quizzes attempts s'.
    destruct (get_course_progress_run s' course_id cid u uid Hc Hu)
      as (p' & Hr' & _ & _ & Hp').
    exists p'. split; [exact Hr'|]. rewrite Hp'. reflexivity.
Qed.

Lemma get_course_progress_percent_witness :
  (exists p,
     get_course_progress Sample.course_id Sample.bob Sample.school_after_completion
       = (Ok p, Sample.school_after_completion) /\
     total_lessons p = 1 /\ lessons_completed p = 1 /\
     percent_completed p = 100%float) /\
  (exists p,
     get_course_progress Sample.course_id Sample.alice Sample.school_after_completion
       = (Ok p, Sample.school_after_completion) /\
     total_lessons p = 1 /\ lessons_completed p = 0 /\
     percent_completed p = 0%float).
Proof.
  split.
  - destruct (get_course_progress_percent Sample.school_after_completion
                Sample.course_id (Sample.oid Sample.course_id) Sample.bob
                (Sample.oid Sample.bob_id) eq_refl eq_refl)
      as (p & Hr & Ht & Hl & _ & Hp & _).
    exists p. split; [exact Hr|]. split; [exact Ht|]. split; [exact Hl|].
    rewrite Hp by (rewrite Ht; discriminate).
    rewrite Ht, Hl. reflexivity.
  - destruct (get_course_progress_percent Sample.school_after_completion
                Sample.course_id (Sample.oid Sample.course_id) Sample.alice
                (Sample.oid Sample.alice_id) eq_refl eq_refl)
      as (p & Hr & Ht & Hl & _ & Hp & _).
    exists p. split; [exact Hr|]. split; [exact Ht|]. split; [exact Hl|].
    rewrite Hp by (rewrite Ht; discriminate).
    rewrite Ht, Hl. reflexivity.
Defined.

(** ** Enrollment and lesson completion *)








(** ** Signup *)

Lemma count_all_zero {D : Type} (c : list D) :
  count_documents (fun _ => true) c = 0 -> c = [].
Proof.
  unfold count_documents. destruct c as [|d c]; simpl; [reflexivity | lia].
Qed.

Lemma signup_run (pwd_hash : string -> Res string) (s : Store) (user : UserCreate)
    (inserted_id : ObjectId) (h : string) :
  find_one (fun d => String.eqb (user_username d) (uc_username user))
    (users_collection s) = None ->
  get_password_hash pwd_hash (uc_password user) = Ok h ->
  signup pwd_hash user inserted_id s =
  (match py_or (count_documents (fun _ => true) (users_collection s) =? 0)
           (uc_admin user) with
   | Some a => Ok (mkUserOut (Bson.str inserted_id) (uc_username user) a)
   | None => Raise (PydanticValidationError "is_admin")
   end,
   insert_user
     (mkUserDoc inserted_id (uc_username user) h
        (py_or (count_documents (fun _ => true) (users_collection s) =? 0)
           (uc_admin user))) s).
Proof.
  intros Hf Hh. unfold signup, bind, gets, modify, ret, raise, lift.
  rewrite Hf, Hh.
  destruct (py_or _ (uc_admin user)); reflexivity.
Qed.

Lemma signup_hash_raises (pwd_hash : string -> Res string) (s : Store)
    (user : UserCreate) (inserted_id : ObjectId) (e : Exc) :
  find_one (fun d => String.eqb (user_username d) (uc_username user))
    (users_collection s) = None ->
  get_password_hash pwd_hash (uc_password user) = Raise e ->
  signup pwd_hash user inserted_id s = (Raise e, s).
Proof.
  intros Hf Hh. unfold signup, bind, gets, lift. rewrite Hf, Hh. reflexivity.
Qed.

Lemma get_password_hash_accepts (pwd_hash : string -> Res string) (password : string) :
  secret_ok password = true ->
  get_password_hash pwd_hash password = pwd_hash password.
Proof.
  unfold secret_ok, get_password_hash. intros H.
  apply andb_true_iff in H. destruct H as [H1 H2].
  apply negb_true_iff in H1. apply negb_true_iff in H2. rewrite H1, H2. reflexivity.
Qed.

Lemma get_password_hash_refuses (pwd_hash : string -> Res string) (password : string) :
  secret_ok password = false ->
  get_password_hash pwd_hash password = Raise PasswordValueError.
Proof.
  unfold secret_ok, get_password_hash. intros H.
  destruct (Passlib.secret_too_long password); [reflexivity|].
  destruct (Passlib.contains_nul password); [reflexivity | discriminate H].
Qed.

(** C8: a signup on a store with no user creates, when it creates a user at
    all, a user whose [is_admin] is true, whatever admin flag the request
    carries.  With a password passlib accepts (at most 4096 characters, no
    NUL byte) that the backend hashes, the response says so and the users
    collection gains exactly that record; when the backend raises, or passlib
    refuses the password with [PasswordValueError], the signup raises and no
    user is created. *)
Theorem signup_first_user_is_admin (pwd_hash : string -> Res string) (s : Store)
    (user : UserCreate) (inserted_id : ObjectId) :
  count_documents (fun _ => true) (users_collection s) = 0 ->
  let r := signup pwd_hash user inserted_id s in
  (secret_ok (uc_password user) = true ->
   forall h,
     pwd_hash (uc_password user) = Ok h ->
     exists out,
       fst r = Ok out /\
       uo_is_admin out = true /\
       uo_username out = uc_username user /\
       users_collection (snd r) =
         (users_collection s ++
            [mkUserDoc inserted_id (uc_username user) h (Some true)])%list /\
       snd r = insert_user
                 (mkUserDoc inserted_id (uc_username user) h (Some true)) s) /\
  (secret_ok (uc_password user) = true ->
   forall e,
     pwd_hash (uc_password user) = Raise e ->
     r = (Raise e, s)) /\
  (secret_ok (uc_password user) = false ->
   r = (Raise PasswordValueError, s)).
Proof.
  intros H0 r. subst r. pose proof (count_all_zero _ H0) as Hnil.
  assert (Hfree : find_one (fun d => String.eqb (user_username d) (uc_username user))
                    (users_collection s) = None)
    by (rewrite Hnil; reflexivity).
  split; [|split].
  - intros Hok h Hh.
    rewrite <- (get_password_hash_accepts pwd_hash _ Hok) in Hh.
    rewrite (signup_run pwd_hash s user inserted_id h Hfree Hh).
    rewrite H0. cbn [Z.eqb py_or fst snd].
    eexists. split; [reflexivity|]. repeat split.
  - intros Hok e He.
    rewrite <- (get_password_hash_accepts pwd_hash _ Hok) in He.
    exact (signup_hash_raises pwd_hash s user inserted_id e Hfree He).
  - intros Hbad.
    exact (signup_hash_raises pwd_hash s user inserted_id _ Hfree
             (get_password_hash_refuses pwd_hash _ Hbad)).
Qed.

Lemma signup_first_user_is_admin_witness :
  (exists out,
     fst (signup Sample.pwd_hash (mkUserCreate "dave" "pass-word" (Some false))
            (Sample.oid Sample.fresh_id) empty_store) = Ok out /\
     uo_is_admin out = true /\
     users_collection
       (snd (signup Sample.pwd_hash (mkUserCreate "dave" "pass-word" (Some false))
               (Sample.oid Sample.fresh_id) empty_store))
       = [mkUserDoc (Sample.oid Sample.fresh_id) "dave" Sample.hash1 (Some true)]) /\
  signup Sample.pwd_hash
    (mkUserCreate "dave" (String Ascii.zero "pass-word") (Some false))
    (Sample.oid Sample.fresh_id) empty_store
    = (Raise PasswordValueError, empty_store).
Proof.
  split.
  - destruct (signup_first_user_is_admin Sample.pwd_hash empty_store
                (mkUserCreate "dave" "pass-word" (Some false))
                (Sample.oid Sample.fresh_id) eq_refl) as [Hok _].
    destruct (Hok eq_refl Sample.hash1 eq_refl) as (out & Hr & Ha & _ & Hu & _).
    exists out. split; [exact Hr|]. split; [exact Ha | exact Hu].
  - destruct (signup_first_user_is_admin Sample.pwd_hash empty_store
                (mkUserCreate "dave" (String Ascii.zero "pass-word") (Some false))
                (Sample.oid Sample.fresh_id) eq_refl) as (_ & _ & Hraise).
    apply Hraise. reflexivity.
Defined.

(** C10: on a store that already has users, a signup whose body sets
    [admin = true] under a free username creates, when it creates a user at
    all, a user whose [is_admin] is true; the handler takes no credentials,
    so no authorization is consulted.  With a password passlib accepts (at
    most 4096 characters, no NUL byte) that the backend hashes, the response
    says so and the users collection gains exactly that record; when the
    backend raises, or passlib refuses the password with
    [PasswordValueError], the signup raises and no user is created. *)
Theorem signup_admin_flag_honored (pwd_hash : string -> Res string) (s : Store)
    (user : UserCreate) (inserted_id : ObjectId) :
  count_documents (fun _ => true) (users_collection s) <> 0 ->
  uc_admin user = Some true ->
  find_one (fun d => String.eqb (user_username d) (uc_username user))
    (users_collection s) = None ->
  let r := signup pwd_hash user inserted_id s in
  (secret_ok (uc_password user) = true ->
   forall h,
     pwd_hash (uc_password user) = Ok h ->
     exists out,
       fst r = Ok out /\
       uo_is_admin out = true /\
       users_collection (snd r) =
         (users_collection s ++
            [mkUserDoc inserted_id (uc_username user) h (Some true)])%list /\
       snd r = insert_user
                 (mkUserDoc inserted_id (uc_username user) h (Some true)) s) /\
  (secret_ok (uc_password user) = true ->
   forall e,
     pwd_hash (uc_password user) = Raise e ->
     r = (Raise e, s)) /\
  (secret_ok (uc_password user) = false ->
   r = (Raise PasswordValueError, s)).
Proof.
  intros Hn Ha Hf r. subst r. split; [|split].
  - intros Hok h Hh.
    rewrite <- (get_password_hash_accepts pwd_hash _ Hok) in Hh.
    rewrite (signup_run pwd_hash s user inserted_id h Hf Hh), Ha.
    apply Z.eqb_neq in Hn. rewrite Hn. cbn [py_or fst snd].
    eexists. split; [reflexivity|]. repeat split.
  - intros Hok e He.
    rewrite <- (get_password_hash_accepts pwd_hash _ Hok) in He.
    exact (signup_hash_raises pwd_hash s user inserted_id e Hf He).
  - intros Hbad.
    exact (signup_hash_raises pwd_hash s user inserted_id _ Hf
             (get_password_hash_refuses pwd_hash _ Hbad)).
Qed.

Lemma signup_admin_flag_honored_witness :
  (exists out,
     fst (signup Sample.pwd_hash (mkUserCreate "mallory" "pass-word" (Some true))
            (Sample.oid Sample.fresh_id) Sample.school) = Ok out /\
     uo_is_admin out = true /\
     users_collection
       (snd (signup Sample.pwd_hash (mkUserCreate "mallory" "pass-word" (Some true))
               (Sample.oid Sample.fresh_id) Sample.school))
       = (users_collection Sample.school ++
            [mkUserDoc (Sample.oid Sample.fresh_id) "mallory" Sample.hash1
               (Some true)])%list) /\
  signup Sample.pwd_hash
    (mkUserCreate "mallory" (String Ascii.zero "pass-word") (Some true))
    (Sample.oid Sample.fresh_id) Sample.school
    = (Raise PasswordValueError, Sample.school).
Proof.
  split.
  - destruct (signup_admin_flag_honored Sample.pwd_hash Sample.school
                (mkUserCreate "mallory" "pass-word" (Some true))
                (Sample.oid Sample.fresh_id)) as [Hok _].
    + discriminate.
    + reflexivity.
    + reflexivity.
    + destruct (Hok eq_refl Sample.hash1 eq_refl) as (out & Hr & Ha & Hu & _).
      exists out. split; [exact Hr|]. split; [exact Ha | exact Hu].
  - destruct (signup_admin_flag_honored Sample.pwd_hash Sample.school
                (mkUserCreate "mallory" (String Ascii.zero "pass-word") (Some true))
                (Sample.oid Sample.fresh_id)) as (_ & _ & Hbad).
    + discriminate.
    + reflexivity.
    + reflexivity.
    + apply Hbad. reflexivity.
Defined.

(** ** Password verification *)

(** C9 (as stated): for every password and every hash string, [verify]
    returns a boolean.  On the hash [not-a-hash] it raises. *)
Lemma verify_password_total_counterexample :
  ~ (forall (bcrypt_digest : string -> Z -> string -> string -> Res string)
            (password hash : string),
       exists b, verify_password bcrypt_digest password hash = Ok b).
Proof.
  intros H.
  destruct (H Sample.bcrypt_digest "secret" "not-a-hash") as [b Hb].
  discriminate Hb.
Qed.

Lemma bcrypt_identify_prefix (hash : string) :
  bcrypt_identify hash = true <->
  exists ident, In ident bcrypt_ident_values /\ String.prefix ident hash = true.
Proof.
  unfold bcrypt_identify. rewrite existsb_exists. reflexivity.
Qed.

Lemma prefix_nil (h : string) : String.prefix EmptyString h = true.
Proof. destruct h; reflexivity. Qed.

Lemma prefix_cons (c : ascii) (a h : string) :
  String.prefix (String c a) (String c h) = String.prefix a h.
Proof. simpl. destruct (ascii_dec c c); [reflexivity | congruence]. Qed.

Lemma prefix_drop (a h : string) :
  String.prefix a h = true -> h = a ++ Passlib.drop (String.length a) h.
Proof.
  revert h. induction a as [|c a IH]; intros h H.
  - reflexivity.
  - destruct h as [|c' h]; [discriminate|]. simpl in H.
    destruct (ascii_dec c c') as [<-|]; [|discriminate].
    simpl. rewrite <- (IH h H). reflexivity.
Qed.

Lemma parse_ident_inv (idents : list string) (hash ident tail : string) :
  Passlib.parse_ident idents hash = Some (ident, tail) ->
  In ident idents /\ hash = ident ++ tail.
Proof.
  induction idents as [|i rest IH]; simpl; [discriminate|].
  destruct (String.prefix i hash) eqn:Hp.
  - intros H. injection H as <- <-. split; [left; reflexivity|].
    apply prefix_drop. exact Hp.
  - intros H. destruct (IH H) as [Hin Heq]. split; [right; exact Hin | exact Heq].
Qed.

Lemma split_at_dollar_inv (s a b : string) :
  Passlib.split_at_dollar s = Some (a, b) -> s = a ++ String "$" b.
Proof.
  revert a. induction s as [|c s IH]; simpl; intros a H; [discriminate|].
  destruct (Ascii.eqb c "$") eqn:E.
  - injection H as <- <-. apply Ascii.eqb_eq in E. subst c. reflexivity.
  - destruct (Passlib.split_at_dollar s) as [[a' b']|]; [|discriminate].
    injection H as <- <-. simpl. rewrite (IH a' eq_refl). reflexivity.
Qed.

Lemma take_drop (n : nat) (s : string) :
  Passlib.take n s ++ Passlib.drop n s = s.
Proof.
  revert s. induction n as [|n IH]; intros s; [reflexivity|].
  destruct s as [|c s]; [reflexivity|]. simpl. rewrite IH. reflexivity.
Qed.

Lemma take_app (a b : string) :
  Passlib.take (String.length a) (a ++ b) = a.
Proof. induction a as [|c a IH]; simpl; [destruct b; reflexivity | rewrite IH; reflexivity]. Qed.

Lemma drop_app (a b : string) :
  Passlib.drop (String.length a) (a ++ b) = b.
Proof. induction a as [|c a IH]; simpl; [reflexivity | exact IH]. Qed.

Lemma str_mem_app (c : ascii) (a b : string) :
  Passlib.str_mem c (a ++ b) = Passlib.str_mem c a || Passlib.str_mem c b.
Proof.
  induction a as [|x a IH]; simpl; [reflexivity|].
  rewrite IH, orb_assoc. reflexivity.
Qed.

Lemma in_charmap_no_dollar (s : string) :
  Passlib.in_charmap s = true -> Passlib.str_mem "$" s = false.
Proof.
  unfold Passlib.in_charmap. induction s as [|c s IH]; [reflexivity|].
  intros H. cbn [Passlib.str_forall] in H.
  apply andb_true_iff in H. destruct H as [Hc Hs].
  cbn [Passlib.str_mem]. rewrite (IH Hs), orb_false_r.
  destruct (Ascii.eqb "$" c) eqn:E; [|reflexivity].
  apply Ascii.eqb_eq in E. subst c. vm_compute in Hc. discriminate Hc.
Qed.

Lemma split_at_dollar_app (a b : string) :
  Passlib.str_mem "$" a = false ->
  Passlib.split_at_dollar (a ++ String "$" b) = Some (a, b).
Proof.
  induction a as [|c a IH]; intros H; [reflexivity|].
  cbn [Passlib.str_mem] in H.
  apply orb_false_iff in H. destruct H as [Hc Ha].
  cbn [append Passlib.split_at_dollar].
  rewrite Ascii.eqb_sym, Hc, (IH Ha). reflexivity.
Qed.

Lemma parse_cost_no_dollar (cost : string) (r : Z) :
  Passlib.parse_cost cost = Some r -> Passlib.str_mem "$" cost = false.
Proof.
  unfold Passlib.parse_cost.
  destruct cost as [|a [|b [|c rest]]]; try discriminate.
  destruct (Passlib.digit_value a) as [x|] eqn:Ha; [|discriminate].
  destruct (Passlib.digit_value b) as [y|] eqn:Hb; [|discriminate].
  intros _. cbn [Passlib.str_mem].
  destruct (Ascii.eqb "$" a) eqn:Ea;
    [apply Ascii.eqb_eq in Ea; subst a; discriminate Ha|].
  destruct (Ascii.eqb "$" b) eqn:Eb;
    [apply Ascii.eqb_eq in Eb; subst b; discriminate Hb|].
  reflexivity.
Qed.

Lemma parse_ident_shape (ident rest : string) :
  In ident ["$2$"; "$2a$"; "$2y$"; "$2b$"] ->
  Passlib.parse_ident bcrypt_ident_values (ident ++ rest) = Some (ident, rest) /\
  String.eqb ident "$2x$" = false /\
  bcrypt_identify (ident ++ rest) = true.
Proof.
  intros Hin. unfold bcrypt_identify, bcrypt_ident_values.
  destruct Hin as [<- | [<- | [<- | [<- | []]]]];
    cbn [Passlib.parse_ident existsb append];
    rewrite ?prefix_cons, ?prefix_nil; cbn; rewrite ?prefix_nil;
    repeat split; reflexivity.
Qed.

Lemma from_string_shape (hash ident cost salt chk : string) (r : Z) :
  bcrypt_shape hash ident cost salt chk ->
  Passlib.parse_cost cost = Some r ->
  Passlib.from_string bcrypt_ident_values hash
    = Ok (Passlib.mkBcryptHash ident r (Passlib.check_repair_unused salt)
            (Some (Passlib.check_repair_unused chk))).
Proof.
  intros (-> & Hin & _ & Hls & Hcs & Hlc & Hcc) Hr.
  destruct (parse_ident_shape ident (cost ++ String "$" (salt ++ chk)) Hin)
    as (Hp & Hx & _).
  unfold Passlib.from_string. rewrite Hp, Hx.
  unfold Passlib.split_two.
  rewrite (split_at_dollar_app cost (salt ++ chk) (parse_cost_no_dollar cost r Hr)).
  rewrite str_mem_app, (in_charmap_no_dollar salt Hcs), (in_charmap_no_dollar chk Hcc).
  cbn [orb]. rewrite Hr. cbv zeta.
  pose proof (take_app salt chk) as Ht. pose proof (drop_app salt chk) as Hd.
  rewrite Hls in Ht, Hd. rewrite !Ht, !Hd, Hls, Hcs, Hlc, Hcc. reflexivity.
Qed.

Lemma from_string_inv (hash : string) (h : Passlib.BcryptHash) (chk : string) :
  Passlib.from_string bcrypt_ident_values hash = Ok h ->
  Passlib.bh_checksum h = Some chk ->
  exists salt0 chk0,
    bcrypt_shape hash (Passlib.bh_ident h)
      (Passlib.take 2 (Passlib.drop (String.length (Passlib.bh_ident h)) hash))
      salt0 chk0 /\
    Passlib.bh_salt h = Passlib.check_repair_unused salt0 /\
    chk = Passlib.check_repair_unused chk0.
Proof.
  unfold Passlib.from_string.
  destruct (Passlib.parse_ident bcrypt_ident_values hash) as [[ident tail]|] eqn:Hp;
    [|discriminate].
  destruct (String.eqb ident "$2x$") eqn:Hx; [discriminate|].
  destruct (Passlib.split_two tail) as [[cost data]|] eqn:Hs; [|discriminate].
  destruct (Passlib.parse_cost cost) as [r|] eqn:Hr; [|discriminate].
  cbv zeta.
  pose proof (take_drop 22 data) as Hd.
  remember (Passlib.take 22 data) as salt eqn:Esalt.
  remember (Passlib.drop 22 data) as chk0 eqn:Echk.
  destruct ((String.length salt =? 22)%nat && Passlib.in_charmap salt) eqn:Hsalt;
    cbn [negb]; [|discriminate].
  destruct (String.length chk0 =? 0)%nat eqn:H0.
  { intros H. injection H as <-. discriminate. }
  destruct ((String.length chk0 =? 31)%nat && Passlib.in_charmap chk0) eqn:Hchk;
    cbn [negb]; [|discriminate].
  intros H. injection H as <-.
  cbn [Passlib.bh_checksum Passlib.bh_ident Passlib.bh_salt].
  intros Hc. injection Hc as <-.
  exists salt, chk0. refine (conj _ (conj eq_refl eq_refl)).
  apply parse_ident_inv in Hp. destruct Hp as [Hin ->].
  unfold Passlib.split_two in Hs.
  destruct (Passlib.split_at_dollar tail) as [[a b]|] eqn:Hsd; [|discriminate].
  destruct (Passlib.str_mem "$" b); [discriminate|]. injection Hs as -> ->.
  apply split_at_dollar_inv in Hsd. subst tail.
  apply andb_true_iff in Hsalt. destruct Hsalt as [Hls Hcs].
  apply andb_true_iff in Hchk. destruct Hchk as [Hlc Hcc].
  apply Nat.eqb_eq in Hls. apply Nat.eqb_eq in Hlc.
  assert (Hcost2 : Passlib.take 2 (cost ++ String "$" data) = cost).
  { unfold Passlib.parse_cost in Hr.
    destruct cost as [|x [|y [|z rest]]]; try discriminate. reflexivity. }
  rewrite drop_app, Hcost2.
  clear Esalt Echk.
  unfold bcrypt_shape. rewrite Hd.
  split; [reflexivity|]. split.
  - unfold bcrypt_ident_values in Hin.
    destruct Hin as [<- | [<- | [<- | [<- | [<- | []]]]]];
      try discriminate Hx; cbn; tauto.
  - split; [rewrite Hr; discriminate|]. tauto.
Qed.

Lemma verify_password_shape
    (bcrypt_digest : string -> Z -> string -> string -> Res string)
    (password hash ident cost salt chk : string) (r : Z) :
  bcrypt_shape hash ident cost salt chk ->
  Passlib.parse_cost cost = Some r ->
  secret_ok password = true ->
  verify_password bcrypt_digest password hash =
  match bcrypt_digest ident r (Passlib.check_repair_unused salt) password with
  | Ok digest => Ok (String.eqb digest (Passlib.check_repair_unused chk))
  | Raise e => Raise e
  end.
Proof.
  intros Hshape Hr Hok.
  unfold verify_password, pwd_context_verify.
  rewrite (from_string_shape hash ident cost salt chk r Hshape Hr).
  destruct Hshape as (-> & Hin & _).
  destruct (parse_ident_shape ident (cost ++ String "$" (salt ++ chk)) Hin)
    as (_ & _ & Hid).
  rewrite Hid. cbn [negb Passlib.bh_checksum Passlib.bh_ident Passlib.bh_rounds
                    Passlib.bh_salt].
  unfold secret_ok in Hok. apply andb_true_iff in Hok. destruct Hok as [H1 H2].
  apply negb_true_iff in H1. apply negb_true_iff in H2. rewrite H1, H2.
  reflexivity.
Qed.

(** C9 (amended): [verify] raises [UnknownHashError] on every hash that carries
    none of the bcrypt identifiers; it returns a boolean only for a hash of
    the bcrypt shape (identifier other than [$2x$], two-digit cost from 04 to
    31, 22 salt characters, 31 digest characters) and a password of at most
    4096 characters without NUL byte, so on every malformed hash it raises
    instead of returning false; and on a hash of that shape with such a
    password it returns whether the digest of the password, under the salt
    of the hash, is the digest in the hash (both with their unused bits
    cleared), or raises what the backend raises. *)
Theorem verify_password_malformed_raises
    (bcrypt_digest : string -> Z -> string -> string -> Res string)
    (password hash : string) :
  (bcrypt_identify hash = false ->
     verify_password bcrypt_digest password hash = Raise UnknownHashError) /\
  (forall b,
     verify_password bcrypt_digest password hash = Ok b ->
     secret_ok password = true /\
     exists ident cost salt chk, bcrypt_shape hash ident cost salt chk) /\
  ((forall ident cost salt chk, ~ bcrypt_shape hash ident cost salt chk) ->
     exists e, verify_password bcrypt_digest password hash = Raise e) /\
  (forall ident cost salt chk r,
     bcrypt_shape hash ident cost salt chk ->
     Passlib.parse_cost cost = Some r ->
     secret_ok password = true ->
     verify_password bcrypt_digest password hash =
     match bcrypt_digest ident r (Passlib.check_repair_unused salt) password with
     | Ok digest => Ok (String.eqb digest (Passlib.check_repair_unused chk))
     | Raise e => Raise e
     end).
Proof.
  assert (Hinv : forall b,
     verify_password bcrypt_digest password hash = Ok b ->
     secret_ok password = true /\
     exists ident cost salt chk, bcrypt_shape hash ident cost salt chk).
  { intros b. unfold verify_password, pwd_context_verify, secret_ok.
    destruct (bcrypt_identify hash); cbn [negb]; [|discriminate].
    destruct (Passlib.secret_too_long password); [discriminate|].
    destruct (Passlib.from_string bcrypt_ident_values hash) as [h|e] eqn:Hf;
      [|discriminate].
    destruct (Passlib.bh_checksum h) as [chk|] eqn:Hc; [|discriminate].
    destruct (Passlib.contains_nul password); [discriminate|].
    intros _. split; [reflexivity|].
    destruct (from_string_inv hash h chk Hf Hc) as (salt0 & chk0 & Hshape & _).
    do 4 eexists. exact Hshape. }
  split; [|split; [exact Hinv|split]].
  - unfold verify_password, pwd_context_verify. intros ->. reflexivity.
  - intros Hno.
    destruct (verify_password bcrypt_digest password hash) as [b|e] eqn:Hv.
    + destruct (Hinv b eq_refl) as (_ & i & c & sa & ch & Hs).
      exfalso. exact (Hno i c sa ch Hs).
    + exists e. reflexivity.
  - intros ident cost salt chk r Hshape Hr Hok.
    exact (verify_password_shape bcrypt_digest password hash ident cost salt chk r
             Hshape Hr Hok).
Qed.

Lemma verify_password_malformed_raises_witness :
  verify_password Sample.bcrypt_digest "secret" "not-a-hash" = Raise UnknownHashError /\
  verify_password Sample.bcrypt_digest "pass-word" Sample.hash1 = Ok true /\
  verify_password Sample.bcrypt_digest "secret" Sample.hash1 = Ok false /\
  verify_password Sample.bcrypt_digest "secret" "$2b$12$hash-of-alice" = Raise ValueError.
Proof.
  split; [|split; [|split]].
  - apply (verify_password_malformed_raises Sample.bcrypt_digest "secret" "not-a-hash").
    reflexivity.
  - destruct (verify_password_malformed_raises Sample.bcrypt_digest "pass-word"
                Sample.hash1) as (_ & _ & _ & H).
    rewrite (H "$2b$" "12" "abcdefghijklmnopqrstuu" "ABCDEFGHIJKLMNOPQRSTUVWXYZ0123C" 12).
    + reflexivity.
    + unfold bcrypt_shape. cbn. intuition discriminate.
    + reflexivity.
    + reflexivity.
  - destruct (verify_password_malformed_raises Sample.bcrypt_digest "secret"
                Sample.hash1) as (_ & _ & _ & H).
    rewrite (H "$2b$" "12" "abcdefghijklmnopqrstuu" "ABCDEFGHIJKLMNOPQRSTUVWXYZ0123C" 12).
    + reflexivity.
    + unfold bcrypt_shape. cbn. intuition discriminate.
    + reflexivity.
    + reflexivity.
  - reflexivity.
Defined.

(** ** Bearer tokens *)

(** C5: a token whose signature does not verify, whose expiry has passed,
    whose subject claim is absent, or whose subject names no stored user is
    answered with the one exception [credentials_exception], of status 401,
    and the store is left as it was: the four causes are indistinguishable. *)
Theorem get_current_user_unauthenticated
    (jws_verify : string -> string -> option Claims) (SECRET_KEY : string)
    (token : string) (now : Z) (s : Store) :
  (jws_verify token SECRET_KEY = None \/
   (exists c exp, jws_verify token SECRET_KEY = Some c /\
                  claim_exp c = Some exp /\ exp < now) \/
   (exists c, jws_verify token SECRET_KEY = Some c /\ claim_sub c = SubAbsent) \/
   (exists c name, jws_verify token SECRET_KEY = Some c /\
                   claim_sub c = SubString name /\
                   find_one (fun d => String.eqb (user_username d) name)
                     (users_collection s) = None)) ->
  get_current_user jws_verify SECRET_KEY token now s = (Raise credentials_exception, s) /\
  status_of credentials_exception = 401.
Proof.
  intros H. split; [|reflexivity].
  unfold get_current_user, jwt_decode.
  destruct H as [H | [(c & e & H & He & Hlt) | [(c & H & Hs) | (c & name & H & Hs & Hf)]]];
    rewrite H.
  - reflexivity.
  - rewrite He. apply Z.ltb_lt in Hlt. rewrite Hlt. reflexivity.
  - rewrite Hs. destruct (claim_exp c) as [e|]; [destruct (e <? now)|];
      try reflexivity; cbn; rewrite Hs; reflexivity.
  - rewrite Hs.
    assert (Hlook : get_user_by_username name s = (Ok None, s)).
    { unfold get_user_by_username. run_handler. rewrite Hf. reflexivity. }
    destruct (claim_exp c) as [e|]; [destruct (e <? now)|];
      try reflexivity; cbn; rewrite Hs; unfold bind; rewrite Hlook; reflexivity.
Qed.

Lemma get_current_user_unauthenticated_witness :
  get_current_user Sample.jws_verify "k" "t-forged" 1000 Sample.school
    = (Raise credentials_exception, Sample.school) /\
  get_current_user Sample.jws_verify "k" "t-alice" 3000 Sample.school
    = (Raise credentials_exception, Sample.school) /\
  get_current_user Sample.jws_verify "k" "t-nosub" 1000 Sample.school
    = (Raise credentials_exception, Sample.school) /\
  get_current_user Sample.jws_verify "k" "t-carol" 1000 Sample.school
    = (Raise credentials_exception, Sample.school).
Proof.
  split; [|split; [|split]].
  - apply (get_current_user_unauthenticated Sample.jws_verify "k" "t-forged" 1000).
    left. reflexivity.
  - apply (get_current_user_unauthenticated Sample.jws_verify "k" "t-alice" 3000).
    right; left. exists (mkClaims (SubString "alice") (Some 2000)), 2000.
    split; [reflexivity|]. split; [reflexivity|lia].
  - apply (get_current_user_unauthenticated Sample.jws_verify "k" "t-nosub" 1000).
    right; right; left. exists (mkClaims SubAbsent (Some 2000)). split; reflexivity.
  - apply (get_current_user_unauthenticated Sample.jws_verify "k" "t-carol" 1000).
    right; right; right. exists (mkClaims (SubString "carol") (Some 2000)), "carol".
    split; [reflexivity|]. split; reflexivity.
Defined.

(** ** Pagination: walking the pages *)

Lemma firstn_add_skipn {A : Type} (a b : nat) (l : list A) :
  firstn (a + b) l = (firstn a l ++ firstn b (skipn a l))%list.
Proof.
  revert l. induction a as [|a IH]; intros l; simpl.
  - reflexivity.
  - destruct l as [|x l]; simpl.
    + rewrite firstn_nil. reflexivity.
    + rewrite IH. reflexivity.
Qed.

Lemma chunks_firstn {A : Type} (m : nat) (l : list A) (n : nat) :
  List.concat (map (fun k => firstn m (skipn (k * m) l)) (seq 0 n)) = firstn (n * m) l.
Proof.
  induction n as [|n IH].
  - reflexivity.
  - rewrite seq_S, map_app, concat_app, IH. simpl.
    rewrite app_nil_r, <- firstn_add_skipn.
    f_equal. lia.
Qed.

Lemma items_of_page_chunk {D : Type} (c : list D) (q : D -> bool) (size_ : Z) (k : nat) :
  1 <= size_ ->
  items_of_page c q size_ (Z.of_nat (S k)) =
  firstn (Z.to_nat size_) (skipn (k * Z.to_nat size_) (filter q c)).
Proof.
  intros Hs. unfold items_of_page, paginate_collection, floordiv.
  destruct (size_ =? 0) eqn:E; [apply Z.eqb_eq in E; lia|].
  cbn [items]. unfold limit, skip, find.
  replace (Z.to_nat ((Z.of_nat (S k) - 1) * size_)) with (k * Z.to_nat size_)%nat
    by (rewrite Nat2Z.inj_succ; replace (Z.succ (Z.of_nat k) - 1) with (Z.of_nat k) by lia;
        rewrite Z2Nat.inj_mul by lia; rewrite Nat2Z.id; reflexivity).
  reflexivity.
Qed.

(** X1: for a page size of at least 1, the items of pages 1, 2, ..., [pages]
    of a listing, put end to end, are exactly the matching documents in their
    stored order: no document is skipped and none is served twice. *)
Theorem paginate_pages_cover {D : Type} (c : list D) (q : D -> bool) (size_ : Z) :
  1 <= size_ ->
  exists p1,
    paginate_collection c q 1 size_ = Ok p1 /\
    List.concat (map (fun k => items_of_page c q size_ (Z.of_nat k))
              (seq 1 (Z.to_nat (pages p1)))) = filter q c.
Proof.
  intros Hs.
  unfold paginate_collection at 1. unfold floordiv.
  destruct (size_ =? 0) eqn:E; [apply Z.eqb_eq in E; lia|].
  eexists. split; [reflexivity|]. cbn [pages].
  pose proof (floordiv_ceiling (count_documents q c) size_ ltac:(lia)) as Hceil.
  pose proof (count_documents_nonneg q c) as Hnn.
  set (n' := (count_documents q c + size_ - 1) / size_) in *.
  assert (Hn0 : 0 <= n') by nia.
  rewrite <- seq_shift, map_map.
  rewrite (map_ext _ (fun k => firstn (Z.to_nat size_)
                                 (skipn (k * Z.to_nat size_) (filter q c))))
    by (intros k; apply items_of_page_chunk; exact Hs).
  rewrite chunks_firstn. apply firstn_all2.
  unfold count_documents in Hceil.
  apply Nat2Z.inj_le. rewrite Nat2Z.inj_mul, !Z2Nat.id by lia. lia.
Qed.

Lemma paginate_pages_cover_witness :
  exists p1,
    paginate_collection [1; 2; 3; 4; 5; 6; 7] (fun n => 2 <=? n) 1 4 = Ok p1 /\
    List.concat
      (map (fun k => items_of_page [1; 2; 3; 4; 5; 6; 7] (fun n => 2 <=? n) 4 (Z.of_nat k))
         (seq 1 (Z.to_nat (pages p1))))
      = [2; 3; 4; 5; 6; 7].
Proof.
  exact (paginate_pages_cover [1; 2; 3; 4; 5; 6; 7] (fun n => 2 <=? n) 4 ltac:(lia)).
Defined.

(** X2: for [page >= 1] and [size >= 1], a page reports a next page exactly
    when matching documents remain after it, that is when [page * size] is
    below the total; and it carries [min(size, total - (page-1)*size)]
    items, none at all once [(page-1)*size] reaches the total. *)
Theorem paginate_has_next_iff_more {D : Type} (c : list D) (q : D -> bool)
    (page_ size_ : Z) (p : Page D) :
  1 <= page_ -> 1 <= size_ ->
  paginate_collection c q page_ size_ = Ok p ->
  (has_next p = true <-> page_ * size_ < total p) /\
  Z.of_nat (List.length (items p)) =
    Z.min size_ (Z.max 0 (total p - (page_ - 1) * size_)).
Proof.
  intros Hp Hs Hr.
  unfold paginate_collection, floordiv in Hr.
  destruct (size_ =? 0) eqn:E; [apply Z.eqb_eq in E; lia|].
  injection Hr as <-. cbn [has_next total items].
  pose proof (floordiv_ceiling (count_documents q c) size_ ltac:(lia)) as Hceil.
  pose proof (count_documents_nonneg q c) as Hnn.
  split.
  - rewrite Z.ltb_lt.
    set (n := (count_documents q c + size_ - 1) / size_) in *.
    split; intros H.
    + assert (page_ * size_ <= (n - 1) * size_)
        by (apply Z.mul_le_mono_nonneg_r; lia).
      lia.
    + destruct (Z.lt_ge_cases page_ n) as [Hlt | Hge]; [exact Hlt|].
      assert (n * size_ <= page_ * size_)
        by (apply Z.mul_le_mono_nonneg_r; lia).
      lia.
  - unfold limit, skip, find, count_documents.
    rewrite length_firstn, length_skipn.
    assert (0 <= (page_ - 1) * size_) by (apply Z.mul_nonneg_nonneg; lia).
    lia.
Qed.

Lemma paginate_has_next_iff_more_witness :
  exists p,
    paginate_collection [1; 2; 3; 4; 5; 6; 7] (fun n => 2 <=? n) 2 4 = Ok p /\
    has_next p = false /\ List.length (items p) = 2%nat.
Proof.
  eexists. split; [reflexivity|].
  destruct (paginate_has_next_iff_more [1; 2; 3; 4; 5; 6; 7] (fun n => 2 <=? n) 2 4
              _ ltac:(lia) ltac:(lia) eq_refl) as [Hn Hl].
  split.
  - destruct (has_next _) eqn:E; [|reflexivity].
    apply proj1 in Hn. specialize (Hn eq_refl). cbn in Hn. lia.
  - apply Nat2Z.inj. rewrite Hl. reflexivity.
Defined.

(** ** Bearer tokens: what an accepted token proves *)

Lemma get_user_by_username_found (name : string) (s : Store) (d : UserDoc) (a : bool) :
  find_one (fun u => String.eqb (user_username u) name) (users_collection s) = Some d ->
  user_is_admin d = Some a ->
  get_user_by_username name s =
  (Ok (Some (mkUser (Bson.str (user_oid d)) (user_username d)
               (user_hashed_password d) a)), s).
Proof.
  intros Hf Ha. unfold get_user_by_username. run_handler. rewrite Hf, Ha. reflexivity.
Qed.

Lemma get_user_by_username_missing (name : string) (s : Store) :
  find_one (fun u => String.eqb (user_username u) name) (users_collection s) = None ->
  get_user_by_username name s = (Ok None, s).
Proof.
  intros Hf. unfold get_user_by_username. run_handler. rewrite Hf. reflexivity.
Qed.

Lemma get_user_by_username_null_admin (name : string) (s : Store) (d : UserDoc) :
  find_one (fun u => String.eqb (user_username u) name) (users_collection s) = Some d ->
  user_is_admin d = None ->
  get_user_by_username name s = (Raise (PydanticValidationError "is_admin"), s).
Proof.
  intros Hf Ha. unfold get_user_by_username. run_handler. rewrite Hf, Ha. reflexivity.
Qed.

Lemma find_one_some {D : Type} (q : D -> bool) (c : list D) (d : D) :
  find_one q c = Some d -> In d c /\ q d = true.
Proof. unfold find_one. apply find_some. Qed.

Lemma get_user_by_username_inv (name : string) (s s' : Store) (u : User) :
  get_user_by_username name s = (Ok (Some u), s') ->
  s' = s /\
  exists d,
    find_one (fun x => String.eqb (user_username x) name) (users_collection s) = Some d /\
    user_is_admin d = Some (is_admin u) /\
    username u = name /\
    id u = Bson.str (user_oid d) /\
    hashed_password u = user_hashed_password d.
Proof.
  unfold get_user_by_username. run_handler.
  destruct (find_one _ (users_collection s)) as [d|] eqn:Hf; [|discriminate].
  destruct (user_is_admin d) as [a|] eqn:Ha; [|discriminate].
  intros H. injection H as <- <-. split; [reflexivity|].
  exists d. cbn. repeat split; try assumption.
  apply find_one_some in Hf. destruct Hf as [_ Hq]. apply String.eqb_eq in Hq. exact Hq.
Qed.

(** X3: when [get_current_user] returns a user, the token carried a
    signature that verifies under the server key, its expiry (if any) has not
    passed, its subject is the returned user's username, and that user is a
    stored record with a boolean admin flag; the store is untouched. *)
Theorem get_current_user_sound
    (jws_verify : string -> string -> option Claims) (SECRET_KEY : string)
    (token : string) (now : Z) (s s' : Store) (u : User) :
  get_current_user jws_verify SECRET_KEY token now s = (Ok u, s') ->
  s' = s /\
  exists claims d,
    jws_verify token SECRET_KEY = Some claims /\
    claim_sub claims = SubString (username u) /\
    (forall exp, claim_exp claims = Some exp -> now <= exp) /\
    find_one (fun x => String.eqb (user_username x) (username u)) (users_collection s)
      = Some d /\
    user_is_admin d = Some (is_admin u) /\
    id u = Bson.str (user_oid d).
Proof.
  unfold get_current_user, jwt_decode.
  destruct (jws_verify token SECRET_KEY) as [claims|] eqn:Hv; [|discriminate].
  assert (Hbody :
    (forall exp, claim_exp claims = Some exp -> now <= exp) ->
    (match claim_sub claims with
     | SubString name =>
         (user <- get_user_by_username name ;;
          match user with
          | Some u0 => ret u0
          | None => raise credentials_exception
          end)
     | _ => raise credentials_exception
     end) s = (Ok u, s') ->
    s' = s /\
    exists claims0 d,
      Some claims = Some claims0 /\
      claim_sub claims0 = SubString (username u) /\
      (forall exp, claim_exp claims0 = Some exp -> now <= exp) /\
      find_one (fun x => String.eqb (user_username x) (username u)) (users_collection s)
        = Some d /\
      user_is_admin d = Some (is_admin u) /\
      id u = Bson.str (user_oid d)).
  { intros Hexp. destruct (claim_sub claims) as [|name|] eqn:Hs; try discriminate.
    unfold bind.
    destruct (get_user_by_username name s) as [[[u0|]|e] s0] eqn:Hg; try discriminate.
    intros H. injection H as -> ->.
    apply get_user_by_username_inv in Hg.
    destruct Hg as (-> & d & Hf & Ha & Hn & Hi & _).
    split; [reflexivity|]. exists claims, d. subst name.
    repeat split; assumption. }
  destruct (claim_exp claims) as [exp|] eqn:He.
  - destruct (exp <? now) eqn:Hlt; [discriminate|].
    apply Z.ltb_ge in Hlt.
    destruct (claim_sub claims) eqn:Hs; try discriminate; cbn; rewrite Hs;
      apply Hbody; intros e' He'; injection He' as <-; exact Hlt.
  - destruct (claim_sub claims) eqn:Hs; try discriminate; cbn; rewrite Hs;
      apply Hbody; intros e' He'; discriminate.
Qed.

Lemma get_current_user_sound_witness :
  exists claims d,
    Sample.jws_verify "t-alice" "k" = Some claims /\
    claim_sub claims = SubString "alice" /\
    (forall exp, claim_exp claims = Some exp -> 1000 <= exp) /\
    find_one (fun x => String.eqb (user_username x) "alice")
      (users_collection Sample.school) = Some d /\
    user_is_admin d = Some true /\
    Sample.alice_id = Bson.str (user_oid d).
Proof.
  destruct (get_current_user_sound Sample.jws_verify "k" "t-alice" 1000
              Sample.school Sample.school Sample.alice eq_refl) as (_ & H).
  exact H.
Defined.

(** ** Issued tokens *)

Lemma get_current_user_claims
    (jws_verify : string -> string -> option Claims) (SECRET_KEY : string)
    (token : string) (now exp : Z) (name : string) (s : Store) :
  jws_verify token SECRET_KEY = Some (mkClaims (SubString name) (Some exp)) ->
  get_current_user jws_verify SECRET_KEY token now s =
  if exp <? now then (Raise credentials_exception, s)
  else match get_user_by_username name s with
       | (Ok (Some u), s') => (Ok u, s')
       | (Ok None, s') => (Raise credentials_exception, s')
       | (Raise e, s') => (Raise e, s')
       end.
Proof.
  intros Hv. unfold get_current_user, jwt_decode. rewrite Hv.
  cbn [claim_exp claim_sub].
  destruct (exp <? now); [reflexivity|]. cbn [claim_sub]. unfold bind.
  destruct (get_user_by_username name s) as [[[u|]|e] s']; reflexivity.
Qed.

Lemma toy_dec_pos (p : positive) (rest : string) :
  ToyJws.dec_pos (ToyJws.enc_pos p ++ rest) = Some (p, rest).
Proof.
  induction p as [p IH | p IH | ]; cbn [ToyJws.enc_pos append ToyJws.dec_pos].
  - replace (Ascii.eqb "1" ";") with false by reflexivity.
    replace (Ascii.eqb "1" "1") with true by reflexivity.
    rewrite IH. reflexivity.
  - replace (Ascii.eqb "0" ";") with false by reflexivity.
    replace (Ascii.eqb "0" "1") with false by reflexivity.
    replace (Ascii.eqb "0" "0") with true by reflexivity.
    rewrite IH. reflexivity.
  - reflexivity.
Qed.

Lemma toy_jws_round_trip (claims : Claims) (key : string) :
  ToyJws.jws_verify (ToyJws.jws_sign claims key) key = Some claims.
Proof.
  destruct claims as [sub [exp|]]; unfold ToyJws.jws_sign, ToyJws.jws_verify;
    cbn [claim_exp claim_sub].
  - replace (Ascii.eqb "E" "N") with false by reflexivity.
    replace (Ascii.eqb "E" "E") with true by reflexivity.
    assert (Hz : ToyJws.dec_Z (ToyJws.enc_Z exp ++ ToyJws.enc_sub sub)
                 = Some (exp, ToyJws.enc_sub sub)).
    { destruct exp as [|p|p]; cbn [ToyJws.enc_Z append ToyJws.dec_Z].
      - reflexivity.
      - replace (Ascii.eqb "+" "z") with false by reflexivity.
        replace (Ascii.eqb "+" "+") with true by reflexivity.
        rewrite toy_dec_pos. reflexivity.
      - replace (Ascii.eqb "-" "z") with false by reflexivity.
        replace (Ascii.eqb "-" "+") with false by reflexivity.
        replace (Ascii.eqb "-" "-") with true by reflexivity.
        rewrite toy_dec_pos. reflexivity. }
    rewrite Hz. destruct sub; reflexivity.
  - replace (Ascii.eqb "N" "N") with true by reflexivity.
    destruct sub; reflexivity.
Qed.

(** X4: with a signing scheme whose check recovers the claims that were
    signed, a token made by [create_access_token] at time [issued] for a
    stored user is accepted up to and including [issued + ttl] and refused
    with 401 afterwards, where [ttl] is the requested lifetime in seconds, or
    15 minutes when the lifetime is absent or zero (so a zero lifetime does
    not give a token that is already stale). *)
Theorem issued_token_lifetime
    (jws_verify : string -> string -> option Claims)
    (jws_sign : Claims -> string -> string) (SECRET_KEY : string)
    (name : string) (expires_delta : option Z) (issued now : Z)
    (s : Store) (d : UserDoc) (a : bool) :
  (forall claims, jws_verify (jws_sign claims SECRET_KEY) SECRET_KEY = Some claims) ->
  find_one (fun u => String.eqb (user_username u) name) (users_collection s) = Some d ->
  user_is_admin d = Some a ->
  let ttl := match expires_delta with
             | Some delta => if delta =? 0 then 900 else delta
             | None => 900
             end in
  let token := create_access_token jws_sign SECRET_KEY (SubString name)
                 expires_delta issued in
  (now <= issued + ttl ->
     get_current_user jws_verify SECRET_KEY token now s =
     (Ok (mkUser (Bson.str (user_oid d)) (user_username d) (user_hashed_password d) a),
      s)) /\
  (issued + ttl < now ->
     get_current_user jws_verify SECRET_KEY token now s = (Raise credentials_exception, s)).
Proof.
  intros Hround Hf Ha ttl token.
  assert (Hv : jws_verify token SECRET_KEY
               = Some (mkClaims (SubString name) (Some (issued + ttl)))).
  { subst token ttl. unfold create_access_token, timedelta_minutes.
    rewrite Hround. destruct expires_delta as [delta|]; [|reflexivity].
    destruct (delta =? 0); reflexivity. }
  rewrite (get_current_user_claims jws_verify SECRET_KEY token now (issued + ttl) name s Hv).
  rewrite (get_user_by_username_found name s d a Hf Ha).
  split; intros H.
  - apply Z.ltb_ge in H. rewrite H. reflexivity.
  - apply Z.ltb_lt in H. rewrite H. reflexivity.
Qed.

Lemma issued_token_lifetime_witness :
  get_current_user ToyJws.jws_verify "k"
    (create_access_token ToyJws.jws_sign "k" (SubString "alice") (Some 0) 1100)
    2000 Sample.school
    = (Ok Sample.alice, Sample.school) /\
  get_current_user ToyJws.jws_verify "k"
    (create_access_token ToyJws.jws_sign "k" (SubString "alice") (Some 0) 1100)
    2001 Sample.school
    = (Raise credentials_exception, Sample.school).
Proof.
  split.
  - apply (issued_token_lifetime ToyJws.jws_verify ToyJws.jws_sign "k"
             "alice" (Some 0) 1100 2000 Sample.school
             (mkUserDoc (Sample.oid Sample.alice_id) "alice" Sample.hash1 (Some true))
             true (fun c => toy_jws_round_trip c "k") eq_refl eq_refl).
    cbn; lia.
  - apply (issued_token_lifetime ToyJws.jws_verify ToyJws.jws_sign "k"
             "alice" (Some 0) 1100 2001 Sample.school
             (mkUserDoc (Sample.oid Sample.alice_id) "alice" Sample.hash1 (Some true))
             true (fun c => toy_jws_round_trip c "k") eq_refl eq_refl).
    cbn; lia.
Defined.

(** ** Signup, then login *)

Lemma authenticate_user_found
    (bcrypt_digest : string -> Z -> string -> string -> Res string)
    (name password : string) (s : Store) (d : UserDoc) (a : bool) :
  find_one (fun u => String.eqb (user_username u) name) (users_collection s) = Some d ->
  user_is_admin d = Some a ->
  authenticate_user bcrypt_digest name password s =
  match verify_password bcrypt_digest password (user_hashed_password d) with
  | Ok true =>
      (Ok (Some (mkUser (Bson.str (user_oid d)) (user_username d)
                   (user_hashed_password d) a)), s)
  | Ok false => (Ok None, s)
  | Raise e => (Raise e, s)
  end.
Proof.
  intros Hf Ha. unfold authenticate_user, bind.
  rewrite (get_user_by_username_found name s d a Hf Ha). cbn.
  unfold lift.
  destruct (verify_password bcrypt_digest password (user_hashed_password d)) as [[|]|e];
    reflexivity.
Qed.

(** X5: take a bcrypt backend whose hash for the password is a well-formed
    bcrypt string carrying the digest the backend computes for that password
    under the string's identifier, cost and salt, and a signing scheme whose
    check recovers the claims that were signed.  After a signup under a free
    username with a password passlib accepts and a stored admin flag that is
    a boolean, a login with the same username and password succeeds, and the
    bearer token it returns is accepted by [get_current_user] until it
    expires, resolving to a user with that username, the id of the new record
    and the admin flag the signup stored. *)
Theorem signup_then_login
    (pwd_hash : string -> Res string)
    (bcrypt_digest : string -> Z -> string -> string -> Res string)
    (jws_verify : string -> string -> option Claims)
    (jws_sign : Claims -> string -> string) (SECRET_KEY : string)
    (MINUTES : Z) (s : Store) (user : UserCreate) (inserted_id : ObjectId)
    (a : bool) (h ident cost salt chk : string) (rounds : Z) (t_login t_use : Z) :
  find_one (fun d => String.eqb (user_username d) (uc_username user))
    (users_collection s) = None ->
  py_or (count_documents (fun _ => true) (users_collection s) =? 0) (uc_admin user)
    = Some a ->
  secret_ok (uc_password user) = true ->
  pwd_hash (uc_password user) = Ok h ->
  bcrypt_shape h ident cost salt chk ->
  Passlib.parse_cost cost = Some rounds ->
  bcrypt_digest ident rounds (Passlib.check_repair_unused salt) (uc_password user)
    = Ok (Passlib.check_repair_unused chk) ->
  (forall claims, jws_verify (jws_sign claims SECRET_KEY) SECRET_KEY = Some claims) ->
  let s1 := snd (signup pwd_hash user inserted_id s) in
  let token := create_access_token jws_sign SECRET_KEY (SubString (uc_username user))
                 (Some (timedelta_minutes MINUTES)) t_login in
  let ttl := if timedelta_minutes MINUTES =? 0 then 900
             else timedelta_minutes MINUTES in
  t_use <= t_login + ttl ->
  login bcrypt_digest jws_sign SECRET_KEY MINUTES
    (mkLoginRequest (uc_username user) (uc_password user)) t_login s1
    = (Ok (mkToken token "bearer"), s1) /\
  get_current_user jws_verify SECRET_KEY token t_use s1 =
    (Ok (mkUser (Bson.str inserted_id) (uc_username user) h a), s1).
Proof.
  intros Hfree Hadm Hsec Hh Hshape Hcost Hdig Hround s1 token ttl Ht.
  assert (Hh' : get_password_hash pwd_hash (uc_password user) = Ok h)
    by (rewrite (get_password_hash_accepts pwd_hash _ Hsec); exact Hh).
  assert (Hver : verify_password bcrypt_digest (uc_password user) h = Ok true).
  { rewrite (verify_password_shape bcrypt_digest (uc_password user) h ident cost salt
               chk rounds Hshape Hcost Hsec), Hdig.
    rewrite String.eqb_refl. reflexivity. }
  assert (Hs1 : s1 = insert_user
                       (mkUserDoc inserted_id (uc_username user) h (Some a)) s).
  { subst s1. rewrite (signup_run pwd_hash s user inserted_id h Hfree Hh'), Hadm.
    reflexivity. }
  assert (Hfind : find_one (fun d => String.eqb (user_username d) (uc_username user))
                    (users_collection s1)
                  = Some (mkUserDoc inserted_id (uc_username user) h (Some a))).
  { rewrite Hs1. cbn [insert_user users_collection]. rewrite find_one_app, Hfree.
    cbn [user_username]. rewrite String.eqb_refl. reflexivity. }
  assert (Hv : jws_verify token SECRET_KEY
               = Some (mkClaims (SubString (uc_username user)) (Some (t_login + ttl)))).
  { subst token ttl. unfold create_access_token. rewrite Hround.
    destruct (timedelta_minutes MINUTES =? 0); reflexivity. }
  split.
  - unfold login, bind. cbn [lr_username lr_password].
    rewrite (authenticate_user_found bcrypt_digest _ _ s1 _ a Hfind eq_refl).
    cbn [user_hashed_password]. rewrite Hver. reflexivity.
  - rewrite (get_current_user_claims jws_verify SECRET_KEY token t_use
               (t_login + ttl) (uc_username user) s1 Hv).
    apply Z.ltb_ge in Ht. rewrite Ht.
    rewrite (get_user_by_username_found _ s1 _ a Hfind eq_refl). reflexivity.
Qed.

Lemma sample_hash1_shape :
  bcrypt_shape Sample.hash1 "$2b$" "12" "abcdefghijklmnopqrstuu"
    "ABCDEFGHIJKLMNOPQRSTUVWXYZ0123C".
Proof. unfold bcrypt_shape. cbn. intuition discriminate. Qed.

Lemma signup_then_login_witness :
  let s1 := snd (signup Sample.pwd_hash SampleMore.carol_signup
                   (Sample.oid Sample.fresh_id) Sample.school) in
  let token := create_access_token ToyJws.jws_sign "k" (SubString "carol")
                 (Some 1800) 200 in
  login Sample.bcrypt_digest ToyJws.jws_sign "k" 30
    (mkLoginRequest "carol" "pass-word") 200 s1
    = (Ok (mkToken token "bearer"), s1) /\
  get_current_user ToyJws.jws_verify "k" token 2000 s1 =
    (Ok (mkUser Sample.fresh_id "carol" Sample.hash1 false), s1).
Proof.
  apply (signup_then_login Sample.pwd_hash Sample.bcrypt_digest ToyJws.jws_verify
           ToyJws.jws_sign "k" 30 Sample.school SampleMore.carol_signup
           (Sample.oid Sample.fresh_id) false Sample.hash1
           "$2b$" "12" "abcdefghijklmnopqrstuu" "ABCDEFGHIJKLMNOPQRSTUVWXYZ0123C" 12
           200 2000
           eq_refl eq_refl eq_refl eq_refl sample_hash1_shape eq_refl eq_refl
           (fun c => toy_jws_round_trip c "k")).
  cbn; lia.
Defined.

(** X6: a login for a username that is not stored, and a login for a stored
    user with a boolean admin flag and a well-formed bcrypt hash, with a
    password passlib accepts whose digest under that hash's identifier, cost
    and salt is not the digest in the hash, fail with the same exception,
    status 400 and the same detail, and leave the store as it was. *)
Theorem login_failure_uniform
    (bcrypt_digest : string -> Z -> string -> string -> Res string)
    (jws_sign : Claims -> string -> string) (SECRET_KEY : string) (MINUTES : Z)
    (login_data : LoginRequest) (now : Z) (s : Store) :
  (find_one (fun u => String.eqb (user_username u) (lr_username login_data))
     (users_collection s) = None \/
   exists d a ident cost salt chk rounds digest,
     find_one (fun u => String.eqb (user_username u) (lr_username login_data))
       (users_collection s) = Some d /\
     user_is_admin d = Some a /\
     bcrypt_shape (user_hashed_password d) ident cost salt chk /\
     Passlib.parse_cost cost = Some rounds /\
     secret_ok (lr_password login_data) = true /\
     bcrypt_digest ident rounds (Passlib.check_repair_unused salt)
       (lr_password login_data) = Ok digest /\
     digest <> Passlib.check_repair_unused chk) ->
  login bcrypt_digest jws_sign SECRET_KEY MINUTES login_data now s
    = (Raise bad_credentials, s) /\
  status_of bad_credentials = 400.
Proof.
  intros H. split; [|reflexivity].
  unfold login, bind.
  destruct H as [Hnone | (d & a & ident & cost & salt & chk & rounds & digest &
                          Hf & Ha & Hshape & Hcost & Hsec & Hdig & Hne)].
  - unfold authenticate_user, bind.
    rewrite (get_user_by_username_missing _ s Hnone). reflexivity.
  - rewrite (authenticate_user_found bcrypt_digest _ _ s d a Hf Ha).
    rewrite (verify_password_shape bcrypt_digest _ _ ident cost salt chk rounds
               Hshape Hcost Hsec), Hdig.
    apply String.eqb_neq in Hne. rewrite Hne. reflexivity.
Qed.

Lemma login_failure_uniform_witness :
  login Sample.bcrypt_digest ToyJws.jws_sign "k" 30
    (mkLoginRequest "zed" "pass-word") 200 Sample.school
    = (Raise bad_credentials, Sample.school) /\
  login Sample.bcrypt_digest ToyJws.jws_sign "k" 30
    (mkLoginRequest "alice" "not-her-password") 200 Sample.school
    = (Raise bad_credentials, Sample.school).
Proof.
  split.
  - apply (login_failure_uniform Sample.bcrypt_digest ToyJws.jws_sign "k" 30
             (mkLoginRequest "zed" "pass-word") 200 Sample.school).
    left. reflexivity.
  - apply (login_failure_uniform Sample.bcrypt_digest ToyJws.jws_sign "k" 30
             (mkLoginRequest "alice" "not-her-password") 200 Sample.school).
    right.
    exists (mkUserDoc (Sample.oid Sample.alice_id) "alice" Sample.hash1 (Some true)),
           true, "$2b$", "12", "abcdefghijklmnopqrstuu",
           "ABCDEFGHIJKLMNOPQRSTUVWXYZ0123C", 12,
           "ZYXWVUTSRQPONMLKJIHGFEDCBA9876C".
    split; [reflexivity|]. split; [reflexivity|].
    split; [exact sample_hash1_shape|]. split; [reflexivity|].
    split; [reflexivity|]. split; [reflexivity | discriminate].
Defined.

(** X7: a signup on a non-empty store whose body carries [admin: null], under
    a free username and with a password passlib accepts and the backend
    hashes, stores a user whose
    admin flag is null and then fails while building the response; from then
    on the username is taken, and every login for it fails with the same
    validation error rather than with 400. *)
Theorem signup_null_admin_locks_username
    (pwd_hash : string -> Res string)
    (bcrypt_digest : string -> Z -> string -> string -> Res string)
    (jws_sign : Claims -> string -> string) (SECRET_KEY : string) (MINUTES : Z)
    (s : Store) (user : UserCreate) (inserted_id : ObjectId) (h : string) :
  count_documents (fun _ => true) (users_collection s) <> 0 ->
  uc_admin user = None ->
  find_one (fun d => String.eqb (user_username d) (uc_username user))
    (users_collection s) = None ->
  secret_ok (uc_password user) = true ->
  pwd_hash (uc_password user) = Ok h ->
  let r := signup pwd_hash user inserted_id s in
  r = (Raise (PydanticValidationError "is_admin"),
       insert_user (mkUserDoc inserted_id (uc_username user) h None) s) /\
  users_collection (snd r) =
    (users_collection s ++ [mkUserDoc inserted_id (uc_username user) h None])%list /\
  (forall user' inserted_id',
     uc_username user' = uc_username user ->
     signup pwd_hash user' inserted_id' (snd r)
       = (Raise (HTTPException 400 "Username already registered"), snd r)) /\
  (forall password now,
     login bcrypt_digest jws_sign SECRET_KEY MINUTES
       (mkLoginRequest (uc_username user) password) now (snd r)
       = (Raise (PydanticValidationError "is_admin"), snd r)).
Proof.
  intros Hn Ha Hfree Hsec Hh r. subst r.
  rewrite <- (get_password_hash_accepts pwd_hash _ Hsec) in Hh.
  rewrite (signup_run pwd_hash s user inserted_id h Hfree Hh), Ha.
  apply Z.eqb_neq in Hn. rewrite Hn. cbn [py_or snd].
  set (s1 := insert_user _ s).
  assert (Hfind : find_one (fun d => String.eqb (user_username d) (uc_username user))
                    (users_collection s1)
                  = Some (mkUserDoc inserted_id (uc_username user) h None)).
  { subst s1. cbn [insert_user users_collection]. rewrite find_one_app, Hfree.
    cbn [user_username]. rewrite String.eqb_refl. reflexivity. }
  split; [reflexivity|]. split; [reflexivity|]. split.
  - intros user' i' Hu. unfold signup, bind, gets. rewrite Hu, Hfind. reflexivity.
  - intros password now. unfold login, authenticate_user, bind.
    cbn [lr_username].
    rewrite (get_user_by_username_null_admin _ s1 _ Hfind eq_refl). reflexivity.
Qed.

Lemma signup_null_admin_locks_username_witness :
  let r := signup Sample.pwd_hash SampleMore.erin_signup (Sample.oid Sample.fresh_id)
             Sample.school in
  fst r = Raise (PydanticValidationError "is_admin") /\
  login Sample.bcrypt_digest ToyJws.jws_sign "k" 30
    (mkLoginRequest "erin" "pass-word") 200 (snd r)
    = (Raise (PydanticValidationError "is_admin"), snd r).
Proof.
  destruct (signup_null_admin_locks_username Sample.pwd_hash Sample.bcrypt_digest
              ToyJws.jws_sign "k" 30 Sample.school SampleMore.erin_signup
              (Sample.oid Sample.fresh_id) Sample.hash1) as (Hr & _ & _ & Hl).
  - discriminate.
  - reflexivity.
  - reflexivity.
  - reflexivity.
  - reflexivity.
  - split.
    + rewrite Hr. reflexivity.
    + apply (Hl "pass-word" 200).
Defined.

(** ** Object ids: printing and parsing back *)

Lemma hex_value_hex_char (d : N) :
  (d < 16)%N -> Bson.hex_value (Bson.hex_char d) = Some d.
Proof.
  intros H.
  assert (Hc : (d = 0 \/ d = 1 \/ d = 2 \/ d = 3 \/ d = 4 \/ d = 5 \/ d = 6 \/ d = 7 \/
                d = 8 \/ d = 9 \/ d = 10 \/ d = 11 \/ d = 12 \/ d = 13 \/ d = 14 \/
                d = 15)%N) by lia.
  repeat (destruct Hc as [-> | Hc]; [reflexivity|]). subst d. reflexivity.
Qed.

Lemma is_space_hex_char (d : N) :
  (d < 16)%N -> Bson.is_space (Bson.hex_char d) = false.
Proof.
  intros H.
  assert (Hc : (d = 0 \/ d = 1 \/ d = 2 \/ d = 3 \/ d = 4 \/ d = 5 \/ d = 6 \/ d = 7 \/
                d = 8 \/ d = 9 \/ d = 10 \/ d = 11 \/ d = 12 \/ d = 13 \/ d = 14 \/
                d = 15)%N) by lia.
  repeat (destruct Hc as [-> | Hc]; [reflexivity|]). subst d. reflexivity.
Qed.

Lemma fromhex_hex_string (n : nat) (ds : list N) :
  List.length ds = (2 * n)%nat ->
  forallb (fun d => (d <? 16)%N) ds = true ->
  Bson.fromhex (Bson.hex_string ds) = Some ds.
Proof.
  revert ds. induction n as [|n IH]; intros ds Hl Hf.
  - destruct ds; [reflexivity | discriminate].
  - destruct ds as [|d [|d' ds]]; try (cbn in Hl; lia).
    cbn [forallb] in Hf.
    apply andb_true_iff in Hf. destruct Hf as [Hd Hf].
    apply andb_true_iff in Hf. destruct Hf as [Hd' Hf].
    apply N.ltb_lt in Hd. apply N.ltb_lt in Hd'.
    cbn [Bson.hex_string Bson.fromhex].
    rewrite (is_space_hex_char d Hd), (hex_value_hex_char d Hd),
      (hex_value_hex_char d' Hd').
    rewrite (IH ds); [reflexivity | cbn in Hl; lia | exact Hf].
Qed.

Lemma length_hex_string (ds : list N) :
  String.length (Bson.hex_string ds) = List.length ds.
Proof. induction ds as [|d ds IH]; simpl; [reflexivity | rewrite IH; reflexivity]. Qed.

Lemma ObjectId_new_str (o : ObjectId) :
  oid_well_formed o = true -> Bson.ObjectId_new (Bson.str o) = Ok o.
Proof.
  unfold oid_well_formed, Bson.ObjectId_new, Bson.str. intros H.
  apply andb_true_iff in H. destruct H as [Hl Hd].
  rewrite length_hex_string, Hl.
  apply Nat.eqb_eq in Hl.
  rewrite (fromhex_hex_string 12 (Bson.digits o) Hl Hd).
  destruct o; reflexivity.
Qed.

(** ** Creating courses, lessons, quizzes and questions *)

Lemma get_course_creator_user_run (s : Store) (course_id : string) (cid : ObjectId)
    (u : User) (uid : ObjectId) :
  Bson.ObjectId_new course_id = Ok cid ->
  Bson.ObjectId_new (id u) = Ok uid ->
  (is_creator s cid uid = true /\
   get_course_creator_user course_id u s = (Ok u, s)) \/
  (is_creator s cid uid = false /\
   exists code detail,
     get_course_creator_user course_id u s = (Raise (HTTPException code detail), s) /\
     (code = 403 \/ code = 404)).
Proof.
  intros Hc Hu. unfold is_creator, get_course_creator_user. run_handler. rewrite Hc.
  destruct (find_one (by_id course_oid cid) (courses_collection s)) as [c|].
  - destruct (course_created_by c) as [| |cb]; simpl.
    + right. split; [reflexivity|]. do 2 eexists. split; [reflexivity|]. lia.
    + right. split; [reflexivity|]. do 2 eexists. split; [reflexivity|]. lia.
    + rewrite Hu. simpl. destruct (Bson.eqb cb uid); simpl.
      * left. split; reflexivity.
      * right. split; [reflexivity|]. do 2 eexists. split; [reflexivity|]. lia.
  - simpl. right. split; [reflexivity|]. do 2 eexists. split; [reflexivity|]. lia.
Qed.

Lemma is_creator_insert_course (s : Store) (d : CourseDoc) (cid uid : ObjectId) :
  find_one (by_id course_oid cid) (courses_collection s) = None ->
  is_creator (insert_course d s) cid uid =
  by_id course_oid cid d &&
  match course_created_by d with
  | Val created_by => Bson.eqb created_by uid
  | _ => false
  end.
Proof.
  intros Hf. unfold is_creator. cbn [insert_course courses_collection].
  rewrite find_one_app, Hf. destruct (by_id course_oid cid d); reflexivity.
Qed.

(** X8: a course created under an id no stored course has yet is owned by the
    caller: right after [create_course], the creator check on the returned
    course id lets the caller through and refuses every user with another
    id with 403 or 404. *)
Theorem create_course_then_creator_check (s : Store) (course : CourseCreate)
    (u : User) (uid inserted_id : ObjectId) :
  Bson.ObjectId_new (id u) = Ok uid ->
  oid_well_formed inserted_id = true ->
  find_one (by_id course_oid inserted_id) (courses_collection s) = None ->
  exists out,
    create_course course u inserted_id s =
      (Ok out,
       insert_course
         (mkCourseDoc inserted_id (cc_title course) (cc_description course)
            (cc_instructor course) (cc_price course) (Val uid)) s) /\
    co_created_by out = Some (Bson.str uid) /\
    let s1 := snd (create_course course u inserted_id s) in
    get_course_creator_user (co_id out) u s1 = (Ok u, s1) /\
    (forall u' uid',
       Bson.ObjectId_new (id u') = Ok uid' -> uid' <> uid ->
       exists code detail,
         get_course_creator_user (co_id out) u' s1
           = (Raise (HTTPException code detail), s1) /\
         (code = 403 \/ code = 404)).
Proof.
  intros Hu Hwf Hfresh.
  unfold create_course. run_handler. rewrite Hu. simpl.
  eexists. split; [reflexivity|]. split; [reflexivity|].
  cbn [co_id]. set (s1 := insert_course _ s).
  pose proof (ObjectId_new_str inserted_id Hwf) as Hparse.
  split.
  - destruct (get_course_creator_user_run s1 _ inserted_id u uid Hparse Hu)
      as [[_ Hok] | [Hno _]]; [exact Hok|].
    subst s1. rewrite (is_creator_insert_course s _ inserted_id uid Hfresh) in Hno.
    unfold by_id in Hno. cbn in Hno. rewrite !oid_eqb_refl in Hno. discriminate.
  - intros u' uid' Hu' Hne.
    destruct (get_course_creator_user_run s1 _ inserted_id u' uid' Hparse Hu')
      as [[Hyes _] | [_ Hno]]; [|exact Hno].
    subst s1. rewrite (is_creator_insert_course s _ inserted_id uid' Hfresh) in Hyes.
    unfold by_id in Hyes. cbn in Hyes. rewrite oid_eqb_refl in Hyes.
    apply oid_eqb_eq in Hyes. congruence.
Qed.

Lemma create_course_then_creator_check_witness :
  exists out,
    fst (create_course SampleMore.algebra Sample.bob (Sample.oid SampleMore.algebra_id)
           Sample.school) = Ok out /\
    co_id out = SampleMore.algebra_id /\
    fst (get_course_creator_user SampleMore.algebra_id Sample.bob
           (snd (create_course SampleMore.algebra Sample.bob
                   (Sample.oid SampleMore.algebra_id) Sample.school)))
      = Ok Sample.bob.
Proof.
  destruct (create_course_then_creator_check Sample.school SampleMore.algebra
              Sample.bob (Sample.oid Sample.bob_id) (Sample.oid SampleMore.algebra_id)
              eq_refl eq_refl eq_refl) as (out & Hr & _ & Hok & _).
  exists out. rewrite Hr. split; [reflexivity|].
  injection Hr as Hout. subst out. split; [reflexivity|].
  exact (f_equal fst Hok).
Defined.

(** X9: [create_lesson] changes the store exactly when bson's [ObjectId]
    accepts the course id and the caller is the recorded creator of the
    course: then one lesson of that course is appended and the response is the
    lesson, unless the body had no [resource_links], in which case the lesson
    is stored all the same and building the response fails.  In every other
    case the store is left as it was: a course id bson rejects makes its
    [InvalidId] escape (status 500), a caller whose id parses and who is not
    the creator gets 403 or 404, and a caller whose id bson rejects gets an
    exception. *)
Theorem create_lesson_effect (s : Store) (course_id : string)
    (lesson : LessonCreate) (u : User) (inserted_id : ObjectId) :
  let r := create_lesson course_id lesson u inserted_id s in
  (forall e, Bson.ObjectId_new course_id = Raise e ->
     r = (Raise e, s) /\ e = InvalidId course_id /\ status_of e = 500) /\
  (forall cid uid,
     Bson.ObjectId_new course_id = Ok cid ->
     Bson.ObjectId_new (id u) = Ok uid ->
     (is_creator s cid uid = true ->
        snd r = insert_lesson
                  (mkLessonDoc inserted_id (lcr_title lesson) (lcr_video_url lesson)
                     (lcr_resource_links lesson) cid) s /\
        (forall links, lcr_resource_links lesson = Some links ->
           fst r = Ok (mkLessonOut (Bson.str inserted_id) (lcr_title lesson)
                         (lcr_video_url lesson) links (Bson.str cid))) /\
        (lcr_resource_links lesson = None ->
           fst r = Raise (PydanticValidationError "resource_links"))) /\
     (is_creator s cid uid = false ->
        snd r = s /\
        exists code detail,
          fst r = Raise (HTTPException code detail) /\ (code = 403 \/ code = 404))) /\
  (forall cid e,
     Bson.ObjectId_new course_id = Ok cid ->
     Bson.ObjectId_new (id u) = Raise e ->
     snd r = s /\ exists e', fst r = Raise e').
Proof.
  intros r. subst r. split; [|split].
  - intros e He. unfold create_lesson, get_course_creator_user, bind, lift.
    rewrite He. split; [reflexivity|].
    assert (e = InvalidId course_id) as ->.
    { unfold Bson.ObjectId_new in He.
      destruct (String.length course_id =? 24)%nat;
        [destruct (Bson.fromhex course_id)|]; congruence. }
    split; reflexivity.
  - intros cid uid Hc Hu. unfold create_lesson, bind.
    destruct (get_course_creator_user_run s course_id cid u uid Hc Hu)
      as [[Hyes Hrun] | [Hno (code & detail & Hrun & Hcode)]]; rewrite Hrun.
    + split; [|rewrite Hyes; discriminate]. intros _.
      unfold lift, modify. rewrite Hc. cbn [fst snd].
      split; [reflexivity|]. split.
      * intros links Hl. rewrite Hl. reflexivity.
      * intros Hl. rewrite Hl. reflexivity.
    + split; [rewrite Hno; discriminate|]. intros _.
      split; [reflexivity|]. exists code, detail. split; [reflexivity | exact Hcode].
  - intros cid e Hc Hu.
    unfold create_lesson, get_course_creator_user, bind, lift, gets, raise.
    rewrite Hc.
    destruct (find_one (by_id course_oid cid) (courses_collection s)) as [c|];
      [|split; [reflexivity | eexists; reflexivity]].
    destruct (course_created_by c) as [| |cb];
      try (split; [reflexivity | eexists; reflexivity]).
    rewrite Hu. split; [reflexivity | eexists; reflexivity].
Qed.

Lemma create_lesson_effect_witness :
  fst (create_lesson Sample.course_id SampleMore.lesson_with_links Sample.alice
         (Sample.oid Sample.fresh_id) Sample.school)
    = Ok (mkLessonOut Sample.fresh_id "Lesson 2" "video-2" "notes" Sample.course_id) /\
  snd (create_lesson Sample.course_id SampleMore.lesson_with_links Sample.bob
         (Sample.oid Sample.fresh_id) Sample.school) = Sample.school /\
  create_lesson "abc" SampleMore.lesson_with_links Sample.alice
    (Sample.oid Sample.fresh_id) Sample.school
    = (Raise (InvalidId "abc"), Sample.school).
Proof.
  split; [|split].
  - destruct (create_lesson_effect Sample.school Sample.course_id
                SampleMore.lesson_with_links Sample.alice
                (Sample.oid Sample.fresh_id)) as (_ & H & _).
    destruct (H (Sample.oid Sample.course_id) (Sample.oid Sample.alice_id)
                eq_refl eq_refl) as [Hyes _].
    destruct (Hyes eq_refl) as (_ & Hok & _). exact (Hok "notes" eq_refl).
  - destruct (create_lesson_effect Sample.school Sample.course_id
                SampleMore.lesson_with_links Sample.bob
                (Sample.oid Sample.fresh_id)) as (_ & H & _).
    destruct (H (Sample.oid Sample.course_id) (Sample.oid Sample.bob_id)
                eq_refl eq_refl) as [_ Hno].
    destruct (Hno eq_refl) as (Hs & _). exact Hs.
  - destruct (create_lesson_effect Sample.school "abc"
                SampleMore.lesson_with_links Sample.alice
                (Sample.oid Sample.fresh_id)) as (H & _).
    destruct (H (InvalidId "abc") eq_refl) as (Hr & _). exact Hr.
Defined.

(** X10: [create_question] applies the creator check to the course the quiz
    belongs to.  For a quiz id bson's [ObjectId] accepts, a stored quiz whose
    course reference is a twelve-byte id and a caller whose id parses, the
    question is appended exactly when the caller is the recorded creator of
    that course and the correct answer index fits in 64 bits, whatever its
    text and options (the index is not compared with the options); an index
    outside 64 bits makes the driver raise [OverflowError], and any other
    caller gets 403 or 404.  A quiz id bson rejects makes [InvalidId] escape
    (status 500), and an id without a quiz record gets 404.  In all these
    cases the store is left as it was. *)
Theorem create_question_owner (s : Store) (quiz_id : string)
    (question : QuestionCreate) (u : User) (inserted_id : ObjectId) :
  let r := create_question quiz_id question u inserted_id s in
  (forall e, Bson.ObjectId_new quiz_id = Raise e ->
     r = (Raise e, s) /\ e = InvalidId quiz_id /\ status_of e = 500) /\
  (forall qid,
     Bson.ObjectId_new quiz_id = Ok qid ->
     find_one (by_id quiz_oid qid) (quizzes_collection s) = None ->
     r = (Raise (HTTPException 404 "Quiz not found"), s)) /\
  (forall qid quiz uid,
     Bson.ObjectId_new quiz_id = Ok qid ->
     Bson.ObjectId_new (id u) = Ok uid ->
     find_one (by_id quiz_oid qid) (quizzes_collection s) = Some quiz ->
     oid_well_formed (quiz_course_id quiz) = true ->
     (is_creator s (quiz_course_id quiz) uid = true ->
        (int64_ok (qnc_correct_answer question) = true ->
           r = (Ok (mkQuestionOut (Bson.str inserted_id) (qnc_text question)
                      (qnc_options question) (qnc_correct_answer question)
                      (Bson.str qid)),
                insert_question
                  (mkQuestionDoc inserted_id (qnc_text question)
                     (qnc_options question) (qnc_correct_answer question) qid) s)) /\
        (int64_ok (qnc_correct_answer question) = false ->
           r = (Raise OverflowError, s))) /\
     (is_creator s (quiz_course_id quiz) uid = false ->
        snd r = s /\
        exists code detail,
          fst r = Raise (HTTPException code detail) /\ (code = 403 \/ code = 404))).
Proof.
  intros r. subst r. split; [|split].
  - intros e He. unfold create_question, bind, lift. rewrite He.
    split; [reflexivity|].
    assert (e = InvalidId quiz_id) as ->.
    { unfold Bson.ObjectId_new in He.
      destruct (String.length quiz_id =? 24)%nat;
        [destruct (Bson.fromhex quiz_id)|]; congruence. }
    split; reflexivity.
  - intros qid Hq Hf. unfold create_question, bind, lift, gets.
    rewrite Hq, Hf. reflexivity.
  - intros qid quiz uid Hq Hu Hf Hwf.
    unfold create_question, bind, lift, gets. rewrite Hq, Hf.
    pose proof (ObjectId_new_str _ Hwf) as Hparse.
    destruct (get_course_creator_user_run s _ (quiz_course_id quiz) u uid Hparse Hu)
      as [[Hyes Hrun] | [Hno (code & detail & Hrun & Hcode)]]; rewrite Hrun.
    + split; [|rewrite Hyes; discriminate]. intros _.
      unfold insert_checked, question_encodable.
      cbn [question_correct_answer].
      split; intros Hi; rewrite Hi; reflexivity.
    + split; [rewrite Hno; discriminate|]. intros _.
      split; [reflexivity|]. exists code, detail. split; [reflexivity | exact Hcode].
Qed.

Lemma create_question_owner_witness :
  snd (create_question Sample.quiz_id SampleMore.question3 Sample.bob
         (Sample.oid Sample.fresh_id) Sample.school) = Sample.school /\
  questions_collection
    (snd (create_question Sample.quiz_id SampleMore.question3 Sample.alice
            (Sample.oid Sample.fresh_id) Sample.school))
  = (questions_collection Sample.school ++
     [mkQuestionDoc (Sample.oid Sample.fresh_id) "?" ["a"; "b"] 1
        (Sample.oid Sample.quiz_id)])%list /\
  create_question Sample.quiz_id (mkQuestionCreate "?" ["a"; "b"] (2 ^ 63))
    Sample.alice (Sample.oid Sample.fresh_id) Sample.school
  = (Raise OverflowError, Sample.school) /\
  create_question "abc" SampleMore.question3 Sample.alice
    (Sample.oid Sample.fresh_id) Sample.school
  = (Raise (InvalidId "abc"), Sample.school).
Proof.
  split; [|split; [|split]].
  - destruct (create_question_owner Sample.school Sample.quiz_id
                SampleMore.question3 Sample.bob (Sample.oid Sample.fresh_id))
      as (_ & _ & H).
    destruct (H (Sample.oid Sample.quiz_id) Sample.quiz1 (Sample.oid Sample.bob_id)
                eq_refl eq_refl eq_refl eq_refl) as [_ Hno].
    destruct (Hno eq_refl) as (Hs & _). exact Hs.
  - destruct (create_question_owner Sample.school Sample.quiz_id
                SampleMore.question3 Sample.alice (Sample.oid Sample.fresh_id))
      as (_ & _ & H).
    destruct (H (Sample.oid Sample.quiz_id) Sample.quiz1 (Sample.oid Sample.alice_id)
                eq_refl eq_refl eq_refl eq_refl) as [Hyes _].
    destruct (Hyes eq_refl) as [Hok _].
    rewrite (Hok eq_refl). reflexivity.
  - destruct (create_question_owner Sample.school Sample.quiz_id
                (mkQuestionCreate "?" ["a"; "b"] (2 ^ 63)) Sample.alice
                (Sample.oid Sample.fresh_id)) as (_ & _ & H).
    destruct (H (Sample.oid Sample.quiz_id) Sample.quiz1 (Sample.oid Sample.alice_id)
                eq_refl eq_refl eq_refl eq_refl) as [Hyes _].
    destruct (Hyes eq_refl) as [_ Hov].
    exact (Hov eq_refl).
  - destruct (create_question_owner Sample.school "abc"
                SampleMore.question3 Sample.alice (Sample.oid Sample.fresh_id))
      as (H & _).
    destruct (H (InvalidId "abc") eq_refl) as (Hr & _). exact Hr.
Defined.

(** ** Reading a course *)

(** X11: [get_course] answers 400 for a course id that bson's [ObjectId]
    rejects, and returns the stored course for an id that has a record; for an
    id bson accepts (24 characters that [bytes.fromhex] reads, blanks between
    bytes included) without a record, the 404 it raises is caught by its own
    catch-all clause, so the caller gets 500 "Internal server error".  The store is
    never changed. *)
Theorem get_course_outcomes (s : Store) (course_id : string) :
  (Bson.is_valid course_id = false ->
     get_course course_id s = (Raise (HTTPException 400 "Invalid course ID format"), s)) /\
  (forall cid,
     Bson.ObjectId_new course_id = Ok cid ->
     find_one (by_id course_oid cid) (courses_collection s) = None ->
     get_course course_id s = (Raise (HTTPException 500 "Internal server error"), s)) /\
  (forall cid c,
     Bson.ObjectId_new course_id = Ok cid ->
     find_one (by_id course_oid cid) (courses_collection s) = Some c ->
     get_course course_id s =
       (Ok (mkCourseOut (Bson.str (course_oid c)) (course_title c)
              (course_description c) (course_instructor c) (course_price c)
              (created_by_str (course_created_by c))), s)).
Proof.
  unfold get_course, try_except, bind, lift, gets, Bson.is_valid.
  split; [|split].
  - destruct (Bson.ObjectId_new course_id) as [cid|e] eqn:Hp; [discriminate|].
    intros _. unfold id_format_handler, Bson.is_valid. rewrite Hp.
    rewrite orb_true_r. reflexivity.
  - intros cid Hp Hf. rewrite Hp, Hf.
    unfold raise, id_format_handler, Bson.is_valid. rewrite Hp. reflexivity.
  - intros cid c Hp Hf. rewrite Hp, Hf. reflexivity.
Qed.

Lemma get_course_outcomes_witness :
  get_course "abc" Sample.school
    = (Raise (HTTPException 400 "Invalid course ID format"), Sample.school) /\
  get_course SampleMore.algebra_id Sample.school
    = (Raise (HTTPException 500 "Internal server error"), Sample.school) /\
  get_course "64b7f0c2a1d3e4f5a6b7c8  " Sample.school
    = (Raise (HTTPException 500 "Internal server error"), Sample.school) /\
  get_course "64b7f0c2a1d3e4f5a6b7c8 1" Sample.school
    = (Raise (HTTPException 400 "Invalid course ID format"), Sample.school).
Proof.
  destruct (get_course_outcomes Sample.school "abc") as (H400 & _ & _).
  destruct (get_course_outcomes Sample.school SampleMore.algebra_id) as (_ & H500 & _).
  destruct (get_course_outcomes Sample.school "64b7f0c2a1d3e4f5a6b7c8  ")
    as (_ & Hblank & _).
  destruct (get_course_outcomes Sample.school "64b7f0c2a1d3e4f5a6b7c8 1")
    as (Hodd & _ & _).
  split; [|split; [|split]].
  - apply H400. reflexivity.
  - apply (H500 (Sample.oid SampleMore.algebra_id)); reflexivity.
  - apply (Hblank (Sample.oid "64b7f0c2a1d3e4f5a6b7c8")); reflexivity.
  - apply Hodd. reflexivity.
Defined.

(** ** One request, one effect *)

Lemma get_current_user_store
    (jws_verify : string -> string -> option Claims) (SECRET_KEY token : string)
    (now : Z) (s : Store) :
  snd (get_current_user jws_verify SECRET_KEY token now s) = s.
Proof.
  unfold get_current_user.
  destruct (jwt_decode jws_verify token SECRET_KEY now) as [e|payload]; [reflexivity|].
  destruct (claim_sub payload) as [|name|]; try reflexivity.
  unfold get_user_by_username, bind, gets.
  destruct (find_one _ (users_collection s)) as [d|]; [|reflexivity].
  destruct (user_is_admin d); reflexivity.
Qed.

Lemma authenticated_admin_store
    (jws_verify : string -> string -> option Claims) (SECRET_KEY token : string)
    (now : Z) (s : Store) :
  snd (authenticated_admin jws_verify SECRET_KEY token now s) = s.
Proof.
  unfold authenticated_admin, authenticated, bind.
  pose proof (get_current_user_store jws_verify SECRET_KEY token now s) as H.
  destruct (get_current_user jws_verify SECRET_KEY token now s) as [[u|e] s0];
    cbn [snd] in H; subst s0; [|reflexivity].
  unfold get_current_admin_user. destruct (negb (is_admin u)); reflexivity.
Qed.

Lemma bind_effect {A B : Type} (m : Handler A) (k : A -> Handler B) (s : Store) :
  snd (m s) = s ->
  (forall a, effect s (snd (k a s))) ->
  effect s (snd (bind m k s)).
Proof.
  intros Hm Hk. unfold bind.
  destruct (m s) as [[a|e] s0]; cbn [snd] in Hm; subst s0.
  - apply Hk.
  - apply eff_none.
Qed.

Lemma find_one_by_id {D : Type} (oid_of : D -> ObjectId) (oid : ObjectId)
    (c : list D) (d : D) :
  find_one (by_id oid_of oid) c = Some d -> In d c /\ oid_of d = oid.
Proof.
  intros H. apply find_one_some in H. destruct H as [Hin Hq].
  split; [exact Hin|]. apply oid_eqb_eq. exact Hq.
Qed.

Lemma get_course_creator_user_ok (course_id : string) (u u' : User) (s s' : Store) :
  get_course_creator_user course_id u s = (Ok u', s') ->
  s' = s /\
  exists cid c,
    Bson.ObjectId_new course_id = Ok cid /\
    find_one (by_id course_oid cid) (courses_collection s) = Some c.
Proof.
  unfold get_course_creator_user, bind, lift, gets, raise, ret.
  destruct (Bson.ObjectId_new course_id) as [cid|e]; [|discriminate].
  destruct (find_one (by_id course_oid cid) (courses_collection s)) as [c|] eqn:Hf;
    [|discriminate].
  destruct (course_created_by c) as [| |cb]; try discriminate.
  destruct (Bson.ObjectId_new (id u)) as [uid|e]; [|discriminate].
  destruct (negb (Bson.eqb cb uid)); [discriminate|].
  intros H. injection H as _ <-. split; [reflexivity|].
  exists cid, c. split; [reflexivity | exact Hf].
Qed.

Lemma get_course_creator_user_store (course_id : string) (u : User) (s : Store) :
  snd (get_course_creator_user course_id u s) = s.
Proof.
  unfold get_course_creator_user, bind, lift, gets, raise, ret.
  destruct (Bson.ObjectId_new course_id) as [cid|e]; [|reflexivity].
  destruct (find_one (by_id course_oid cid) (courses_collection s)) as [c|];
    [|reflexivity].
  destruct (course_created_by c) as [| |cb]; try reflexivity.
  destruct (Bson.ObjectId_new (id u)) as [uid|e]; [|reflexivity].
  destruct (negb (Bson.eqb cb uid)); reflexivity.
Qed.

Lemma signup_effect (pwd_hash : string -> Res string) (user : UserCreate)
    (oid : ObjectId) (s : Store) :
  effect s (snd (signup pwd_hash user oid s)).
Proof.
  destruct (find_one (fun d => String.eqb (user_username d) (uc_username user))
              (users_collection s)) as [d|] eqn:Hf.
  - unfold signup, bind, gets. rewrite Hf. apply eff_none.
  - destruct (get_password_hash pwd_hash (uc_password user)) as [h|e] eqn:Hh.
    + rewrite (signup_run pwd_hash s user oid h Hf Hh). cbn [snd].
      apply eff_user. exact Hf.
    + rewrite (signup_hash_raises pwd_hash s user oid e Hf Hh). apply eff_none.
Qed.

Lemma create_course_effect (course : CourseCreate) (u : User) (oid : ObjectId)
    (s : Store) :
  effect s (snd (create_course course u oid s)).
Proof.
  unfold create_course, bind, lift, modify, ret.
  destruct (Bson.ObjectId_new (id u)) as [uid|e]; [|apply eff_none].
  cbn [snd]. eapply eff_course. reflexivity.
Qed.

Lemma enroll_course_effect (course_id : string) (u : User) (oid : ObjectId)
    (s : Store) :
  effect s (snd (enroll_course course_id u oid s)).
Proof.
  unfold enroll_course, bind, lift, gets, modify, ret, raise.
  destruct (Bson.ObjectId_new course_id) as [cid|e]; [|apply eff_none].
  destruct (find_one (by_id course_oid cid) (courses_collection s)) as [c|] eqn:Hc;
    [|apply eff_none].
  destruct (Bson.ObjectId_new (id u)) as [uid|e]; [|apply eff_none].
  destruct (find_one _ (enrollments_collection s)) as [e|] eqn:He; [apply eff_none|].
  cbn [snd]. apply (eff_enrollment s (mkEnrollmentDoc oid uid cid) c); assumption.
Qed.

Lemma complete_lesson_effect (lesson_id : string) (u : User) (now : Z)
    (oid : ObjectId) (s : Store) :
  effect s (snd (complete_lesson lesson_id u now oid s)).
Proof.
  unfold complete_lesson, bind, lift, gets, modify, ret, raise.
  destruct (Bson.ObjectId_new lesson_id) as [lid|e]; [|apply eff_none].
  destruct (find_one (by_id lesson_oid lid) (lessons_collection s)) as [l|] eqn:Hl;
    [|apply eff_none].
  destruct (Bson.ObjectId_new (id u)) as [uid|e]; [|apply eff_none].
  destruct (find_one _ (lesson_completions_collection s)) as [c|] eqn:Hc;
    [apply eff_none|].
  cbn [snd]. apply (eff_completion s (mkLessonCompletionDoc oid uid lid now) l); assumption.
Qed.

Lemma create_lesson_store (course_id : string) (lesson : LessonCreate) (u : User)
    (oid : ObjectId) (s : Store) :
  effect s (snd (create_lesson course_id lesson u oid s)).
Proof.
  unfold create_lesson, bind.
  destruct (get_course_creator_user course_id u s) as [[u'|e] s'] eqn:Hg.
  - apply get_course_creator_user_ok in Hg. destruct Hg as (-> & cid & c & Hp & Hf).
    unfold lift, modify. rewrite Hp.
    assert (Heff : effect s (insert_lesson
                     (mkLessonDoc oid (lcr_title lesson) (lcr_video_url lesson)
                        (lcr_resource_links lesson) cid) s))
      by (apply (eff_lesson s _ c); exact Hf).
    destruct (LessonOut_new _ _ _ _ _); exact Heff.
  - pose proof (get_course_creator_user_store course_id u s) as Hs.
    rewrite Hg in Hs. cbn [snd] in *. subst s'. apply eff_none.
Qed.

Lemma create_quiz_effect (course_id : string) (quiz : QuizCreate) (u : User)
    (oid : ObjectId) (s : Store) :
  effect s (snd (create_quiz course_id quiz u oid s)).
Proof.
  unfold create_quiz, bind.
  destruct (get_course_creator_user course_id u s) as [[u'|e] s'] eqn:Hg.
  - apply get_course_creator_user_ok in Hg. destruct Hg as (-> & cid & c & Hp & Hf).
    unfold lift, modify, ret. rewrite Hp. cbn [snd].
    apply (eff_quiz s (mkQuizDoc oid (qc_title quiz) cid) c). exact Hf.
  - pose proof (get_course_creator_user_store course_id u s) as Hs.
    rewrite Hg in Hs. cbn [snd] in *. subst s'. apply eff_none.
Qed.

Lemma create_question_effect (quiz_id : string) (question : QuestionCreate)
    (u : User) (oid : ObjectId) (s : Store) :
  effect s (snd (create_question quiz_id question u oid s)).
Proof.
  unfold create_question, bind, lift, gets, raise.
  destruct (Bson.ObjectId_new quiz_id) as [qid|e] eqn:Hq; [|apply eff_none].
  destruct (find_one (by_id quiz_oid qid) (quizzes_collection s)) as [quiz|] eqn:Hf;
    [|apply eff_none].
  destruct (get_course_creator_user _ u s) as [[u'|e] s'] eqn:Hg.
  - apply get_course_creator_user_ok in Hg. destruct Hg as (-> & _).
    unfold insert_checked, modify, ret, raise.
    destruct (question_encodable _); [|apply eff_none]. cbn [snd].
    apply (eff_question s (mkQuestionDoc oid (qnc_text question) (qnc_options question)
                             (qnc_correct_answer question) qid) quiz).
    exact Hf.
  - pose proof (get_course_creator_user_store
                  (Bson.str (quiz_course_id quiz)) u s) as Hs.
    rewrite Hg in Hs. cbn [snd] in *. subst s'. apply eff_none.
Qed.

Lemma attempt_quiz_effect (quiz_id : string) (attempt : QuizAttemptCreate)
    (u : User) (now : Z) (oid : ObjectId) (s : Store) :
  effect s (snd (attempt_quiz quiz_id attempt u now oid s)).
Proof.
  unfold attempt_quiz, bind, lift, gets, modify, ret, raise.
  destruct (Bson.ObjectId_new quiz_id) as [qid|e]; [|apply eff_none].
  destruct (find_one (by_id quiz_oid qid) (quizzes_collection s)) as [quiz|] eqn:Hf;
    [|apply eff_none].
  set (qs := map to_Question (find (by_id question_quiz_id qid) (questions_collection s))).
  destruct (List.length (answers attempt) =? List.length qs)%nat eqn:El;
    cbn [negb]; [|apply eff_none].
  destruct (Bson.ObjectId_new (id u)) as [uid|e]; [|apply eff_none].
  unfold insert_checked, modify, raise.
  destruct (quiz_attempt_encodable _); [|apply eff_none].
  cbn [snd].
  apply (eff_attempt s _ quiz); cbn [qa_quiz_id qa_score qa_answers]; [exact Hf|].
  rewrite score_loop_enumerate.
  pose proof (matching_positions_bounds (answers attempt) (map correct_answer qs)) as Hb.
  rewrite length_map in Hb. apply Nat.eqb_eq in El. rewrite El. exact Hb.
Qed.

Lemma serve_effect (pwd_hash : string -> Res string)
    (jws_verify : string -> string -> option Claims) (SECRET_KEY : string)
    (req : Request) (env : Env) (s : Store) :
  effect s (serve pwd_hash jws_verify SECRET_KEY req env s).
Proof.
  destruct req; cbn [serve].
  - apply signup_effect.
  - apply bind_effect; [apply authenticated_admin_store|].
    intros a. apply create_course_effect.
  - apply bind_effect; [apply get_current_user_store|].
    intros a. apply enroll_course_effect.
  - apply bind_effect; [apply authenticated_admin_store|].
    intros a. apply create_lesson_store.
  - apply bind_effect; [apply authenticated_admin_store|].
    intros a. apply create_quiz_effect.
  - apply bind_effect; [apply authenticated_admin_store|].
    intros a. apply create_question_effect.
  - apply bind_effect; [apply get_current_user_store|].
    intros a. apply complete_lesson_effect.
  - apply bind_effect; [apply get_current_user_store|].
    intros a. apply attempt_quiz_effect.
Qed.

(** ** The invariants hold in every store the router can reach *)

Lemma NoDup_snoc {A : Type} (l : list A) (x : A) :
  NoDup l -> ~ In x l -> NoDup (l ++ [x]).
Proof.
  intros Hl Hx. apply NoDup_app.
  - exact Hl.
  - constructor; [intros []|constructor].
  - intros y Hy [<- | []]. exact (Hx Hy).
Qed.

Lemma find_one_none {D : Type} (q : D -> bool) (c : list D) (d : D) :
  find_one q c = None -> In d c -> q d = false.
Proof. unfold find_one. intros H Hin. exact (find_none q c H d Hin). Qed.

Lemma names_course_effect (s s' : Store) (cid : ObjectId) :
  effect s s' -> names_course s cid -> names_course s' cid.
Proof.
  intros He [c [Hin Hc]]. exists c. split; [|exact Hc].
  destruct He; cbn; try exact Hin. unfold insert_one. apply in_or_app. left. exact Hin.
Qed.

Lemma names_quiz_effect (s s' : Store) (qid : ObjectId) :
  effect s s' -> names_quiz s qid -> names_quiz s' qid.
Proof.
  intros He [q [Hin Hq]]. exists q. split; [|exact Hq].
  destruct He; cbn; try exact Hin. unfold insert_one. apply in_or_app. left. exact Hin.
Qed.

Lemma names_lesson_effect (s s' : Store) (lid : ObjectId) :
  effect s s' -> names_lesson s lid -> names_lesson s' lid.
Proof.
  intros He [l [Hin Hl]]. exists l. split; [|exact Hl].
  destruct He; cbn; try exact Hin. unfold insert_one. apply in_or_app. left. exact Hin.
Qed.

Lemma Forall_snoc {A : Type} (P : A -> Prop) (l : list A) (x : A) :
  Forall P l -> P x -> Forall P (insert_one x l).
Proof.
  intros Hl Hx. unfold insert_one. apply Forall_app. split; [exact Hl|].
  constructor; [exact Hx | constructor].
Qed.

Lemma effect_store_ok (s s' : Store) :
  store_ok s -> effect s s' -> store_ok s'.
Proof.
  intros Hok He.
  pose proof (fun cid => names_course_effect s s' cid He) as Mc.
  pose proof (fun qid => names_quiz_effect s s' qid He) as Mq.
  pose proof (fun lid => names_lesson_effect s s' lid He) as Ml.
  destruct Hok as [Hu Hen Hco Hown Her Hlr Hqr Hqnr Hcr Har Hsc].
  assert (Her' : Forall (fun e => names_course s' (enr_course_id e))
                   (enrollments_collection s))
    by (eapply Forall_impl; [|exact Her]; intros e; apply Mc).
  assert (Hlr' : Forall (fun l => names_course s' (lesson_course_id l))
                   (lessons_collection s))
    by (eapply Forall_impl; [|exact Hlr]; intros e; apply Mc).
  assert (Hqr' : Forall (fun q => names_course s' (quiz_course_id q))
                   (quizzes_collection s))
    by (eapply Forall_impl; [|exact Hqr]; intros e; apply Mc).
  assert (Hqnr' : Forall (fun q => names_quiz s' (question_quiz_id q))
                    (questions_collection s))
    by (eapply Forall_impl; [|exact Hqnr]; intros e; apply Mq).
  assert (Hcr' : Forall (fun c => names_lesson s' (lc_lesson_id c))
                   (lesson_completions_collection s))
    by (eapply Forall_impl; [|exact Hcr]; intros e; apply Ml).
  assert (Har' : Forall (fun a => names_quiz s' (qa_quiz_id a))
                   (quiz_attempts_collection s))
    by (eapply Forall_impl; [|exact Har]; intros e; apply Mq).
  clear Her Hlr Hqr Hqnr Hcr Har.
  destruct He as [ | d Hfree | d o Hval | d c Hnew Hc | d c Hc | d c Hc
                 | d q Hq | d l Hnew Hl | d q Hq Hscore ];
    constructor; cbn; try assumption.
  - unfold insert_one. rewrite map_app. apply NoDup_snoc; [exact Hu|].
    intros Hin. apply in_map_iff in Hin. destruct Hin as [x [Hx Hin]].
    pose proof (find_one_none _ _ x Hfree Hin) as Hq. cbn in Hq.
    rewrite Hx, String.eqb_refl in Hq. discriminate.
  - apply Forall_snoc; [exact Hown|]. exists o. exact Hval.
  - unfold insert_one. rewrite map_app. apply NoDup_snoc; [exact Hen|].
    intros Hin. apply in_map_iff in Hin. destruct Hin as [x [Hx Hin]].
    pose proof (find_one_none _ _ x Hnew Hin) as Hq. cbn in Hq.
    unfold enrollment_key in Hx. injection Hx as Hx1 Hx2.
    rewrite Hx1, Hx2, !oid_eqb_refl in Hq. discriminate.
  - apply Forall_snoc; [exact Her'|].
    apply Mc. apply find_one_by_id in Hc. exists c. exact Hc.
  - apply Forall_snoc; [exact Hlr'|].
    apply Mc. apply find_one_by_id in Hc. exists c. exact Hc.
  - apply Forall_snoc; [exact Hqr'|].
    apply Mc. apply find_one_by_id in Hc. exists c. exact Hc.
  - apply Forall_snoc; [exact Hqnr'|].
    apply Mq. apply find_one_by_id in Hq. exists q. exact Hq.
  - unfold insert_one. rewrite map_app. apply NoDup_snoc; [exact Hco|].
    intros Hin. apply in_map_iff in Hin. destruct Hin as [x [Hx Hin]].
    pose proof (find_one_none _ _ x Hnew Hin) as Hq. cbn in Hq.
    unfold completion_key in Hx. injection Hx as Hx1 Hx2.
    rewrite Hx1, Hx2, !oid_eqb_refl in Hq. discriminate.
  - apply Forall_snoc; [exact Hcr'|].
    apply Ml. apply find_one_by_id in Hl. exists l. exact Hl.
  - apply Forall_snoc; [exact Har'|].
    apply Mq. apply find_one_by_id in Hq. exists q. exact Hq.
  - apply Forall_snoc; [exact Hsc | exact Hscore].
Qed.

Lemma empty_store_ok : store_ok empty_store.
Proof. constructor; cbn; constructor. Qed.

Lemma run_store_ok (pwd_hash : string -> Res string)
    (jws_verify : string -> string -> option Claims) (SECRET_KEY : string)
    (reqs : list (Request * Env)) (s : Store) :
  store_ok s -> store_ok (run pwd_hash jws_verify SECRET_KEY reqs s).
Proof.
  revert s. induction reqs as [|[req env] rest IH]; intros s Hok; cbn [run].
  - exact Hok.
  - apply IH. apply (effect_store_ok s); [exact Hok | apply serve_effect].
Qed.

(** X12: in every store reached from the empty one by serving requests one
    after the other, no two users share a username, no (user, course) pair is
    enrolled twice and no (user, lesson) pair is completed twice. *)
Theorem reachable_store_unique (pwd_hash : string -> Res string)
    (jws_verify : string -> string -> option Claims) (SECRET_KEY : string)
    (reqs : list (Request * Env)) :
  let s := run pwd_hash jws_verify SECRET_KEY reqs empty_store in
  NoDup (map user_username (users_collection s)) /\
  NoDup (map enrollment_key (enrollments_collection s)) /\
  NoDup (map completion_key (lesson_completions_collection s)).
Proof.
  destruct (run_store_ok pwd_hash jws_verify SECRET_KEY reqs empty_store
              empty_store_ok) as [Hu He Hc _ _ _ _ _ _ _ _].
  cbv zeta. split; [exact Hu|]. split; [exact He | exact Hc].
Qed.

(** X13: in every store reached from the empty one, every course carries a
    creator reference (no record takes the legacy branch of the creator
    check), every enrollment, lesson and quiz names a stored course, every
    question and quiz attempt names a stored quiz, and every completion names
    a stored lesson. *)
Theorem reachable_store_references (pwd_hash : string -> Res string)
    (jws_verify : string -> string -> option Claims) (SECRET_KEY : string)
    (reqs : list (Request * Env)) :
  let s := run pwd_hash jws_verify SECRET_KEY reqs empty_store in
  Forall (fun c => exists o, course_created_by c = Val o) (courses_collection s) /\
  Forall (fun e => names_course s (enr_course_id e)) (enrollments_collection s) /\
  Forall (fun l => names_course s (lesson_course_id l)) (lessons_collection s) /\
  Forall (fun q => names_course s (quiz_course_id q)) (quizzes_collection s) /\
  Forall (fun q => names_quiz s (question_quiz_id q)) (questions_collection s) /\
  Forall (fun c => names_lesson s (lc_lesson_id c)) (lesson_completions_collection s) /\
  Forall (fun a => names_quiz s (qa_quiz_id a)) (quiz_attempts_collection s).
Proof.
  destruct (run_store_ok pwd_hash jws_verify SECRET_KEY reqs empty_store
              empty_store_ok) as [_ _ _ H1 H2 H3 H4 H5 H6 H7 _].
  cbv zeta. repeat (split; [assumption|]). assumption.
Qed.

(** X14: in every store reached from the empty one, the score recorded with a
    quiz attempt lies between 0 and the number of answers of that attempt. *)
Theorem reachable_attempt_scores (pwd_hash : string -> Res string)
    (jws_verify : string -> string -> option Claims) (SECRET_KEY : string)
    (reqs : list (Request * Env)) :
  Forall (fun a => 0 <= qa_score a <= Z.of_nat (List.length (qa_answers a)))
    (quiz_attempts_collection (run pwd_hash jws_verify SECRET_KEY reqs empty_store)).
Proof.
  destruct (run_store_ok pwd_hash jws_verify SECRET_KEY reqs empty_store
              empty_store_ok) as [_ _ _ _ _ _ _ _ _ _ H].
  exact H.
Qed.

Lemma effect_extends (s s' : Store) :
  effect s s' -> extends s s' /\ (store_size s' <= store_size s + 1)%nat.
Proof.
  intros He. unfold extends, store_size.
  destruct He; cbn; unfold insert_one; rewrite ?length_app; cbn;
    (split; [|lia]);
    repeat split;
    solve [ eexists; reflexivity | exists []; rewrite app_nil_r; reflexivity ].
Qed.

(** X15: serving a request never removes or rewrites a stored document: each
    collection of the store before is the beginning of the same collection
    after, and at most one document is added in all. *)
Theorem serve_append_only (pwd_hash : string -> Res string)
    (jws_verify : string -> string -> option Claims) (SECRET_KEY : string)
    (req : Request) (env : Env) (s : Store) :
  extends s (serve pwd_hash jws_verify SECRET_KEY req env s) /\
  (store_size (serve pwd_hash jws_verify SECRET_KEY req env s) <= store_size s + 1)%nat.
Proof. apply effect_extends. apply serve_effect. Qed.

(** ** Who may write *)

(** X16: a request that carries a bearer token which [get_current_user]
    refuses leaves the store exactly as it was, whatever the route: only
    signup writes without a token. *)
Theorem unauthenticated_never_writes (pwd_hash : string -> Res string)
    (jws_verify : string -> string -> option Claims) (SECRET_KEY : string)
    (req : Request) (env : Env) (s : Store) (token : string) (e : Exc) :
  request_token req = Some token ->
  fst (get_current_user jws_verify SECRET_KEY token (env_utcnow env) s) = Raise e ->
  serve pwd_hash jws_verify SECRET_KEY req env s = s.
Proof.
  intros Ht Hg.
  pose proof (get_current_user_store jws_verify SECRET_KEY token (env_utcnow env) s) as Hs.
  destruct (get_current_user jws_verify SECRET_KEY token (env_utcnow env) s)
    as [r s0] eqn:Hrun.
  cbn [fst snd] in Hg, Hs. subst r s0.
  destruct req; cbn in Ht; try discriminate; injection Ht as ->;
    cbn [serve]; unfold authenticated_admin, authenticated, bind;
    rewrite Hrun; reflexivity.
Qed.

Lemma unauthenticated_never_writes_witness :
  serve Sample.pwd_hash Sample.jws_verify "k"
    (PostEnroll "t-forged" Sample.course_id)
    (mkEnv 1000 (Sample.oid Sample.fresh_id)) Sample.school = Sample.school.
Proof.
  apply (unauthenticated_never_writes Sample.pwd_hash Sample.jws_verify "k"
           (PostEnroll "t-forged" Sample.course_id)
           (mkEnv 1000 (Sample.oid Sample.fresh_id)) Sample.school
           "t-forged" credentials_exception); reflexivity.
Defined.

(** X17: a request to create a course, a lesson, a quiz or a question whose
    token resolves to a user without the admin flag leaves the store exactly
    as it was. *)
Theorem non_admin_never_creates (pwd_hash : string -> Res string)
    (jws_verify : string -> string -> option Claims) (SECRET_KEY : string)
    (req : Request) (env : Env) (s : Store) (token : string) (u : User) :
  request_token req = Some token ->
  admin_only req = true ->
  fst (get_current_user jws_verify SECRET_KEY token (env_utcnow env) s) = Ok u ->
  is_admin u = false ->
  serve pwd_hash jws_verify SECRET_KEY req env s = s.
Proof.
  intros Ht Ha Hg Hn.
  pose proof (get_current_user_store jws_verify SECRET_KEY token (env_utcnow env) s) as Hs.
  destruct (get_current_user jws_verify SECRET_KEY token (env_utcnow env) s)
    as [r s0] eqn:Hrun.
  cbn [fst snd] in Hg, Hs. subst r s0.
  destruct req; cbn in Ht, Ha; try discriminate; injection Ht as ->;
    cbn [serve]; unfold authenticated_admin, authenticated, bind;
    rewrite Hrun; unfold get_current_admin_user; rewrite Hn; reflexivity.
Qed.

Lemma non_admin_never_creates_witness :
  serve Sample.pwd_hash Sample.jws_verify "k"
    (PostCreateCourse "t-carol" SampleMore.algebra)
    (mkEnv 1000 (Sample.oid SampleMore.algebra_id)) SampleMore.school_with_carol
  = SampleMore.school_with_carol.
Proof.
  apply (non_admin_never_creates Sample.pwd_hash Sample.jws_verify "k"
           (PostCreateCourse "t-carol" SampleMore.algebra)
           (mkEnv 1000 (Sample.oid SampleMore.algebra_id)) SampleMore.school_with_carol
           "t-carol"
           (mkUser Sample.fresh_id2 "carol" Sample.hash1 false));
    reflexivity.
Defined.

(** ** Progress in a store with unique completions *)

Lemma NoDup_map_filter {A B : Type} (f : A -> B) (q : A -> bool) (l : list A) :
  NoDup (map f l) -> NoDup (map f (filter q l)).
Proof.
  induction l as [|x l IH]; simpl; intros H; [constructor|].
  inversion H as [|? ? Hx Hl]; subst.
  destruct (q x); simpl; [|apply IH; exact Hl].
  constructor; [|apply IH; exact Hl].
  intros Hin. apply Hx. apply in_map_iff in Hin. destruct Hin as [y [Hy Hin]].
  apply in_map_iff. exists y. split; [exact Hy|].
  apply filter_In in Hin. tauto.
Qed.

Lemma completed_le_lessons (completions : list LessonCompletionDoc)
    (uid : ObjectId) (ids : list ObjectId) :
  NoDup (map completion_key completions) ->
  (List.length
     (filter (fun c => Bson.eqb (lc_user_id c) uid && oid_in (lc_lesson_id c) ids)
        completions) <= List.length ids)%nat.
Proof.
  intros Hnd.
  set (F := filter _ completions).
  assert (HF : forall c, In c F -> lc_user_id c = uid /\ In (lc_lesson_id c) ids).
  { intros c Hin. apply filter_In in Hin. destruct Hin as [_ Hq].
    apply andb_true_iff in Hq. destruct Hq as [Hu Hi].
    split; [apply oid_eqb_eq; exact Hu|].
    unfold oid_in in Hi. apply existsb_exists in Hi. destruct Hi as [y [Hy Heq]].
    apply oid_eqb_eq in Heq. subst y. exact Hy. }
  assert (Hkeys : map completion_key F = map (pair uid) (map lc_lesson_id F)).
  { rewrite map_map. apply map_ext_in. intros c Hin.
    unfold completion_key. destruct (HF c Hin) as [-> _]. reflexivity. }
  assert (HndF : NoDup (map lc_lesson_id F)).
  { apply (NoDup_map_inv (pair uid)). rewrite <- Hkeys.
    apply NoDup_map_filter. exact Hnd. }
  rewrite <- (length_map lc_lesson_id F).
  apply NoDup_incl_length; [exact HndF|].
  intros y Hy. apply in_map_iff in Hy. destruct Hy as [c [<- Hin]].
  apply HF. exact Hin.
Qed.

(** X18: in every store reached from the empty one, the progress summary of
    any user in any course reports a number of completed lessons between 0
    and the number of lessons of the course, so the percentage is computed
    from a ratio of at most one. *)
Theorem reachable_progress_bounded (pwd_hash : string -> Res string)
    (jws_verify : string -> string -> option Claims) (SECRET_KEY : string)
    (reqs : list (Request * Env)) (course_id : string) (cid : ObjectId)
    (u : User) (uid : ObjectId) :
  Bson.ObjectId_new course_id = Ok cid ->
  Bson.ObjectId_new (id u) = Ok uid ->
  let s := run pwd_hash jws_verify SECRET_KEY reqs empty_store in
  exists p,
    get_course_progress course_id u s = (Ok p, s) /\
    0 <= lessons_completed p <= total_lessons p.
Proof.
  intros Hc Hu s.
  destruct (get_course_progress_run s course_id cid u uid Hc Hu)
    as (p & Hr & Ht & Hl & _).
  exists p. split; [exact Hr|]. rewrite Ht, Hl.
  destruct (run_store_ok pwd_hash jws_verify SECRET_KEY reqs empty_store
              empty_store_ok) as [_ _ Hnd _ _ _ _ _ _ _ _].
  fold s in Hnd.
  pose proof (completed_le_lessons (lesson_completions_collection s) uid
                (map lesson_oid (find (by_id lesson_course_id cid) (lessons_collection s)))
                Hnd) as Hle.
  rewrite length_map in Hle.
  unfold count_documents, find in *. lia.
Qed.

Lemma reachable_progress_bounded_witness :
  let s := run Sample.pwd_hash Sample.jws_verify "k" SampleMore.session empty_store in
  exists p,
    get_course_progress Sample.course_id Sample.alice s = (Ok p, s) /\
    0 <= lessons_completed p <= total_lessons p.
Proof.
  exact (reachable_progress_bounded Sample.pwd_hash Sample.jws_verify "k"
           SampleMore.session Sample.course_id (Sample.oid Sample.course_id)
           Sample.alice (Sample.oid Sample.alice_id) eq_refl eq_refl).
Defined.

Lemma session_progress :
  let s := run Sample.pwd_hash Sample.jws_verify "k" SampleMore.session empty_store in
  exists p,
    get_course_progress Sample.course_id Sample.alice s = (Ok p, s) /\
    lessons_completed p = 1 /\ total_lessons p = 1 /\
    percent_completed p = 100%float /\
    List.length (lesson_completions_collection s) = 1%nat.
Proof.
  cbv zeta. eexists. split; [vm_compute; reflexivity|].
  repeat split.
Qed.

(** ** Listing one's quiz attempts *)

Lemma count_documents_insert {D : Type} (q : D -> bool) (c : list D) (d : D) :
  count_documents q (insert_one d c) =
  count_documents q c + (if q d then 1 else 0).
Proof.
  unfold count_documents, insert_one.
  rewrite filter_app, length_app. simpl.
  destruct (q d); simpl; lia.
Qed.

Lemma paginate_collection_ok {D : Type} (c : list D) (q : D -> bool) (page_ size_ : Z) :
  1 <= size_ ->
  paginate_collection c q page_ size_ =
  Ok (mkPage (limit size_ (skip ((page_ - 1) * size_) (find q c)))
        (count_documents q c) page_ size_
        ((count_documents q c + size_ - 1) / size_)
        (page_ <? (count_documents q c + size_ - 1) / size_) (page_ >? 1)).
Proof.
  intros Hs. unfold paginate_collection, floordiv.
  destruct (size_ =? 0) eqn:E; [apply Z.eqb_eq in E; lia | reflexivity].
Qed.

Lemma In_firstn {A : Type} (n : nat) (l : list A) (x : A) :
  In x (firstn n l) -> In x l.
Proof.
  intros H. rewrite <- (firstn_skipn n l). apply in_or_app. left. exact H.
Qed.

Lemma In_skipn {A : Type} (n : nat) (l : list A) (x : A) :
  In x (skipn n l) -> In x l.
Proof.
  intros H. rewrite <- (firstn_skipn n l). apply in_or_app. right. exact H.
Qed.

Lemma In_page_filter {D : Type} (q : D -> bool) (c : list D) (n m : Z) (x : D) :
  In x (limit n (skip m (find q c))) -> In x c /\ q x = true.
Proof.
  unfold limit, skip, find. intros H.
  apply In_firstn, In_skipn in H. apply filter_In in H. exact H.
Qed.

(** X19: for well-formed ids, [page >= 1] and [size >= 1], the listing of
    quiz attempts succeeds, its total is the number of attempts of the caller
    on that quiz, and every item is an attempt of the caller on that quiz:
    nobody is shown another user's attempts. *)
Theorem list_quiz_attempts_own (s : Store) (quiz_id : string) (qid : ObjectId)
    (u : User) (uid : ObjectId) (page_ size_ : Z) :
  Bson.ObjectId_new quiz_id = Ok qid ->
  Bson.ObjectId_new (id u) = Ok uid ->
  1 <= size_ ->
  exists p,
    list_quiz_attempts quiz_id u page_ size_ s = (Ok p, s) /\
    total p = count_documents
                (fun a => Bson.eqb (qa_quiz_id a) qid && Bson.eqb (qa_user_id a) uid)
                (quiz_attempts_collection s) /\
    Forall (fun a => qao_user_id a = Bson.str uid /\ qao_quiz_id a = Bson.str qid)
      (items p).
Proof.
  intros Hq Hu Hs.
  unfold list_quiz_attempts, try_except, bind, lift, ret. rewrite Hq, Hu.
  rewrite paginate_collection_ok by exact Hs.
  eexists. split; [reflexivity|]. cbn [total items with_items].
  split; [reflexivity|].
  apply Forall_forall. intros a Ha. apply in_map_iff in Ha.
  destruct Ha as [d [<- Hin]]. apply In_page_filter in Hin.
  destruct Hin as [_ Hp]. apply andb_true_iff in Hp. destruct Hp as [H1 H2].
  apply oid_eqb_eq in H1. apply oid_eqb_eq in H2.
  cbn [to_QuizAttemptOut qao_user_id qao_quiz_id]. rewrite H1, H2. split; reflexivity.
Qed.

Lemma list_quiz_attempts_own_witness :
  exists p,
    list_quiz_attempts Sample.quiz_id Sample.bob 1 10 Sample.school_after_two_attempts
      = (Ok p, Sample.school_after_two_attempts) /\
    total p = 2 /\
    Forall (fun a => qao_user_id a = Sample.bob_id /\ qao_quiz_id a = Sample.quiz_id)
      (items p).
Proof.
  exact (list_quiz_attempts_own Sample.school_after_two_attempts Sample.quiz_id
           (Sample.oid Sample.quiz_id) Sample.bob (Sample.oid Sample.bob_id) 1 10
           eq_refl eq_refl ltac:(lia)).
Defined.

Lemma list_quiz_attempts_total (s : Store) (quiz_id : string) (qid : ObjectId)
    (u : User) (uid : ObjectId) (page_ size_ : Z) :
  Bson.ObjectId_new quiz_id = Ok qid ->
  Bson.ObjectId_new (id u) = Ok uid ->
  1 <= size_ ->
  exists p,
    list_quiz_attempts quiz_id u page_ size_ s = (Ok p, s) /\
    total p = count_documents
                (fun a => Bson.eqb (qa_quiz_id a) qid && Bson.eqb (qa_user_id a) uid)
                (quiz_attempts_collection s).
Proof.
  intros Hq Hu Hs.
  unfold list_quiz_attempts, try_except, bind, lift, ret. rewrite Hq, Hu.
  rewrite paginate_collection_ok by exact Hs.
  eexists. split; reflexivity.
Qed.

Lemma attempt_quiz_run (s : Store) (quiz_id : string) (qid : ObjectId)
    (attempt : QuizAttemptCreate) (u : User) (uid : ObjectId) (now : Z)
    (oid : ObjectId) (quiz : QuizDoc) :
  Bson.ObjectId_new quiz_id = Ok qid ->
  Bson.ObjectId_new (id u) = Ok uid ->
  find_one (by_id quiz_oid qid) (quizzes_collection s) = Some quiz ->
  List.length (answers attempt) =
    List.length (find (by_id question_quiz_id qid) (questions_collection s)) ->
  forallb int64_ok (answers attempt) = true ->
  Z.of_nat (List.length (answers attempt)) < 2 ^ 63 ->
  exists sc,
    attempt_quiz quiz_id attempt u now oid s =
    (Ok (mkQuizAttemptOut (Bson.str oid) (Bson.str uid) (Bson.str qid)
           (answers attempt) sc now),
     insert_quiz_attempt (mkQuizAttemptDoc oid uid qid (answers attempt) sc now) s).
Proof.
  intros Hq Hu Hf Hl Hans Hlen.
  unfold attempt_quiz, bind, lift, gets, ret. rewrite Hq, Hf.
  rewrite length_map, Hl, Nat.eqb_refl. cbn [negb]. rewrite Hu.
  unfold insert_checked, quiz_attempt_encodable.
  cbn [qa_answers qa_score]. rewrite Hans. cbn [andb].
  rewrite score_loop_enumerate.
  pose proof (matching_positions_bounds (answers attempt)
                (map correct_answer
                   (map to_Question
                      (find (by_id question_quiz_id qid) (questions_collection s)))))
    as Hb.
  rewrite !length_map, <- Hl in Hb.
  assert (Hok : int64_ok
                  (matching_positions (answers attempt)
                     (map correct_answer
                        (map to_Question
                           (find (by_id question_quiz_id qid)
                              (questions_collection s))))) = true).
  { unfold int64_ok. apply andb_true_iff. split; [apply Z.leb_le | apply Z.ltb_lt]; lia. }
  rewrite Hok. unfold modify. eexists. reflexivity.
Qed.

Lemma attempt_quiz_overflow (s : Store) (quiz_id : string) (qid : ObjectId)
    (attempt : QuizAttemptCreate) (u : User) (uid : ObjectId) (now : Z)
    (oid : ObjectId) (quiz : QuizDoc) :
  Bson.ObjectId_new quiz_id = Ok qid ->
  Bson.ObjectId_new (id u) = Ok uid ->
  find_one (by_id quiz_oid qid) (quizzes_collection s) = Some quiz ->
  List.length (answers attempt) =
    List.length (find (by_id question_quiz_id qid) (questions_collection s)) ->
  forallb int64_ok (answers attempt) = false ->
  attempt_quiz quiz_id attempt u now oid s = (Raise OverflowError, s).
Proof.
  intros Hq Hu Hf Hl Hans.
  unfold attempt_quiz, bind, lift, gets, ret. rewrite Hq, Hf.
  rewrite length_map, Hl, Nat.eqb_refl. cbn [negb]. rewrite Hu.
  unfold insert_checked, quiz_attempt_encodable.
  cbn [qa_answers qa_score]. rewrite Hans. reflexivity.
Qed.

(** X20: quiz attempts accumulate: each attempt that answers every question
    of an existing quiz with answers that fit the driver's eight-byte integers
    adds exactly one to the total of the caller's own listing for that quiz, a
    second identical attempt adds one more, and the totals every other user
    sees for the quiz stay as they were; an attempt with an answer outside 64
    bits raises [OverflowError] and leaves the store, and so every listing, as
    it was. *)
Theorem attempt_adds_one_to_own_listing (s : Store) (quiz_id : string)
    (qid : ObjectId) (attempt : QuizAttemptCreate) (u : User) (uid : ObjectId)
    (now now' : Z) (oid oid' : ObjectId) (quiz : QuizDoc) (page_ size_ : Z) :
  Bson.ObjectId_new quiz_id = Ok qid ->
  Bson.ObjectId_new (id u) = Ok uid ->
  find_one (by_id quiz_oid qid) (quizzes_collection s) = Some quiz ->
  List.length (answers attempt) =
    List.length (find (by_id question_quiz_id qid) (questions_collection s)) ->
  1 <= size_ ->
  Z.of_nat (List.length (answers attempt)) < 2 ^ 63 ->
  let s1 := snd (attempt_quiz quiz_id attempt u now oid s) in
  let s2 := snd (attempt_quiz quiz_id attempt u now' oid' s1) in
  (forallb int64_ok (answers attempt) = true ->
   exists p p1 p2,
     list_quiz_attempts quiz_id u page_ size_ s = (Ok p, s) /\
     list_quiz_attempts quiz_id u page_ size_ s1 = (Ok p1, s1) /\
     list_quiz_attempts quiz_id u page_ size_ s2 = (Ok p2, s2) /\
     total p1 = total p + 1 /\
     total p2 = total p + 2 /\
     (forall u' uid',
        Bson.ObjectId_new (id u') = Ok uid' -> uid' <> uid ->
        exists q q2,
          list_quiz_attempts quiz_id u' page_ size_ s = (Ok q, s) /\
          list_quiz_attempts quiz_id u' page_ size_ s2 = (Ok q2, s2) /\
          total q2 = total q)) /\
  (forallb int64_ok (answers attempt) = false ->
   attempt_quiz quiz_id attempt u now oid s = (Raise OverflowError, s) /\
   s1 = s /\ s2 = s).
Proof.
  intros Hq Hu Hf Hl Hs Hlen s1 s2. split.
  2:{ intros Hans.
      pose proof (attempt_quiz_overflow s quiz_id qid attempt u uid now oid quiz
                    Hq Hu Hf Hl Hans) as Hr1.
      assert (Hs1 : s1 = s) by (subst s1; rewrite Hr1; reflexivity).
      split; [exact Hr1|]. split; [exact Hs1|].
      subst s2. rewrite Hs1.
      rewrite (attempt_quiz_overflow s quiz_id qid attempt u uid now' oid' quiz
                 Hq Hu Hf Hl Hans). reflexivity. }
  intros Hans.
  destruct (attempt_quiz_run s quiz_id qid attempt u uid now oid quiz Hq Hu Hf Hl
              Hans Hlen) as [sc Hr1].
  assert (Hs1 : s1 = insert_quiz_attempt
                       (mkQuizAttemptDoc oid uid qid (answers attempt) sc now) s)
    by (subst s1; rewrite Hr1; reflexivity).
  assert (Hf1 : find_one (by_id quiz_oid qid) (quizzes_collection s1) = Some quiz)
    by (rewrite Hs1; exact Hf).
  assert (Hl1 : List.length (answers attempt) =
                List.length (find (by_id question_quiz_id qid) (questions_collection s1)))
    by (rewrite Hs1; exact Hl).
  destruct (attempt_quiz_run s1 quiz_id qid attempt u uid now' oid' quiz Hq Hu Hf1 Hl1
              Hans Hlen) as [sc' Hr2].
  assert (Hs2 : s2 = insert_quiz_attempt
                       (mkQuizAttemptDoc oid' uid qid (answers attempt) sc' now') s1)
    by (subst s2; rewrite Hr2; reflexivity).
  destruct (list_quiz_attempts_total s quiz_id qid u uid page_ size_ Hq Hu Hs)
    as (p & Hp & Tp).
  destruct (list_quiz_attempts_total s1 quiz_id qid u uid page_ size_ Hq Hu Hs)
    as (p1 & Hp1 & Tp1).
  destruct (list_quiz_attempts_total s2 quiz_id qid u uid page_ size_ Hq Hu Hs)
    as (p2 & Hp2 & Tp2).
  exists p, p1, p2.
  assert (T1 : total p1 = total p + 1).
  { rewrite Tp1, Tp, Hs1. cbn [insert_quiz_attempt quiz_attempts_collection].
    rewrite count_documents_insert. cbn [qa_quiz_id qa_user_id].
    rewrite !oid_eqb_refl. reflexivity. }
  assert (T2 : total p2 = total p1 + 1).
  { rewrite Tp2, Tp1, Hs2. cbn [insert_quiz_attempt quiz_attempts_collection].
    rewrite count_documents_insert. cbn [qa_quiz_id qa_user_id].
    rewrite !oid_eqb_refl. reflexivity. }
  repeat (split; [first [assumption | lia]|]).
  intros u' uid' Hu' Hne.
  destruct (list_quiz_attempts_total s quiz_id qid u' uid' page_ size_ Hq Hu' Hs)
    as (q & Hq0 & Tq).
  destruct (list_quiz_attempts_total s2 quiz_id qid u' uid' page_ size_ Hq Hu' Hs)
    as (q2 & Hq2 & Tq2).
  exists q, q2. split; [exact Hq0|]. split; [exact Hq2|].
  rewrite Tq2, Tq, Hs2, Hs1. cbn [insert_quiz_attempt quiz_attempts_collection].
  rewrite !count_documents_insert. cbn [qa_quiz_id qa_user_id].
  assert (Hneq : Bson.eqb uid uid' = false)
    by (apply oid_eqb_neq; congruence).
  rewrite Hneq, andb_false_r. lia.
Qed.

Lemma attempt_adds_one_to_own_listing_witness :
  let s1 := snd (attempt_quiz Sample.quiz_id (mkQuizAttemptCreate [2; 1]) Sample.bob
                   1700000000 (Sample.oid Sample.fresh_id) Sample.school) in
  (exists p p1,
     list_quiz_attempts Sample.quiz_id Sample.bob 1 10 Sample.school
       = (Ok p, Sample.school) /\
     list_quiz_attempts Sample.quiz_id Sample.bob 1 10 s1 = (Ok p1, s1) /\
     total p1 = total p + 1) /\
  snd (attempt_quiz Sample.quiz_id (mkQuizAttemptCreate [2; 2 ^ 63]) Sample.bob
         1700000000 (Sample.oid Sample.fresh_id) Sample.school) = Sample.school.
Proof.
  split.
  - destruct (attempt_adds_one_to_own_listing Sample.school Sample.quiz_id
                (Sample.oid Sample.quiz_id) (mkQuizAttemptCreate [2; 1]) Sample.bob
                (Sample.oid Sample.bob_id) 1700000000 1700000001
                (Sample.oid Sample.fresh_id) (Sample.oid Sample.fresh_id2) Sample.quiz1
                1 10 eq_refl eq_refl eq_refl eq_refl ltac:(lia) ltac:(cbn; lia))
      as [Hok _].
    destruct (Hok eq_refl) as (p & p1 & p2 & Hp & Hp1 & _ & T1 & _).
    exists p, p1. split; [exact Hp|]. split; [exact Hp1 | exact T1].
  - destruct (attempt_adds_one_to_own_listing Sample.school Sample.quiz_id
                (Sample.oid Sample.quiz_id) (mkQuizAttemptCreate [2; 2 ^ 63]) Sample.bob
                (Sample.oid Sample.bob_id) 1700000000 1700000001
                (Sample.oid Sample.fresh_id) (Sample.oid Sample.fresh_id2) Sample.quiz1
                1 10 eq_refl eq_refl eq_refl eq_refl ltac:(lia) ltac:(cbn; lia))
      as [_ Hov].
    destruct (Hov eq_refl) as (_ & Hs1 & _). exact Hs1.
Defined.

(** ** Listing and reading lessons *)

Lemma map_res_to_LessonOut_ok (l : list LessonDoc) :
  Forall (fun d => lesson_resource_links d <> None) l ->
  exists outs,
    map_res to_LessonOut l = Ok outs /\
    map lo_id outs = map (fun d => Bson.str (lesson_oid d)) l /\
    map lo_title outs = map lesson_title l.
Proof.
  induction l as [|d l IH]; intros H.
  - exists []. repeat split.
  - inversion H as [|? ? Hd Hl]; subst.
    destruct (IH Hl) as (outs & Ho & Hi & Ht).
    cbn [map_res]. unfold to_LessonOut at 1, LessonOut_new.
    destruct (lesson_resource_links d) as [r|]; [|contradiction].
    rewrite Ho. eexists. split; [reflexivity|]. cbn. rewrite Hi, Ht. split; reflexivity.
Qed.

Lemma map_res_to_LessonOut_raise (l : list LessonDoc) :
  Exists (fun d => lesson_resource_links d = None) l ->
  map_res to_LessonOut l = Raise (PydanticValidationError "resource_links").
Proof.
  induction l as [|d l IH]; intros H; [inversion H|].
  cbn [map_res]. unfold to_LessonOut at 1, LessonOut_new.
  destruct (lesson_resource_links d) as [r|] eqn:Hd; [|reflexivity].
  inversion H as [? ? Hx | ? ? Hx]; subst; [congruence|].
  rewrite (IH Hx). reflexivity.
Qed.

(** X21: for [size >= 1], [list_lessons] answers 400 for a course id that
    bson's [ObjectId] rejects.  For an id bson accepts (24 characters that
    [bytes.fromhex] reads, blanks between bytes included) it returns the page
    when every lesson on the requested page has resource links, with the total
    number of lessons of the course, so an empty page for an id no lesson
    refers to; when some lesson on the page was stored without resource
    links, building the response fails and the catch-all clause answers 500.
    The store is never changed. *)
Theorem list_lessons_outcomes (s : Store) (course_id : string) (page_ size_ : Z) :
  1 <= size_ ->
  (Bson.is_valid course_id = false ->
     list_lessons course_id page_ size_ s
       = (Raise (HTTPException 400 "Invalid course ID format"), s)) /\
  (forall cid,
     Bson.ObjectId_new course_id = Ok cid ->
     let on_page := items_of_page (lessons_collection s) (by_id lesson_course_id cid)
                      size_ page_ in
     (Forall (fun d => lesson_resource_links d <> None) on_page ->
        exists p,
          list_lessons course_id page_ size_ s = (Ok p, s) /\
          total p = count_documents (by_id lesson_course_id cid) (lessons_collection s) /\
          map lo_id (items p) = map (fun d => Bson.str (lesson_oid d)) on_page) /\
     (Exists (fun d => lesson_resource_links d = None) on_page ->
        list_lessons course_id page_ size_ s
          = (Raise (HTTPException 500 "Internal server error"), s))).
Proof.
  intros Hs. unfold list_lessons, try_except, bind, lift, ret. split.
  - unfold Bson.is_valid.
    destruct (Bson.ObjectId_new course_id) as [cid|e] eqn:Hp; [discriminate|].
    intros _. unfold id_format_handler, Bson.is_valid. rewrite Hp, orb_true_r.
    reflexivity.
  - intros cid Hp. rewrite Hp.
    set (on_page := items_of_page (lessons_collection s) (by_id lesson_course_id cid)
                      size_ page_).
    assert (Hpage : on_page =
                    limit size_ (skip ((page_ - 1) * size_)
                      (find (by_id lesson_course_id cid) (lessons_collection s)))).
    { subst on_page. unfold items_of_page.
      rewrite paginate_collection_ok by exact Hs. reflexivity. }
    rewrite paginate_collection_ok by exact Hs. cbn [items]. rewrite <- Hpage.
    split.
    + intros Hall. destruct (map_res_to_LessonOut_ok on_page Hall) as (outs & Ho & Hi & _).
      rewrite Ho. eexists. split; [reflexivity|]. cbn [with_items total items].
      split; [reflexivity | exact Hi].
    + intros Hex. rewrite (map_res_to_LessonOut_raise on_page Hex).
      unfold id_format_handler, Bson.is_valid. rewrite Hp. reflexivity.
Qed.

Lemma list_lessons_outcomes_witness :
  list_lessons "abc" 1 10 Sample.school
    = (Raise (HTTPException 400 "Invalid course ID format"), Sample.school) /\
  list_lessons Sample.course_id 1 10 Sample.school
    = (Raise (HTTPException 500 "Internal server error"), Sample.school) /\
  exists p,
    list_lessons "64b7f0c2a1d3e4f5a6b7c8  " 1 10 Sample.school = (Ok p, Sample.school) /\
    total p = 0 /\ items p = [].
Proof.
  destruct (list_lessons_outcomes Sample.school "abc" 1 10 ltac:(lia)) as [H400 _].
  destruct (list_lessons_outcomes Sample.school Sample.course_id 1 10 ltac:(lia))
    as [_ H].
  destruct (list_lessons_outcomes Sample.school "64b7f0c2a1d3e4f5a6b7c8  " 1 10
              ltac:(lia)) as [_ Hblank].
  split; [|split].
  - apply H400. reflexivity.
  - destruct (H (Sample.oid Sample.course_id) eq_refl) as [_ H500].
    apply H500. apply Exists_cons_hd. reflexivity.
  - destruct (Hblank (Sample.oid "64b7f0c2a1d3e4f5a6b7c8") eq_refl) as [Hpage _].
    destruct (Hpage (Forall_nil _)) as (p & Hp & Ht & Hi).
    exists p. split; [exact Hp|]. split; [exact Ht|].
    destruct (items p); [reflexivity | discriminate Hi].
Defined.

(** X22: after the creator of a course has added a lesson under an id no
    stored lesson has yet, [get_lesson] on that id gives back what
    [create_lesson] answered: the same lesson when the body had resource
    links, and the same validation failure when it had none. *)
Theorem create_lesson_then_get_lesson (s : Store) (course_id : string)
    (cid : ObjectId) (lesson : LessonCreate) (u : User) (uid inserted_id : ObjectId) :
  Bson.ObjectId_new course_id = Ok cid ->
  Bson.ObjectId_new (id u) = Ok uid ->
  is_creator s cid uid = true ->
  oid_well_formed inserted_id = true ->
  find_one (by_id lesson_oid inserted_id) (lessons_collection s) = None ->
  let r := create_lesson course_id lesson u inserted_id s in
  get_lesson (Bson.str inserted_id) (snd r) = (fst r, snd r).
Proof.
  intros Hc Hu Hcr Hwf Hfresh r. subst r.
  unfold create_lesson, bind.
  destruct (get_course_creator_user_run s course_id cid u uid Hc Hu)
    as [[_ Hrun] | [Hno _]]; [|congruence].
  rewrite Hrun. unfold lift, modify. rewrite Hc. cbn [fst snd].
  set (d := mkLessonDoc inserted_id (lcr_title lesson) (lcr_video_url lesson)
              (lcr_resource_links lesson) cid).
  unfold get_lesson, bind, lift, gets.
  destruct (LessonOut_new (Bson.str inserted_id) (lcr_title lesson)
              (lcr_video_url lesson) (lcr_resource_links lesson) (Bson.str cid))
    as [out|e] eqn:Hnew; cbn [fst snd];
    rewrite (ObjectId_new_str inserted_id Hwf);
    cbn [insert_lesson lessons_collection]; rewrite find_one_app, Hfresh;
    unfold by_id at 1; cbn [lesson_oid d]; subst d; cbn [lesson_oid];
    rewrite oid_eqb_refl; cbn [lesson_title lesson_video_url lesson_resource_links
                                 lesson_course_id lesson_oid];
    rewrite Hnew; reflexivity.
Qed.

Lemma create_lesson_then_get_lesson_witness :
  fst (get_lesson Sample.fresh_id
         (snd (create_lesson Sample.course_id SampleMore.lesson_without_links
                 Sample.alice (Sample.oid Sample.fresh_id) Sample.school)))
    = Raise (PydanticValidationError "resource_links") /\
  fst (get_lesson Sample.fresh_id
         (snd (create_lesson Sample.course_id SampleMore.lesson_with_links
                 Sample.alice (Sample.oid Sample.fresh_id) Sample.school)))
    = Ok (mkLessonOut Sample.fresh_id "Lesson 2" "video-2" "notes" Sample.course_id).
Proof.
  split.
  - exact (f_equal fst
             (create_lesson_then_get_lesson Sample.school Sample.course_id
                (Sample.oid Sample.course_id) SampleMore.lesson_without_links
                Sample.alice (Sample.oid Sample.alice_id) (Sample.oid Sample.fresh_id)
                eq_refl eq_refl eq_refl eq_refl eq_refl)).
  - exact (f_equal fst
             (create_lesson_then_get_lesson Sample.school Sample.course_id
                (Sample.oid Sample.course_id) SampleMore.lesson_with_links
                Sample.alice (Sample.oid Sample.alice_id) (Sample.oid Sample.fresh_id)
                eq_refl eq_refl eq_refl eq_refl eq_refl)).
Defined.
